(** * Synthetic Kinesis producers: stream provisioning and emission loops

    A shallow embedding of [json_producer.py] and [data_producer.py].

    The scripts talk to three outside parties: the Kinesis backend (through
    the boto3 client), the pseudo random generators and the wall clock.
    Their answers are not computed by the scripts, so they are taken from an
    [environment] of oracles, and so is what the platform makes of a sleep
    of weeks; everything the scripts do to the outside
    (requests, console lines, sleeps) is recorded, in order, in the
    [history] of the [world].  Python code becomes code of a state and
    exception monad [M] over that world. *)

From stdpp Require Import base list strings gmap sorting.
From Stdlib Require Import ZArith Lia Floats.SpecFloat.

Local Open Scope Z_scope.

(** ** Python values *)

(** Instances of Python's [Exception] that the scripts can meet.
    [ClientError code] stands for a botocore service error with the given
    error code, [ConnectionError] for a failure to reach the service,
    [OSError errno] for a system call that the platform refuses. *)
Inductive exn :=
  | KeyError (key : string)
  | IndexError
  | TypeError
  | ValueError (msg : string)
  | OverflowError
  | ZeroDivisionError
  | ClientError (code : string)
  | ConnectionError (msg : string)
  | OSError (errno : Z).

(** A Python [float] is an IEEE 754 binary64 number. *)
Module float.

Definition prec : Z := 53.
Definition emax : Z := 1024.

Definition t : Type := spec_float.

(** The double nearest to the integer [z] (infinite when [z] is too large). *)
Definition of_int (z : Z) : t := binary_normalize prec emax z 0 false.

(** [float(z)], and the conversion of an integer operand met by a float
    one: Python refuses an integer beyond the doubles. *)
Definition of_pyint (z : Z) : exn + t :=
  match of_int z with
  | S754_infinity _ => inl OverflowError
  | x => inr x
  end.

(** [a / b] for two integers: the correctly rounded quotient. *)
Definition int_truediv (a b : Z) : exn + t :=
  match a, b with
  | _, Z0 => inl ZeroDivisionError
  | Z0, _ => inr (S754_zero (b <? 0))
  | _, _ =>
      let '(mz, ez, lz) := SFdiv_core_binary prec emax (Z.abs a) 0 (Z.abs b) 0 in
      match binary_round_aux prec emax (xorb (a <? 0) (b <? 0)) mz ez lz with
      | S754_infinity _ => inl OverflowError
      | x => inr x
      end
  end.

(** The double nearest to [m * 2^e]. *)
Definition ldexp (m e : Z) : t := binary_normalize prec emax m e false.

Definition zero : t := S754_zero false.

Definition mul : t → t → t := SFmul prec emax.
Definition sub : t → t → t := SFsub prec emax.
Definition div : t → t → t := SFdiv prec emax.
Definition ltb : t → t → bool := SFltb.
Definition leb : t → t → bool := SFleb.

(** [int(x)]: truncation towards zero; Python raises on the non-finite. *)
Definition to_int (x : t) : exn + Z :=
  match x with
  | S754_zero _ => inr 0
  | S754_finite s m e =>
      let a := match e with
               | Zneg p => Z.pos m / 2 ^ Z.pos p
               | _ => Z.pos m * 2 ^ e
               end in
      inr (if s then - a else a)
  | S754_infinity _ => inl OverflowError
  | S754_nan => inl (ValueError "cannot convert float NaN to integer")
  end.

(** [x] rounded to an integer away from zero ([ceil] of a positive [x],
    [floor] of a negative one); nothing for the non-finite. *)
Definition round_away (x : t) : option Z :=
  match x with
  | S754_zero _ => Some 0
  | S754_finite s m e =>
      let a := match e with
               | Zneg p => (Z.pos m + 2 ^ Z.pos p - 1) / 2 ^ Z.pos p
               | _ => Z.pos m * 2 ^ e
               end in
      Some (if s then - a else a)
  | _ => None
  end.

(** The value of a finite double, in units of [2^-1074] (the smallest
    positive double), so that every finite double is an integer. *)
Definition scaled (x : t) : option Z :=
  match x with
  | S754_zero _ => Some 0
  | S754_finite s m e =>
      if e <? -1074 then None
      else Some ((if s then Z.neg m else Z.pos m) * 2 ^ (e + 1074))
  | _ => None
  end.

(** [v] is the whole number [z]. *)
Definition whole (v : t) (z : Z) : Prop :=
  v = of_int z ∧ scaled v = Some (z * 2 ^ 1074).

(** [lo <= v < hi], for integers [lo] and [hi]. *)
Definition within (lo hi : Z) (v : t) : Prop :=
  ∃ y, scaled v = Some y ∧ lo * 2 ^ 1074 ≤ y < hi * 2 ^ 1074.

(** The grid of the doubles around [X > 0], a value in units of
    [2^-1074]: the doubles of the binade of [X] are the multiples of
    [2 ^ grid X]. *)
Definition grid (X : Z) : Z := Z.max (Z.log2 X - 52) 0.

(** [R] is a nearest integer to [X / 2^n]. *)
Definition nearest (X n R : Z) : Prop :=
  X / 2 ^ n ≤ R ≤ X / 2 ^ n + 1
  ∧ (2 * (X `mod` 2 ^ n) < 2 ^ n → R = X / 2 ^ n)
  ∧ (2 ^ n < 2 * (X `mod` 2 ^ n) → R = X / 2 ^ n + 1).

End float.

Inductive pyval :=
  | PyInt (z : Z)
  | PyFloat (f : float.t)
  | PyStr (s : string).

(** A Python [dict] with string keys. *)
Abbreviation dict := (gmap string pyval).

(** What [json.dumps] is applied to: one object, or a list of objects.
    The document is kept as the value it encodes ([json.dumps] writes a
    float so that reading it back gives the same double). *)
Inductive json :=
  | JObject (obj : dict)
  | JArray (objs : list dict).

(** ** The outside world *)

(** A [describe_stream] response; [StreamStatus] is [None] when the
    response lacks ["StreamDescription"]["StreamStatus"]. *)
Record response := { StreamStatus : option string }.

Inductive reply :=
  | Returns (body : response)
  | Raises (e : exn).

Inductive request :=
  | DescribeStream (StreamName : string)
  | CreateStream (StreamName : string) (ShardCount : Z)
  | PutRecord (StreamName : string) (Data : json) (PartitionKey : string).

(** Console lines, by the [print] that writes them. *)
Inductive message :=
  | MsgConnecting (stream region : string)
  | MsgStatusSleeping (stream status : string) (seconds : Z)
  | MsgBeingDeleted (stream : string)
  | MsgCreating (stream : string)
  | MsgSendingEvery (seconds : float.t)
  | MsgSent (sequence value msg_type : pyval) (stream : string)
  | MsgPutRecordFailed (data : json) (stream : string)
  | MsgPutSensorFailed (stream : string)
  | MsgException (e : exn).

Inductive event :=
  | Called (rq : request) (rp : reply)
  | Printed (m : message)
  | Slept (seconds : float.t).

(** The oracles.  Each is asked with the number of questions put to the
    environment so far.  The last one is consulted, without counting as
    a question, for a sleep of [2^51] nanoseconds (26 days) or more only:
    whether such a sleep begins depends on the platform (before Python
    3.11 Windows refuses [2^32] ms and more; [select] of macOS refuses
    more than [10^8] s; Linux refuses a deadline that its clock cannot
    hold). *)
Record environment := {
  backend : nat → reply;       (* the answer of Kinesis to a request *)
  entropy : nat → Z;           (* a word of the random generator *)
  clock : nat → string;        (* [str(datetime.datetime.now())] *)
  timer : nat → Z → option exn;  (* what refuses a very long sleep, if anything *)
}.

Record world := {
  asked : nat;                 (* questions put to the environment *)
  history : list event;        (* what happened, oldest first *)
}.

Definition genesis : world := {| asked := 0; history := [] |}.

(** The environment [env] with another backend. *)
Definition with_backend (env : environment) (b : nat → reply) : environment :=
  {| backend := b; entropy := entropy env; clock := clock env; timer := timer env |}.

(** ** The monad *)

(** [Diverged]: the computation is still inside a loop when the fuel of the
    model ends. *)
Inductive outcome (A : Type) :=
  | Ok (a : A)
  | Raised (e : exn)
  | Diverged.
Arguments Ok {A} a.
Arguments Raised {A} e.
Arguments Diverged {A}.

Definition M (A : Type) : Type := world → outcome A * world.

Definition ret {A} (a : A) : M A := λ w, (Ok a, w).

Definition bind {A B} (m : M A) (k : A → M B) : M B :=
  λ w, match m w with
       | (Ok a, w') => k a w'
       | (Raised e, w') => (Raised e, w')
       | (Diverged, w') => (Diverged, w')
       end.

Definition raise {A} (e : exn) : M A := λ w, (Raised e, w).

Definition diverge {A} : M A := λ w, (Diverged, w).

(** [try: m  except Exception as e: h e] (also the bare [except:], the
    model having no exception outside [Exception]). *)
Definition try_except {A} (m : M A) (h : exn → M A) : M A :=
  λ w, match m w with
       | (Raised e, w') => h e w'
       | r => r
       end.

Declare Scope py_scope.
Delimit Scope py_scope with py.
Notation "x <- m ;; k" := (bind m (λ x, k))
  (at level 100, m at next level, right associativity) : py_scope.
Notation "m ;; k" := (bind m (λ _, k))
  (at level 100, right associativity) : py_scope.
Local Open Scope py_scope.

Definition observe (ev : event) : M unit :=
  λ w, (Ok tt, {| asked := asked w; history := history w ++ [ev] |}).

Definition ask {A} (oracle : nat → A) : M A :=
  λ w, (Ok (oracle (asked w)), {| asked := S (asked w); history := history w |}).

Definition lift {A} (r : exn + A) : M A :=
  match r with inl e => raise e | inr a => ret a end.

Definition print (m : message) : M unit := observe (Printed m).

(** N iterations of a loop body threading the local variables [s]. *)
Fixpoint iterate {S} (N : nat) (body : S → M S) (s : S) : M S :=
  match N with
  | O => ret s
  | Datatypes.S N' => s' <- body s ;; iterate N' body s'
  end.

(** [while True: body], cut after [fuel] iterations. *)
Definition forever {S A} (fuel : nat) (body : S → M S) (s : S) : M A :=
  iterate fuel body s ;; diverge.

(** [for x in xs: body], threading the local variables [s]. *)
Fixpoint for_each {X S} (xs : list X) (body : X → S → M S) (s : S) : M S :=
  match xs with
  | [] => ret s
  | x :: xs' => s' <- body x s ;; for_each xs' body s'
  end.

(** [range(n)] *)
Definition range (n : Z) : list Z := Z.of_nat <$> seq 0 (Z.to_nat n).

(** ** Library calls *)

(** The length of a sleep in nanoseconds, as [time.sleep] takes it from a
    float (CPython 3.6 and later, [_PyTime_FromSecondsObject] with
    [_PyTime_ROUND_TIMEOUT]): the seconds times [1e9], rounded away from
    zero, within the 64-bit integers.  The upper end [2^63] passes the
    range check of the C code, which compares doubles. *)
Definition nanoseconds (seconds : float.t) : exn + Z :=
  match seconds with
  | S754_nan => inl (ValueError "Invalid value NaN (not a number)")
  | _ =>
      match float.round_away (float.mul seconds (float.of_int 1000000000)) with
      | None => inl OverflowError
      | Some d =>
          if (d <? - 2 ^ 63) || (2 ^ 63 <? d) then inl OverflowError else inr d
      end
  end.

(** A length that [time.sleep] takes whatever the platform: from 0 to
    below [2^51] nanoseconds, 26 days. *)
Definition sleepable (seconds : float.t) : Prop :=
  ∃ timeout, nanoseconds seconds = inr timeout ∧ 0 ≤ timeout < 2 ^ 51.

Section runtime.
Context (env : environment).

(** A boto3 client method: the request goes out, the backend answers. *)
Definition call (rq : request) : M response :=
  rp <- ask (backend env) ;;
  observe (Called rq rp) ;;
  match rp with
  | Returns body => ret body
  | Raises e => raise e
  end.

Definition describe_stream (StreamName : string) : M response :=
  call (DescribeStream StreamName).

Definition create_stream (StreamName : string) (ShardCount : Z) : M unit :=
  call (CreateStream StreamName ShardCount) ;; ret tt.

Definition put_record (StreamName : string) (Data : json) (PartitionKey : string)
  : M unit :=
  call (PutRecord StreamName Data PartitionKey) ;; ret tt.

(** [stream_description["StreamDescription"]["StreamStatus"]] *)
Definition stream_status (stream_description : response) : M string :=
  match StreamStatus stream_description with
  | Some status => ret status
  | None => raise (KeyError "StreamStatus")
  end.

(** [time.sleep(seconds)]: a length that does not convert is refused, and
    so is a negative one; a very long one is up to the platform. *)
Definition time_sleep (seconds : float.t) : M unit :=
  timeout <- lift (nanoseconds seconds) ;;
  if timeout <? 0 then raise (ValueError "sleep length must be non-negative")
  else if timeout <? 2 ^ 51 then observe (Slept seconds)
  else λ w, match timer env (asked w) timeout with
            | Some e => raise e w
            | None => observe (Slept seconds) w
            end.

(** What [time.sleep(seconds)] raises, if anything, after [k] questions. *)
Definition refusal (seconds : float.t) (k : nat) : option exn :=
  match nanoseconds seconds with
  | inl e => Some e
  | inr timeout =>
      if timeout <? 0 then Some (ValueError "sleep length must be non-negative")
      else if timeout <? 2 ^ 51 then None
      else timer env k timeout
  end.

(** [random.randint(a, b)] and [np.random.randint(a, b + 1)]: an integer
    of [a..b]. *)
Definition randint (a b : Z) : M Z :=
  word <- ask (entropy env) ;; ret (a + word `mod` (b - a + 1)).

(** [random.random()]: [k / 2^53] for an integer [0 <= k < 2^53]. *)
Definition random_random : M float.t :=
  word <- ask (entropy env) ;; ret (float.ldexp (word `mod` 2 ^ 53) (-53)).

(** [str(datetime.datetime.now())] *)
Definition now_str : M string := ask (clock env).

End runtime.

(** [d[key]] *)
Definition getitem (d : dict) (key : string) : M pyval :=
  match d !! key with
  | Some v => ret v
  | None => raise (KeyError key)
  end.

(** [l[i]] and [l[i] = v] for a list, with Python's negative indices. *)
Definition list_index {A} (l : list A) (i : Z) : exn + nat :=
  let j := if i <? 0 then i + Z.of_nat (length l) else i in
  if (0 <=? j) && (j <? Z.of_nat (length l)) then inr (Z.to_nat j) else inl IndexError.

Definition list_getitem {A} (l : list A) (i : pyval) : M A :=
  match i with
  | PyInt i =>
      j <- lift (list_index l i) ;;
      match l !! j with Some a => ret a | None => raise IndexError end
  | _ => raise TypeError
  end.

Definition list_setitem {A} (l : list A) (i : pyval) (a : A) : M (list A) :=
  match i with
  | PyInt i => j <- lift (list_index l i) ;; ret (<[j := a]> l)
  | _ => raise TypeError
  end.

(** [v == z] for an integer literal [z]. *)
Definition py_eq_int (v : pyval) (z : Z) : bool :=
  match v with
  | PyInt i => i =? z
  | PyFloat f => SFeqb f (float.of_int z)
  | PyStr _ => false
  end.

(** ** Stream provisioning

    [wait_for_stream] and [connect_to_stream] have the same text in both
    scripts. *)

Section provisioning.
Context (env : environment).

(** The two lines that always go together:
    [stream_description = kinesis_client.describe_stream(StreamName=stream_name)]
    and [status = stream_description["StreamDescription"]["StreamStatus"]]. *)
Definition describe_status (stream_name : string) : M string :=
  stream_description <- describe_stream env stream_name ;;
  stream_status stream_description.

(** First loop of [wait_for_stream]: describe until a response carries a
    status; only [KeyError] is retried (at once, without sleeping). *)
Fixpoint wait_for_description (fuel : nat) (stream_name : string) : M string :=
  match fuel with
  | O => diverge
  | S fuel' =>
      try_except
        (describe_status stream_name)
        (λ e, match e with
              | KeyError _ => wait_for_description fuel' stream_name
              | _ => raise e
              end)
  end.

(** Second loop of [wait_for_stream]: [while status != 'ACTIVE']. *)
Fixpoint wait_for_active (fuel : nat) (stream_name status : string)
    (sleep_seconds : Z) : M unit :=
  if String.eqb status "ACTIVE" then ret tt
  else match fuel with
       | O => diverge
       | S fuel' =>
           print (MsgStatusSleeping stream_name status sleep_seconds) ;;
           time_sleep env (float.of_int sleep_seconds) ;;
           status' <- describe_status stream_name ;;
           wait_for_active fuel' stream_name status' sleep_seconds
       end.

Definition wait_for_stream (fuel : nat) (stream_name : string)
    (sleep_seconds : Z) : M unit :=
  status <- wait_for_description fuel stream_name ;;
  wait_for_active fuel stream_name status sleep_seconds.

(** The body of the [try] of [connect_to_stream]; [Some b] when it leaves
    the function by [return b]. *)
Definition connect_attempt (fuel : nat) (stream_name : string) : M (option bool) :=
  status <- describe_status stream_name ;;
  if String.eqb status "DELETING" then
    print (MsgBeingDeleted stream_name) ;;
    ret (Some false)
  else if negb (String.eqb status "ACTIVE") then
    wait_for_stream fuel stream_name 3 ;;
    ret None
  else ret None.

(** The [except:] of [connect_to_stream]. *)
Definition connect_create (fuel : nat) (stream_name : string) : M (option bool) :=
  print (MsgCreating stream_name) ;;
  create_stream env stream_name 1 ;;
  wait_for_stream fuel stream_name 3 ;;
  ret None.

Definition connect_to_stream (fuel : nat) (stream_name : string) : M bool :=
  returned <- try_except (connect_attempt fuel stream_name)
                         (λ _, connect_create fuel stream_name) ;;
  match returned with
  | Some b => ret b
  | None => ret true
  end.

End provisioning.

(** ** [json_producer.py]: one sample per record, of a random type *)

Module json_producer.

(** The parsed command line ([create_parser]). *)
Record args := {
  stream_name : string;
  region : string;
  period : option Z;
  silent : bool;
}.

Section script.
Context (env : environment).

Definition wait_for_stream := wait_for_stream env.
Definition connect_to_stream := connect_to_stream env.

(** [sleep_s = 0.0 if args.period is None else args.period / 1000]
    (Python 3: [/] on two integers is the true division). *)
Definition sleep_s (a : args) : exn + float.t :=
  match period a with
  | None => inr float.zero
  | Some p => float.int_truediv p 1000
  end.

(** [0 if r < 401 else (1 if r < 501 else 2)] *)
Definition msg_type_of (r : Z) : Z :=
  if r <? 401 then 0 else if r <? 501 then 1 else 2.

(** Lines 81 to 90: the object of this iteration and the counters. *)
Definition create_object (n : list Z) : M (dict * list Z) :=
  let obj : dict := ∅ in
  r <- randint env 1 501 ;;
  let obj := <["msg_type" := PyInt (msg_type_of r)]> obj in
  msg_type <- getitem obj "msg_type" ;;
  obj <- (if py_eq_int msg_type 1 then
            u <- random_random env ;;
            i <- lift (float.to_int (float.mul u (float.of_int 256))) ;;
            value <- lift (float.of_pyint i) ;;
            ret (<["value" := PyFloat value]> obj)
          else
            u <- random_random env ;;
            ret (<["value" := PyFloat (float.sub (float.mul u (float.of_int 2000))
                                                 (float.of_int 1000))]> obj)) ;;
  msg_type <- getitem obj "msg_type" ;;
  count <- list_getitem n msg_type ;;
  n <- list_setitem n msg_type (count + 1) ;;
  msg_type <- getitem obj "msg_type" ;;
  sequence <- list_getitem n msg_type ;;
  let obj := <["sequence" := PyInt sequence]> obj in
  timestamp <- now_str env ;;
  let obj := <["timestamp" := PyStr timestamp]> obj in
  ret (obj, n).

(** Lines 96 to 104: the publish attempt and its handler. *)
Definition send (a : args) (obj : dict) (json_str : json) : M unit :=
  try_except
    (put_record env (stream_name a) json_str "123" ;;
     if negb (silent a) then
       sequence <- getitem obj "sequence" ;;
       value <- getitem obj "value" ;;
       msg_type <- getitem obj "msg_type" ;;
       print (MsgSent sequence value msg_type (stream_name a))
     else ret tt)
    (λ e,
     print (MsgPutRecordFailed json_str (stream_name a)) ;;
     print (MsgException e)).

(** The body of [while True]; [n] is the list of the three counters. *)
Definition emission (a : args) (sleep_s : float.t) (n : list Z) : M (list Z) :=
  created <- create_object n ;;
  let '(obj, n) := created in
  let json_str := JObject obj in
  send a obj json_str ;;
  time_sleep env sleep_s ;;
  ret n.

Definition main (fuel : nat) (a : args) : M unit :=
  print (MsgConnecting (stream_name a) (region a)) ;;
  connected <- connect_to_stream fuel (stream_name a) ;;
  if negb connected then ret tt
  else
    let n := [0; 0; 0] in
    sleep_s <- lift (sleep_s a) ;;
    (if silent a then print (MsgSendingEvery sleep_s) else ret tt) ;;
    forever fuel (emission a sleep_s) n.

End script.

(** *** What the loop leaves in the history *)

(** The range of the value of a sample, by its type. *)
Definition range_contract (msg_type : Z) (v : float.t) : Prop :=
  if msg_type =? 1 then ∃ z, 0 ≤ z ≤ 255 ∧ float.whole v z
  else float.within (-1000) 1000 v.

Definition sample (msg_type : Z) (value : float.t) (sequence : Z) (timestamp : string) : dict :=
  <["timestamp" := PyStr timestamp]>
    (<["sequence" := PyInt sequence]>
       (<["value" := PyFloat value]>
          (<["msg_type" := PyInt msg_type]> ∅))).

(** What [send] leaves in the history after the request: the line of a
    delivered record unless silent, the two lines of a failure. *)
Definition aftermath (a : args) (msg_type : Z) (value : float.t) (sequence : Z)
    (timestamp : string) (rp : reply) : list event :=
  match rp with
  | Returns _ =>
      if silent a then []
      else [Printed (MsgSent (PyInt sequence) (PyFloat value) (PyInt msg_type) (stream_name a))]
  | Raises e =>
      [Printed (MsgPutRecordFailed (JObject (sample msg_type value sequence timestamp))
                                   (stream_name a));
       Printed (MsgException e)]
  end.

(** The sequence numbers of the records of type [msg_type], in order. *)
Definition sequences (msg_type : Z) (records : list json) : list Z :=
  omap (λ data,
        match data with
        | JObject obj =>
            match obj !! "msg_type", obj !! "sequence" with
            | Some (PyInt t), Some (PyInt c) => if t =? msg_type then Some c else None
            | _, _ => None
            end
        | JArray _ => None
        end) records.

(** A record of the script: one sample, of a type of 0..2, its value in
    the range of its type. *)
Definition well_formed (data : json) : Prop :=
  ∃ t v c ts, data = JObject (sample t v c ts) ∧ 0 ≤ t ≤ 2 ∧ range_contract t v.

End json_producer.

(** ** [data_producer.py]: a fixed batch of objects per record *)

Module data_producer.

Record args := {
  stream_name : string;
  region : string;
  period : option Z;
  objects_per_message : Z;
}.

Section script.
Context (env : environment).

Definition wait_for_stream := wait_for_stream env.
Definition connect_to_stream := connect_to_stream env.

(** [np.random.randint(low, high)]: an integer of [low..high-1]. *)
Definition np_random_randint (low high : Z) : M Z := randint env low (high - 1).

(** Lines 80 to 87: the body of the [for] that fills [objects]. *)
Definition create_object (i : Z) (objects : list dict) : M (list dict) :=
  let obj : dict := ∅ in
  let obj := <["msg_type" := PyInt 3]> obj in
  encoder <- np_random_randint (-180) 180 ;;
  let obj := <["encoder" := PyInt encoder]> obj in
  motor <- np_random_randint (-255) 256 ;;
  let obj := <["motor" := PyInt motor]> obj in
  timestamp <- now_str env ;;
  let obj := <["timestamp" := PyStr timestamp]> obj in
  let obj := <["encoder_counter" := PyInt (i * 100)]> obj in
  let obj := <["motor_counter" := PyInt i]> obj in
  ret (objects ++ [obj]).

(** Lines 78 to 87: [objects]. *)
Definition create_objects (a : args) : M (list dict) :=
  for_each (range (objects_per_message a)) create_object [].

(** [sleep_s = 0.0 if args.period is None or args.period < 0
             else args.period / 1000.0] *)
Definition sleep_s (a : args) : exn + float.t :=
  match period a with
  | None => inr float.zero
  | Some p =>
      if p <? 0 then inr float.zero
      else match float.of_pyint p with
           | inl e => inl e
           | inr x => inr (float.div x (float.of_int 1000))
           end
  end.

(** Lines 94 to 96: the body of the [for] that stamps [objects]. *)
Definition stamp (i : Z) (s : list dict * Z) : M (list dict * Z) :=
  let '(objects, counter) := s in
  timestamp <- now_str env ;;
  obj <- list_getitem objects (PyInt i) ;;
  objects <- list_setitem objects (PyInt i) (<["timestamp" := PyStr timestamp]> obj) ;;
  obj <- list_getitem objects (PyInt i) ;;
  objects <- list_setitem objects (PyInt i) (<["motor_counter" := PyInt counter]> obj) ;;
  ret (objects, counter + 1).

(** Lines 98 to 106: the publish attempt and its handler. *)
Definition send (a : args) (encoder_motor_str : json) : M unit :=
  try_except
    (put_record env (stream_name a) encoder_motor_str "SergiRamis")
    (λ e,
     print (MsgPutSensorFailed (stream_name a)) ;;
     print (MsgException e)).

(** The body of [while True]; the local variables are [objects] and
    [counter]. *)
Definition emission (a : args) (sleep_s : float.t) (s : list dict * Z)
  : M (list dict * Z) :=
  s <- for_each (range (objects_per_message a)) stamp s ;;
  let '(objects, counter) := s in
  let encoder_motor_str := JArray objects in
  send a encoder_motor_str ;;
  time_sleep env sleep_s ;;
  ret (objects, counter).

Definition main (fuel : nat) (a : args) : M unit :=
  print (MsgConnecting (stream_name a) (region a)) ;;
  connected <- connect_to_stream fuel (stream_name a) ;;
  if negb connected then ret tt
  else
    objects <- create_objects a ;;
    sleep_s <- lift (sleep_s a) ;;
    let counter := 0 in
    forever fuel (emission a sleep_s) (objects, counter).

End script.

(** *** What the loop leaves in the history *)

(** An object as the start of [main] makes it. *)
Definition fresh_object (i encoder motor : Z) (timestamp : string) : dict :=
  <["motor_counter" := PyInt i]>
    (<["encoder_counter" := PyInt (i * 100)]>
       (<["timestamp" := PyStr timestamp]>
          (<["motor" := PyInt motor]>
             (<["encoder" := PyInt encoder]>
                (<["msg_type" := PyInt 3]> ∅))))).

(** An object after lines 94 and 95. *)
Definition stamped (timestamp : string) (counter : Z) (obj : dict) : dict :=
  <["motor_counter" := PyInt counter]> (<["timestamp" := PyStr timestamp]> obj).

(** [obj'] is [obj] but for its timestamp and motor counter. *)
Definition same_but_stamp (obj obj' : dict) : Prop :=
  ∀ key : string, key ≠ "timestamp" → key ≠ "motor_counter" → obj' !! key = obj !! key.

(** What [send] leaves in the history after the request. *)
Definition aftermath (a : args) (rp : reply) : list event :=
  match rp with
  | Returns _ => []
  | Raises e => [Printed (MsgPutSensorFailed (stream_name a)); Printed (MsgException e)]
  end.

(** The motor counters of the objects of the records, in order. *)
Definition motor_counters (records : list json) : list Z :=
  records ≫= λ data,
    match data with
    | JArray objs =>
        omap (λ obj : dict, match obj !! "motor_counter" with
                            | Some (PyInt c) => Some c
                            | _ => None
                            end) objs
    | JObject _ => []
    end.

(** The object [i] of the start of [main], when the environment has been
    asked [base] questions before. *)
Definition fresh_at (env : environment) (base i : nat) : dict :=
  fresh_object (Z.of_nat i)
    (-180 + entropy env (base + 3 * i)%nat `mod` 360)
    (-255 + entropy env (base + 3 * i + 1)%nat `mod` 511)
    (clock env (base + 3 * i + 2)%nat).

(** A record of the script made from [objects]: as many objects, each
    the same but for its timestamp and motor counter. *)
Definition restamped (objects : list dict) (data : json) : Prop :=
  ∃ objs, data = JArray objs ∧ Forall2 same_but_stamp objects objs.

End data_producer.

(** ** Reading a history *)

Definition status (s : string) : response := {| StreamStatus := Some s |}.

(** The requests sent to the backend, in order. *)
Definition requests (h : list event) : list request :=
  omap (λ ev, match ev with Called rq _ => Some rq | _ => None end) h.

(** The create requests: stream name and shard count. *)
Definition creations (h : list event) : list (string * Z) :=
  omap (λ rq, match rq with CreateStream name shards => Some (name, shards) | _ => None end)
       (requests h).

(** The records handed to [put_record], delivered or not. *)
Definition attempts (h : list event) : list json :=
  omap (λ rq, match rq with PutRecord _ data _ => Some data | _ => None end) (requests h).

(** The failure of a lookup: the exception of the request, or the
    [KeyError] of a response without status. *)
Definition lookup_error (rp : reply) : option exn :=
  match rp with
  | Raises e => Some e
  | Returns body =>
      match StreamStatus body with
      | Some _ => None
      | None => Some (KeyError "StreamStatus")
      end
  end.

(** An event of the wait for a stream: a describe request, the line that
    tells the status, a sleep. *)
Definition polls (name : string) (ev : event) : Prop :=
  match ev with
  | Called rq _ => rq = DescribeStream name
  | Printed (MsgStatusSleeping _ _ _) => True
  | Slept _ => True
  | _ => False
  end.

(** The statuses [pending], answered to the polls that follow the status
    [current], lead to ACTIVE and not before. *)
Fixpoint leads_to_active (current : string) (pending : list string) : Prop :=
  match pending with
  | [] => current = "ACTIVE"
  | next :: pending' => current ≠ "ACTIVE" ∧ leads_to_active next pending'
  end.

(** What [wait_for_active] does while the polls are answered [pending]. *)
Fixpoint poll_events (name current : string) (pending : list string) : list event :=
  match pending with
  | [] => []
  | next :: pending' =>
      [Printed (MsgStatusSleeping name current 3);
       Slept (float.of_int 3);
       Called (DescribeStream name) (Returns (status next))]
      ++ poll_events name next pending'
  end.

(** The records that the backend has accepted. *)
Definition delivered (h : list event) : list json :=
  omap (λ ev, match ev with
              | Called (PutRecord _ data _) (Returns _) => Some data
              | _ => None
              end) h.

(** A field of a record of one object. *)
Definition field (key : string) (data : json) : option pyval :=
  match data with
  | JObject obj => obj !! key
  | JArray _ => None
  end.

(** The field of each object of a record of several. *)
Definition fields (key : string) (data : json) : list (option pyval) :=
  match data with
  | JObject _ => []
  | JArray objs => (λ obj : dict, obj !! key) <$> objs
  end.

(** A reply after which the first loop of [wait_for_stream] asks again:
    a response without status, or a [KeyError] of the request. *)
Definition unanswered (rp : reply) : Prop :=
  ∃ key, lookup_error rp = Some (KeyError key).

(** The describe requests that take the replies [from], [from + 1], ...,
    [count] of them. *)
Definition lookups (env : environment) (name : string) (from count : nat) : list event :=
  (λ i, Called (DescribeStream name) (backend env (from + i)%nat)) <$> seq 0 count.

(** What [connect_to_stream] does between its two waits: nothing, the
    line of a stream being deleted, or the creation of the stream. *)
Definition decision (name : string) (c : list event) : Prop :=
  c = [] ∨ c = [Printed (MsgBeingDeleted name)]
  ∨ ∃ rp, c = [Printed (MsgCreating name); Called (CreateStream name 1) rp].

(** The lengths of the sleeps, in order. *)
Definition sleeps (h : list event) : list float.t :=
  omap (λ ev, match ev with Slept s => Some s | _ => None end) h.

(** An event of the emission of a script that sends to the stream [name]
    with the partition key [key]: a put request, a line about a record or
    about the period, a sleep. *)
Definition emits (name key : string) (ev : event) : Prop :=
  match ev with
  | Called rq _ => ∃ data, rq = PutRecord name data key
  | Printed (MsgSendingEvery _) | Printed (MsgSent _ _ _ _)
  | Printed (MsgPutRecordFailed _ _) | Printed (MsgPutSensorFailed _)
  | Printed (MsgException _) => True
  | Printed _ => False
  | Slept _ => True
  end.

(** What one iteration of the loop of [json_producer.py] leaves in the
    history: the put request, the lines that tell its course, the sleep. *)
Definition json_iteration (a : json_producer.args) (s : float.t) (b : list event) : Prop :=
  ∃ t v c ts rp,
    b = Called (PutRecord (json_producer.stream_name a)
                          (JObject (json_producer.sample t v c ts)) "123") rp
        :: json_producer.aftermath a t v c ts rp ++ [Slept s].

(** The same for [data_producer.py]. *)
Definition data_iteration (a : data_producer.args) (s : float.t) (b : list event) : Prop :=
  ∃ objs rp,
    b = Called (PutRecord (data_producer.stream_name a) (JArray objs) "SergiRamis") rp
        :: data_producer.aftermath a rp ++ [Slept s]
    ∧ length objs = Z.to_nat (data_producer.objects_per_message a).

(** The two phases of a run: the provisioning, then the emission, which
    begins only after a describe request answered ACTIVE. *)
Definition phases (name key : string) (Δ : list event) : Prop :=
  ∃ Δc Δe,
    Δ = Δc ++ Δe
    ∧ attempts Δc = []
    ∧ (length (creations Δc) ≤ 1)%nat
    ∧ Forall (emits name key) Δe
    ∧ (Δe ≠ [] → ∃ Δ', Δc = Δ' ++ [Called (DescribeStream name) (Returns (status "ACTIVE"))]).

(** ** Environments and command lines of the examples *)

(** A backend that throttles the first lookup of a stream that exists. *)
Definition throttled : environment := {|
  backend := λ i, match i with
                  | O => Raises (ClientError "LimitExceededException")
                  | S O => Raises (ClientError "ResourceInUseException")
                  | _ => Returns (status "ACTIVE")
                  end;
  entropy := λ _, 0;
  clock := λ _, "2017-05-04 12:00:00.000000";
  timer := λ _ _, None;
|}.

(** A backend without the stream: it accepts its creation and reports it
    CREATING twice, then ACTIVE. *)
Definition creating : environment := {|
  backend := λ i, match i with
                  | O => Raises (ClientError "ResourceNotFoundException")
                  | 1%nat => Returns {| StreamStatus := None |}
                  | 2%nat | 3%nat => Returns (status "CREATING")
                  | _ => Returns (status "ACTIVE")
                  end;
  entropy := λ _, 0;
  clock := λ _, "2017-05-04 12:00:00.000000";
  timer := λ _ _, None;
|}.

(** A backend that answers every request with the same reply. *)
Definition steady (rp : reply) : environment := {|
  backend := λ _, rp;
  entropy := λ i, Z.of_nat i * 7919;
  clock := λ _, "2017-05-04 12:00:00.000000";
  timer := λ _ _, None;
|}.

Definition motors_json : json_producer.args := {|
  json_producer.stream_name := "motors";
  json_producer.region := "us-east-1";
  json_producer.period := Some 500;
  json_producer.silent := false;
|}.

Definition motors_data : data_producer.args := {|
  data_producer.stream_name := "motors";
  data_producer.region := "us-east-1";
  data_producer.period := Some 500;
  data_producer.objects_per_message := 2;
|}.

(** 0.5 *)
Definition half : float.t := S754_finite false 4503599627370496 (-53).

(** The backend accepts every record; the random generator draws type 0
    twice, then type 1. *)
Definition mixed : environment := {|
  backend := λ _, Returns {| StreamStatus := None |};
  entropy := λ i, if (i <? 8)%nat then 0 else 400;
  clock := λ _, "2017-05-04 12:00:00.000000";
  timer := λ _ _, None;
|}.

(** Responses without status twice, then ACTIVE. *)
Definition mute : environment := {|
  backend := λ i, match i with
                  | O => Returns {| StreamStatus := None |}
                  | 1%nat => Raises (KeyError "StreamDescription")
                  | _ => Returns (status "ACTIVE")
                  end;
  entropy := λ _, 0;
  clock := λ _, "2017-05-04 12:00:00.000000";
  timer := λ _ _, None;
|}.

(** A stream being created; the second poll is throttled, and so the
    stream is there when the script asks for its creation. *)
Definition interrupted : environment := {|
  backend := λ i, match i with
                  | O | 1%nat => Returns (status "CREATING")
                  | 2%nat => Raises (ClientError "LimitExceededException")
                  | 3%nat => Raises (ClientError "ResourceInUseException")
                  | _ => Returns (status "ACTIVE")
                  end;
  entropy := λ _, 0;
  clock := λ _, "2017-05-04 12:00:00.000000";
  timer := λ _ _, None;
|}.

(** A stream being updated: UPDATING twice, then ACTIVE. *)
Definition updating : environment := {|
  backend := λ i, match i with
                  | O | 1%nat => Returns (status "UPDATING")
                  | _ => Returns (status "ACTIVE")
                  end;
  entropy := λ _, 0;
  clock := λ _, "2017-05-04 12:00:00.000000";
  timer := λ _ _, None;
|}.

(** A period of -1 ms, silently. *)
Definition backwards : json_producer.args := {|
  json_producer.stream_name := "motors";
  json_producer.region := "us-east-1";
  json_producer.period := Some (-1);
  json_producer.silent := true;
|}.

(** No object per message. *)
Definition hollow : data_producer.args := {|
  data_producer.stream_name := "motors";
  data_producer.region := "us-east-1";
  data_producer.period := None;
  data_producer.objects_per_message := 0;
|}.

(** A period of 10^13 ms, more than three centuries. *)
Definition aeon_json : json_producer.args := {|
  json_producer.stream_name := "motors";
  json_producer.region := "us-east-1";
  json_producer.period := Some 10000000000000;
  json_producer.silent := false;
|}.

Definition aeon_data : data_producer.args := {|
  data_producer.stream_name := "motors";
  data_producer.region := "us-east-1";
  data_producer.period := Some 10000000000000;
  data_producer.objects_per_message := 2;
|}.

(** * Facts *)

(** ** Rounding to the nearest double *)

Section rounding.
Import float.

Lemma digits2_pos_bounds (m : positive) :
  2 ^ (Z.pos (digits2_pos m) - 1) ≤ Z.pos m < 2 ^ Z.pos (digits2_pos m).
Proof.
  induction m as [m IH|m IH|]; cbn [digits2_pos]; [| |cbn; lia].
  all: rewrite Pos2Z.inj_succ.
  all: replace (Z.succ (Z.pos (digits2_pos m)) - 1)
         with (Z.succ (Z.pos (digits2_pos m) - 1)) by lia.
  all: rewrite !Z.pow_succ_r by lia.
  all: generalize dependent (2 ^ (Z.pos (digits2_pos m) - 1)).
  all: generalize dependent (2 ^ Z.pos (digits2_pos m)); lia.
Qed.

Lemma digits2_pos_log2 (m : positive) : Z.pos (digits2_pos m) = Z.log2 (Z.pos m) + 1.
Proof.
  pose proof (digits2_pos_bounds m) as H.
  assert (Z.log2 (Z.pos m) = Z.pos (digits2_pos m) - 1); [|lia].
  apply Z.log2_unique; [lia|].
  replace (Z.succ (Z.pos (digits2_pos m) - 1)) with (Z.pos (digits2_pos m)) by lia. exact H.
Qed.

Lemma iter_pos_nat {A} (f : A → A) (p : positive) (x : A) :
  iter_pos f p x = Nat.iter (Pos.to_nat p) f x.
Proof.
  revert x. induction p as [p IH|p IH|]; intros x; cbn [iter_pos].
  - rewrite !IH, Pos2Nat.inj_xI, <- Nat.iter_succ_r.
    replace (S (2 * Pos.to_nat p))%nat with (Pos.to_nat p + S (Pos.to_nat p))%nat by lia.
    by rewrite Nat.iter_add.
  - rewrite !IH, Pos2Nat.inj_xO.
    replace (2 * Pos.to_nat p)%nat with (Pos.to_nat p + Pos.to_nat p)%nat by lia.
    by rewrite Nat.iter_add.
  - reflexivity.
Qed.

Lemma shr_1_nonneg (m : Z) (r s : bool) :
  0 ≤ m →
  shr_1 {| shr_m := m; shr_r := r; shr_s := s |}
  = {| shr_m := m / 2; shr_r := Z.odd m; shr_s := r || s |}.
Proof.
  intros Hm. rewrite <- Z.div2_div.
  destruct m as [|[p|p|]|]; try reflexivity. lia.
Qed.

Lemma iter_shr_1 (n : nat) (m : Z) :
  0 ≤ m →
  Nat.iter (S n) shr_1 {| shr_m := m; shr_r := false; shr_s := false |}
  = {| shr_m := m / 2 ^ Z.of_nat (S n);
       shr_r := Z.testbit m (Z.of_nat n);
       shr_s := negb (m `mod` 2 ^ Z.of_nat n =? 0) |}.
Proof.
  intros Hm. induction n as [|n IH].
  - cbn [Nat.iter]. rewrite shr_1_nonneg by done.
    change (Z.of_nat 1) with 1. change (Z.of_nat 0) with 0.
    rewrite Z.pow_1_r, Z.pow_0_r, Z.mod_1_r, Z.bit0_odd. reflexivity.
  - change (Nat.iter (S (S n)) shr_1 ?x) with (shr_1 (Nat.iter (S n) shr_1 x)).
    rewrite IH, shr_1_nonneg by (apply Z.div_pos; lia).
    f_equal.
    + rewrite Z.div_div by lia. f_equal.
      rewrite (Nat2Z.inj_succ (S n)), Z.pow_succ_r by lia. lia.
    + rewrite Z.testbit_odd, Z.shiftr_div_pow2 by lia. reflexivity.
    + rewrite (Nat2Z.inj_succ n), Z.pow_succ_r by lia.
      rewrite (Z.mul_comm 2), Z.rem_mul_r by lia.
      pose proof (Z.testbit_spec' m (Z.of_nat n) ltac:(lia)) as Hb.
      rewrite <- Hb.
      pose proof (Z.mod_pos_bound m (2 ^ Z.of_nat n) ltac:(lia)) as Hr.
      destruct (Z.testbit m (Z.of_nat n)); cbn [Z.b2z orb].
      * symmetry. apply negb_true_iff, Z.eqb_neq. lia.
      * rewrite Z.mul_0_r, Z.add_0_r. reflexivity.
Qed.

Lemma round_shr (p : positive) (m : Z) :
  0 ≤ m →
  let mrs := iter_pos shr_1 p {| shr_m := m; shr_r := false; shr_s := false |} in
  nearest m (Z.pos p) (round_nearest_even (shr_m mrs) (loc_of_shr_record mrs)).
Proof.
  intros Hm mrs. subst mrs. rewrite iter_pos_nat.
  destruct (Pos2Nat.is_succ p) as [n Hn]. rewrite Hn, iter_shr_1 by done.
  assert (Z.pos p = Z.of_nat (S n)) as -> by lia.
  cbn [shr_m loc_of_shr_record].
  assert (Hsplit : m `mod` 2 ^ Z.of_nat (S n)
                   = m `mod` 2 ^ Z.of_nat n + 2 ^ Z.of_nat n * Z.b2z (Z.testbit m (Z.of_nat n))).
  { rewrite (Nat2Z.inj_succ n), Z.pow_succ_r by lia.
    rewrite (Z.mul_comm 2), Z.rem_mul_r by lia.
    by rewrite <- Z.testbit_spec' by lia. }
  assert (Hpow : 2 ^ Z.of_nat (S n) = 2 * 2 ^ Z.of_nat n).
  { by rewrite (Nat2Z.inj_succ n), Z.pow_succ_r by lia. }
  pose proof (Z.mod_pos_bound m (2 ^ Z.of_nat n) ltac:(lia)) as Hr.
  unfold nearest. rewrite Hsplit, Hpow.
  destruct (Z.testbit m (Z.of_nat n)); cbn [Z.b2z];
    destruct (Z.eqb_spec (m `mod` 2 ^ Z.of_nat n) 0) as [E|E];
    cbn [negb round_nearest_even]; try (destruct (Z.even _)); lia.
Qed.


Lemma nearest_scale (a s c R : Z) :
  0 ≤ s → 0 ≤ c → nearest a s R → nearest (a * 2 ^ c) (s + c) R.
Proof.
  intros Hs Hc. unfold nearest.
  rewrite Z.pow_add_r, Z.div_mul_cancel_r, Z.mul_mod_distr_r by lia.
  assert (0 < 2 ^ c) by lia. nia.
Qed.

Lemma nearest_exact (X n : Z) :
  0 ≤ n → X `mod` 2 ^ n = 0 → nearest X n (X / 2 ^ n).
Proof. intros Hn H0. unfold nearest. rewrite H0. assert (0 < 2 ^ n) by lia. lia. Qed.

Lemma nearest_mul (A n : Z) : 0 ≤ n → nearest (A * 2 ^ n) n A.
Proof.
  intros Hn. unfold nearest. rewrite Z.div_mul, Z.mod_mul by lia.
  assert (0 < 2 ^ n) by lia. lia.
Qed.

Lemma shr_nonpos (mrs : shr_record) (e n : Z) : n ≤ 0 → shr mrs e n = (mrs, e).
Proof. destruct n; [done|lia|done]. Qed.

Lemma Zdigits2_bounds (m d : Z) : 0 < d → 2 ^ (d - 1) ≤ m < 2 ^ d → Zdigits2 m = d.
Proof.
  intros Hd H. assert (0 < m) by lia.
  destruct m as [|p|p]; try lia. cbn [Zdigits2].
  rewrite digits2_pos_log2.
  assert (Z.log2 (Z.pos p) = d - 1); [|lia].
  apply Z.log2_unique; [lia|]. by replace (Z.succ (d - 1)) with d by lia.
Qed.

Lemma binary_round_aux_pos (sx : bool) (mx : positive) (ex : Z) :
  -1074 ≤ ex →
  Z.pos mx * 2 ^ (ex + 1074) < 2 ^ 2045 →
  ∃ (m : positive) (e R : Z),
    binary_round_aux 53 1024 sx (Z.pos mx) ex loc_Exact = S754_finite sx m e
    ∧ -1074 ≤ e ∧ Z.pos m < 2 ^ 53
    ∧ Z.pos m * 2 ^ (e + 1074) = R * 2 ^ grid (Z.pos mx * 2 ^ (ex + 1074))
    ∧ nearest (Z.pos mx * 2 ^ (ex + 1074)) (grid (Z.pos mx * 2 ^ (ex + 1074))) R.
Proof.
  intros Hex HX.
  pose proof (digits2_pos_bounds mx) as Hd.
  pose proof (digits2_pos_log2 mx) as Hlog.
  set (d := Z.pos (digits2_pos mx)) in *.
  assert (Hd0 : 0 < d) by (subst d; lia).
  assert (HlogX : Z.log2 (Z.pos mx * 2 ^ (ex + 1074)) = ex + 1074 + (d - 1)).
  { rewrite Z.log2_mul_pow2 by lia. lia. }
  assert (Hsmall : ex + 1074 + (d - 1) < 2045).
  { apply Z.log2_lt_pow2 in HX; [lia|]. assert (0 < 2 ^ (ex + 1074)) by lia. nia. }
  unfold grid. rewrite HlogX.
  unfold binary_round_aux, shr_fexp, fexp, emin. cbn [Zdigits2 shr_record_of_loc].
  fold d.
  destruct (Z_le_gt_dec d 53) as [Hle|Hgt].
  - (* the mantissa fits: nothing is shifted out *)
    rewrite shr_nonpos by lia. cbn [shr_m loc_of_shr_record round_nearest_even].
    cbn [Zdigits2 shr_record_of_loc]. fold d.
    rewrite shr_nonpos by lia. cbn [shr_m].
    destruct (Z.leb_spec ex (1024 - 53)); [|lia].
    set (g := Z.max (ex + 1074 + (d - 1) - 52) 0).
    assert (Hg : 0 ≤ g ≤ ex + 1074) by lia.
    exists mx, ex, (Z.pos mx * 2 ^ (ex + 1074 - g)).
    assert (Hsplit : Z.pos mx * 2 ^ (ex + 1074) = Z.pos mx * 2 ^ (ex + 1074 - g) * 2 ^ g).
    { rewrite <- Z.mul_assoc, <- Z.pow_add_r by lia. do 2 f_equal. lia. }
    split_and!; [done|lia| |exact Hsplit|].
    + eapply Z.lt_le_trans; [apply Hd|]. apply Z.pow_le_mono_r; lia.
    + rewrite Hsplit. apply nearest_mul. lia.
  - (* [d - 53] bits are shifted out and rounded *)
    assert (Hshift : Z.max (d + ex - 53) (3 - 1024 - 53) - ex = d - 53) by lia.
    rewrite Hshift.
    destruct (d - 53) as [|p|p] eqn:Hp; try lia.
    cbn [shr].
    pose proof (round_shr p (Z.pos mx) ltac:(lia)) as Hnear. cbn zeta in Hnear.
    set (R := round_nearest_even _ _) in *.
    assert (Hq : 2 ^ 52 ≤ Z.pos mx / 2 ^ Z.pos p < 2 ^ 53).
    { assert (Elo : 2 ^ (d - 1) = 2 ^ 52 * 2 ^ Z.pos p).
      { rewrite <- Z.pow_add_r by lia. f_equal. lia. }
      assert (Ehi : 2 ^ d = 2 ^ 53 * 2 ^ Z.pos p).
      { rewrite <- Z.pow_add_r by lia. f_equal. lia. }
      rewrite Elo, Ehi in Hd.
      assert (0 < 2 ^ Z.pos p) by lia.
      split; [apply Z.div_le_lower_bound|apply Z.div_lt_upper_bound]; lia. }
    assert (HR : 2 ^ 52 ≤ R ≤ 2 ^ 53) by (destruct Hnear as [? _]; lia).
    assert (Hg : Z.max (ex + 1074 + (d - 1) - 52) 0 = Z.pos p + (ex + 1074)) by lia.
    rewrite Hg.
    assert (Hnear' := nearest_scale (Z.pos mx) (Z.pos p) (ex + 1074) R ltac:(lia) ltac:(lia) Hnear).
    destruct (Z.eq_dec R (2 ^ 53)) as [E53|N53].
    + (* the rounded mantissa has 54 bits *)
      rewrite (Zdigits2_bounds R 54) by lia.
      replace (Z.max (54 + (ex + Z.pos p) - 53) (3 - 1024 - 53) - (ex + Z.pos p)) with 1 by lia.
      rewrite E53. cbn [shr iter_pos shr_1 shr_m Z.pow Z.pow_pos Pos.iter Z.mul Pos.mul].
      destruct (Z.leb_spec (ex + Z.pos p + 1) (1024 - 53)); [|lia].
      eexists _, _, R. split_and!; [done|lia|done| |done].
      rewrite E53. replace (ex + Z.pos p + 1 + 1074) with (1 + (Z.pos p + (ex + 1074))) by lia.
      rewrite (Z.pow_add_r 2 1) by lia. lia.
    + rewrite (Zdigits2_bounds R 53) by lia.
      rewrite shr_nonpos by lia. cbn [shr_m].
      destruct R as [|m|m] eqn:ER; try lia.
      destruct (Z.leb_spec (ex + Z.pos p) (1024 - 53)); [|lia].
      exists m, (ex + Z.pos p), (Z.pos m). split_and!; [done|lia|lia| |done].
      do 2 f_equal. lia.
Qed.


Lemma nearest_le_rep (X R hi : Z) :
  0 < X ≤ hi → hi `mod` 2 ^ grid hi = 0 → nearest X (grid X) R →
  0 ≤ R * 2 ^ grid X ≤ hi.
Proof.
  intros HX Hhi (Hq & Hlo & _).
  assert (Hg : 0 ≤ grid X ≤ grid hi).
  { unfold grid. pose proof (Z.log2_le_mono X hi ltac:(lia)). lia. }
  set (g := grid X) in *.
  assert (0 < 2 ^ g) by lia.
  assert (Hb : hi = hi / 2 ^ grid hi * 2 ^ (grid hi - g) * 2 ^ g).
  { rewrite <- Z.mul_assoc, <- Z.pow_add_r by lia.
    replace (grid hi - g + g) with (grid hi) by lia.
    apply Z.div_exact in Hhi; lia. }
  set (b := hi / 2 ^ grid hi * 2 ^ (grid hi - g)) in *.
  pose proof (Z.div_mod X (2 ^ g) ltac:(lia)) as Hdm.
  pose proof (Z.mod_pos_bound X (2 ^ g) ltac:(lia)) as Hr.
  assert (0 ≤ X / 2 ^ g) by (apply Z.div_pos; lia).
  split; [nia|].
  destruct (Z.eq_dec (X `mod` 2 ^ g) 0) as [E|E].
  - rewrite Hlo by lia. lia.
  - assert (X / 2 ^ g < b) by nia. nia.
Qed.

Lemma rep_mul_pow2 (k j : Z) :
  0 < k < 2 ^ 53 → 0 ≤ j → (k * 2 ^ j) `mod` 2 ^ grid (k * 2 ^ j) = 0.
Proof.
  intros Hk Hj. unfold grid. rewrite Z.log2_mul_pow2 by lia.
  assert (Z.log2 k < 53) by (apply Z.log2_lt_pow2; lia).
  set (g := Z.max (j + Z.log2 k - 52) 0).
  replace (2 ^ j) with (2 ^ (j - g) * 2 ^ g).
  - rewrite Z.mul_assoc. apply Z.mod_mul. lia.
  - rewrite <- Z.pow_add_r by lia. f_equal. lia.
Qed.

Lemma nearest_rep (X R : Z) :
  X `mod` 2 ^ grid X = 0 → nearest X (grid X) R → R * 2 ^ grid X = X.
Proof.
  intros Hrep (_ & Hlo & _). assert (0 ≤ grid X) by (unfold grid; lia).
  assert (0 < 2 ^ grid X) by lia.
  rewrite Hlo by lia. apply Z.div_exact in Hrep; lia.
Qed.

Lemma iter_xO (m d : positive) : Z.pos (Pos.iter xO m d) = Z.pos m * 2 ^ Z.pos d.
Proof.
  induction d as [|d IH] using Pos.peano_ind.
  - cbn [Pos.iter]. lia.
  - rewrite Pos.iter_succ, Pos2Z.inj_xO, IH, Pos2Z.inj_succ, Z.pow_succ_r by lia. lia.
Qed.

Lemma shl_align_spec (mx : positive) (ex ex' : Z) :
  ∃ mz ez, shl_align mx ex ex' = (mz, ez) ∧ ez = Z.min ex ex'
           ∧ Z.pos mz = Z.pos mx * 2 ^ (ex - ez).
Proof.
  unfold shl_align. destruct (ex' - ex) as [|d|d] eqn:E.
  - exists mx, ex. split_and!; [done|lia|]. rewrite Z.sub_diag. lia.
  - exists mx, ex. split_and!; [done|lia|]. rewrite Z.sub_diag. lia.
  - eexists _, ex'. split_and!; [done|lia|]. rewrite iter_xO. do 2 f_equal. lia.
Qed.

Lemma binary_round_pos (sx : bool) (mx : positive) (ex : Z) :
  -1074 ≤ ex →
  Z.pos mx * 2 ^ (ex + 1074) < 2 ^ 2045 →
  ∃ (m : positive) (e R : Z),
    binary_round 53 1024 sx mx ex = S754_finite sx m e
    ∧ -1074 ≤ e ∧ Z.pos m < 2 ^ 53
    ∧ Z.pos m * 2 ^ (e + 1074) = R * 2 ^ grid (Z.pos mx * 2 ^ (ex + 1074))
    ∧ nearest (Z.pos mx * 2 ^ (ex + 1074)) (grid (Z.pos mx * 2 ^ (ex + 1074))) R.
Proof.
  intros Hex HX. unfold binary_round.
  destruct (shl_align_spec mx ex (fexp 53 1024 (Z.pos (digits2_pos mx) + ex)))
    as (mz & ez & -> & Hez & Hmz).
  assert (Hez' : -1074 ≤ ez ≤ ex) by (unfold fexp, emin in Hez; lia).
  assert (E : Z.pos mx * 2 ^ (ex + 1074) = Z.pos mz * 2 ^ (ez + 1074)).
  { rewrite Hmz, <- Z.mul_assoc, <- Z.pow_add_r by lia. do 2 f_equal. lia. }
  rewrite E in *. apply binary_round_aux_pos; [lia|done].
Qed.


Lemma ldexp_53 (k : Z) :
  0 < k < 2 ^ 53 →
  ∃ m e, float.ldexp k (-53) = S754_finite false m e
         ∧ -105 ≤ e ∧ Z.pos m * 2 ^ (e + 1074) = k * 2 ^ 1021.
Proof.
  intros Hk. unfold float.ldexp, float.prec, float.emax, binary_normalize.
  destruct k as [|p|p]; try lia.
  destruct (binary_round_pos false p (-53)) as (m & e & R & -> & He & Hm & Hval & Hnear).
  { lia. }
  { change (-53 + 1074) with 1021. lia. }
  change (-53 + 1074) with 1021 in *.
  rewrite (nearest_rep _ _ (rep_mul_pow2 (Z.pos p) 1021 Hk ltac:(lia)) Hnear) in Hval.
  exists m, e. split_and!; [done| |done].
  destruct (Z_le_gt_dec (-105) e) as [|Hlt]; [done|exfalso].
  assert (2 ^ (e + 1074) ≤ 2 ^ 968) by (apply Z.pow_le_mono_r; lia).
  assert (0 < 2 ^ (e + 1074)) by lia.
  assert (Z.pos m * 2 ^ (e + 1074) < 2 ^ 53 * 2 ^ 968) by nia.
  lia.
Qed.

Lemma mul_pos (mx my : positive) (ex ey : Z) :
  -1074 ≤ ex + ey →
  Z.pos mx * Z.pos my * 2 ^ (ex + ey + 1074) < 2 ^ 2045 →
  ∃ (m : positive) (e R : Z),
    float.mul (S754_finite false mx ex) (S754_finite false my ey) = S754_finite false m e
    ∧ -1074 ≤ e ∧ Z.pos m < 2 ^ 53
    ∧ Z.pos m * 2 ^ (e + 1074) = R * 2 ^ grid (Z.pos mx * Z.pos my * 2 ^ (ex + ey + 1074))
    ∧ nearest (Z.pos mx * Z.pos my * 2 ^ (ex + ey + 1074))
              (grid (Z.pos mx * Z.pos my * 2 ^ (ex + ey + 1074))) R.
Proof.
  intros He HX. unfold float.mul, float.prec, float.emax, SFmul. cbn [xorb].
  rewrite <- Pos2Z.inj_mul in *. by apply binary_round_aux_pos.
Qed.

Lemma to_int_pos (m : positive) (e : Z) :
  -1074 ≤ e →
  float.to_int (S754_finite false m e) = inr (Z.pos m * 2 ^ (e + 1074) / 2 ^ 1074).
Proof.
  intros He. unfold float.to_int. f_equal.
  destruct e as [|p|p].
  - change (0 + 1074) with 1074. rewrite Z.div_mul by lia. lia.
  - rewrite Z.pow_add_r, Z.mul_assoc, Z.div_mul by lia. done.
  - replace 1074 with (Z.pos p + (Z.neg p + 1074)) at 2 by lia.
    rewrite (Z.pow_add_r 2 (Z.pos p)), Z.div_mul_cancel_r by lia. done.
Qed.

Lemma of_int_small (i : Z) :
  0 ≤ i < 2 ^ 53 →
  float.of_pyint i = inr (float.of_int i)
  ∧ float.scaled (float.of_int i) = Some (i * 2 ^ 1074).
Proof.
  intros Hi. unfold float.of_pyint, float.of_int, float.prec, float.emax, binary_normalize.
  destruct i as [|p|p]; try lia; [done|].
  destruct (binary_round_pos false p 0) as (m & e & R & -> & He & Hm & Hval & Hnear).
  { lia. }
  { change (0 + 1074) with 1074. lia. }
  change (0 + 1074) with 1074 in *.
  rewrite (nearest_rep _ _ (rep_mul_pow2 (Z.pos p) 1074 ltac:(lia) ltac:(lia)) Hnear) in Hval.
  split; [done|]. unfold float.scaled.
  destruct (Z.ltb_spec e (-1074)); [lia|]. by rewrite Hval.
Qed.

(** [float(int(random.random() * 256))] is one of 0.0, 1.0, ..., 255.0. *)
Lemma integer_like_value (k : Z) :
  0 ≤ k < 2 ^ 53 →
  ∃ i, float.to_int (float.mul (float.ldexp k (-53)) (float.of_int 256)) = inr i
       ∧ 0 ≤ i ≤ 255
       ∧ float.of_pyint i = inr (float.of_int i)
       ∧ float.scaled (float.of_int i) = Some (i * 2 ^ 1074).
Proof.
  intros Hk.
  assert (Hsmall : ∀ i, 0 ≤ i ≤ 255 → 0 ≤ i < 2 ^ 53) by lia.
  destruct (Z.eq_dec k 0) as [->|Hk0].
  { exists 0. split; [done|]. split; [lia|]. apply of_int_small. lia. }
  destruct (ldexp_53 k ltac:(lia)) as (mu & eu & -> & Heu & Hu).
  change (float.of_int 256) with (S754_finite false 4503599627370496 (-44)).
  assert (HX : Z.pos mu * 4503599627370496 * 2 ^ (eu + -44 + 1074) = k * 2 ^ 1029).
  { replace (eu + 1074) with (44 + (eu + -44 + 1074)) in Hu by lia.
    replace 1029 with (8 + 1021) by lia.
    rewrite Z.pow_add_r in Hu by lia. rewrite (Z.pow_add_r 2 8) by lia.
    change 4503599627370496 with (2 ^ 8 * 2 ^ 44). lia. }
  destruct (mul_pos mu 4503599627370496 eu (-44)) as (m & e & R & -> & He & Hm & Hval & Hnear).
  { lia. }
  { rewrite HX. lia. }
  rewrite HX in *.
  rewrite (nearest_rep _ _ (rep_mul_pow2 k 1029 ltac:(lia) ltac:(lia)) Hnear) in Hval.
  rewrite to_int_pos, Hval by done.
  replace 1074 with (45 + 1029) by lia.
  rewrite (Z.pow_add_r 2 45), Z.div_mul_cancel_r by lia.
  assert (Hi : 0 ≤ k / 2 ^ 45 ≤ 255).
  { split; [apply Z.div_pos; lia|].
    assert (k / 2 ^ 45 < 256); [apply Z.div_lt_upper_bound|]; lia. }
  eexists. split; [done|]. split; [done|]. by apply of_int_small, Hsmall.
Qed.


Lemma scaled_finite (s : bool) (m : positive) (e : Z) :
  -1074 ≤ e →
  float.scaled (S754_finite s m e)
  = Some ((if s then -1 else 1) * (Z.pos m * 2 ^ (e + 1074))).
Proof.
  intros He. unfold float.scaled. destruct (Z.ltb_spec e (-1074)); [lia|].
  f_equal. destruct s; lia.
Qed.

Lemma sub_pos (mx my : positive) (ex ey : Z) :
  -1074 ≤ ex → -1074 ≤ ey →
  let a := Z.pos mx * 2 ^ (ex + 1074) in
  let b := Z.pos my * 2 ^ (ey + 1074) in
  a < 2 ^ 2045 → b < 2 ^ 2045 →
  ∃ y, float.scaled (float.sub (S754_finite false mx ex) (S754_finite false my ey)) = Some y
       ∧ ((a = b ∧ y = 0)
          ∨ (b < a ∧ ∃ R, y = R * 2 ^ grid (a - b) ∧ nearest (a - b) (grid (a - b)) R)
          ∨ (a < b ∧ ∃ R, y = - (R * 2 ^ grid (b - a)) ∧ nearest (b - a) (grid (b - a)) R)).
Proof.
  intros Hex Hey a b Ha Hb.
  unfold float.sub, float.prec, float.emax, SFsub. cbn [cond_Zopp].
  remember (Z.min ex ey) as ez eqn:Hez.
  destruct (shl_align_spec mx ex ez) as (mx' & ? & -> & -> & Hmx).
  destruct (shl_align_spec my ey ez) as (my' & ? & -> & -> & Hmy).
  cbn [fst].
  replace (Z.min ex ez) with ez in * by lia. replace (Z.min ey ez) with ez in * by lia.
  assert (Ea : a = Z.pos mx' * 2 ^ (ez + 1074)).
  { subst a. rewrite Hmx, <- Z.mul_assoc, <- Z.pow_add_r by lia. do 2 f_equal. lia. }
  assert (Eb : b = Z.pos my' * 2 ^ (ez + 1074)).
  { subst b. rewrite Hmy, <- Z.mul_assoc, <- Z.pow_add_r by lia. do 2 f_equal. lia. }
  assert (Hp : 0 < 2 ^ (ez + 1074)) by lia.
  assert (0 < a) by (subst a; lia). assert (0 < b) by (subst b; lia).
  unfold binary_normalize.
  destruct (Z.pos mx' - Z.pos my') as [|d|d] eqn:Ed.
  - exists 0. split; [done|]. left. split; [|done]. rewrite Ea, Eb. f_equal. lia.
  - assert (Eab : a - b = Z.pos d * 2 ^ (ez + 1074)) by (rewrite Ea, Eb; nia).
    destruct (binary_round_pos false d ez) as (m & e & R & -> & He & Hm & Hval & Hnear).
    { lia. } { lia. }
    rewrite <- Eab in *. rewrite scaled_finite, Hval by done.
    eexists. split; [done|]. right. left. split; [lia|]. exists R. split; [lia|done].
  - assert (Eab : b - a = Z.pos d * 2 ^ (ez + 1074)) by (rewrite Ea, Eb; nia).
    destruct (binary_round_pos true d ez) as (m & e & R & -> & He & Hm & Hval & Hnear).
    { lia. } { lia. }
    rewrite <- Eab in *. rewrite scaled_finite, Hval by done.
    eexists. split; [done|]. right. right. split; [lia|]. exists R. split; [lia|done].
Qed.

(** [random.random() * 2000 - 1000] lies in [-1000.0, 1000.0). *)
Lemma default_value (k : Z) :
  0 ≤ k < 2 ^ 53 →
  ∃ y, float.scaled (float.sub (float.mul (float.ldexp k (-53)) (float.of_int 2000))
                               (float.of_int 1000)) = Some y
       ∧ -1000 * 2 ^ 1074 ≤ y < 1000 * 2 ^ 1074.
Proof.
  intros Hk.
  destruct (Z.eq_dec k 0) as [->|Hk0].
  { eexists. split; [vm_compute; reflexivity|]. lia. }
  destruct (ldexp_53 k ltac:(lia)) as (mu & eu & -> & Heu & Hu).
  change (float.of_int 2000) with (S754_finite false 8796093022208000 (-42)).
  change (float.of_int 1000) with (S754_finite false 8796093022208000 (-43)).
  assert (HX : Z.pos mu * 8796093022208000 * 2 ^ (eu + -42 + 1074) = 2000 * k * 2 ^ 1021).
  { replace (eu + 1074) with (42 + (eu + -42 + 1074)) in Hu by lia.
    rewrite Z.pow_add_r in Hu by lia.
    change 8796093022208000 with (2000 * 2 ^ 42). lia. }
  destruct (mul_pos mu 8796093022208000 eu (-42)) as (m & e & R & -> & He & Hm & Hval & Hnear).
  { lia. }
  { rewrite HX. lia. }
  rewrite HX in *.
  set (X := 2000 * k * 2 ^ 1021) in *.
  set (hi := 8796093022207999 * 2 ^ 1032).
  assert (Hhi : 0 ≤ Z.pos m * 2 ^ (e + 1074) ≤ hi).
  { rewrite Hval. destruct (Z_le_gt_dec X hi) as [Hle|Hgt].
    - apply nearest_le_rep; [subst X; lia| |done].
      apply rep_mul_pow2; lia.
    - assert (Hlog : Z.log2 X = 1084).
      { apply Z.log2_unique; [lia|]. subst X hi. lia. }
      unfold grid in *. rewrite Hlog in *. change (Z.max (1084 - 52) 0) with 1032 in *.
      destruct Hnear as (_ & Hlo & _).
      pose proof (Z.div_mod X (2 ^ 1032) ltac:(lia)) as Hdm.
      pose proof (Z.mod_pos_bound X (2 ^ 1032) ltac:(lia)) as Hr.
      assert (X / 2 ^ 1032 = 8796093022207999) by (subst X hi; lia).
      rewrite Hlo by (subst X hi; lia). subst hi. lia. }
  destruct (sub_pos m 8796093022208000 e (-43)) as (y & -> & Hy); [done|lia|lia|lia|].
  change (8796093022208000 * 2 ^ (-43 + 1074)) with (1000 * 2 ^ 1074) in Hy.
  exists y. split; [done|].
  destruct Hy as [[_ ->]|[(Hlt & R' & -> & Hnear')|(Hlt & R' & -> & Hnear')]].
  - lia.
  - subst hi.
    apply (nearest_le_rep _ R' (8796093022207998 * 2 ^ 1031)) in Hnear';
      [lia|lia|apply rep_mul_pow2; lia].
  - apply (nearest_le_rep _ R' (1000 * 2 ^ 1074)) in Hnear';
      [lia|lia|apply (rep_mul_pow2 1000 1074); lia].
Qed.

(** The two ends of [random.random() * 2000 - 1000]: -1000.0, and the
    double below 1000.0. *)
Example default_value_ends :
  sub (mul (ldexp 0 (-53)) (of_int 2000)) (of_int 1000) = of_int (-1000)
  ∧ sub (mul (ldexp (2 ^ 53 - 1) (-53)) (of_int 2000)) (of_int 1000)
    = S754_finite false 8796093022207998 (-43)
  ∧ of_int 1000 = S754_finite false 8796093022208000 (-43).
Proof. split_and!; vm_compute; reflexivity. Qed.

End rounding.

(** ** The length of a sleep *)

Section sleeping.

Lemma shr_m_of_loc (m : Z) (l : location) : shr_m (shr_record_of_loc m l) = m.
Proof. by destruct l as [|[]]. Qed.

Lemma shr_m_iter (n : nat) :
  ∀ mrs, 0 ≤ shr_m mrs → shr_m (Nat.iter n shr_1 mrs) = shr_m mrs / 2 ^ Z.of_nat n.
Proof.
  induction n as [|n IH]; intros mrs Hm.
  - cbn. by rewrite Z.div_1_r.
  - rewrite Nat.iter_succ_r. destruct mrs as [m r s]. cbn [shr_m] in Hm.
    rewrite shr_1_nonneg by done. rewrite IH; cbn [shr_m].
    + rewrite Z.div_div by lia. f_equal. rewrite Nat2Z.inj_succ, Z.pow_succ_r by lia. lia.
    + apply Z.div_pos; lia.
Qed.

Lemma round_nearest_even_bounds (m : Z) (l : location) :
  m ≤ round_nearest_even m l ≤ m + 1.
Proof. destruct l as [|[]]; cbn; try destruct (Z.even m); lia. Qed.

(** Rounding a mantissa of at least 53 bits, within the normal range:
    the sign is kept, and the result is at most the power of two above
    the mantissa. *)
Lemma binary_round_aux_bound (sx : bool) (mx ex : Z) (lx : location) :
  2 ^ 52 ≤ mx → -1074 ≤ Zdigits2 mx + ex - 53 → Zdigits2 mx + ex ≤ 1023 →
  ∃ m e, binary_round_aux 53 1024 sx mx ex lx = S754_finite sx m e
         ∧ Zdigits2 mx + ex - 53 ≤ e
         ∧ Z.pos m * 2 ^ (e + 1074) ≤ 2 ^ (Zdigits2 mx + ex + 1074).
Proof.
  intros Hmx Hex Hhi. destruct mx as [|p|p]; try lia.
  pose proof (digits2_pos_bounds p) as Hd. cbn [Zdigits2] in *.
  set (d := Z.pos (digits2_pos p)) in *.
  assert (H53 : 53 ≤ d).
  { destruct (Z_lt_le_dec d 53) as [Hlt|]; [|done].
    assert (2 ^ d ≤ 2 ^ 52) by (apply Z.pow_le_mono_r; lia). lia. }
  unfold binary_round_aux, shr_fexp, fexp, emin. cbn [Zdigits2]. fold d.
  replace (Z.max (d + ex - 53) (3 - 1024 - 53) - ex) with (d - 53) by lia.
  assert (Hm1 : ∃ mrs', shr (shr_record_of_loc (Z.pos p) lx) ex (d - 53) = (mrs', d + ex - 53)
                        ∧ 2 ^ 52 ≤ shr_m mrs' < 2 ^ 53).
  { destruct (d - 53) as [|n|n] eqn:Hn; try lia.
    - eexists. split; [cbn [shr]; f_equal; lia|]. rewrite shr_m_of_loc.
      assert (d = 53) as Hd53 by lia. rewrite Hd53 in Hd. lia.
    - eexists. split; [cbn [shr]; f_equal; lia|].
      rewrite iter_pos_nat, shr_m_iter, shr_m_of_loc, positive_nat_Z
        by (rewrite shr_m_of_loc; lia).
      assert (Elo : 2 ^ (d - 1) = 2 ^ 52 * 2 ^ Z.pos n).
      { rewrite <- Z.pow_add_r by lia. f_equal. lia. }
      assert (Ehi : 2 ^ d = 2 ^ 53 * 2 ^ Z.pos n).
      { rewrite <- Z.pow_add_r by lia. f_equal. lia. }
      rewrite Elo, Ehi in Hd. assert (0 < 2 ^ Z.pos n) by lia.
      split; [apply Z.div_le_lower_bound|apply Z.div_lt_upper_bound]; lia. }
  destruct Hm1 as (mrs' & -> & Hm1).
  pose proof (round_nearest_even_bounds (shr_m mrs') (loc_of_shr_record mrs')) as HR.
  set (R := round_nearest_even _ _) in *.
  cbn [shr_record_of_loc].
  assert (Epow : 2 ^ (d + ex + 1074) = 2 ^ 53 * 2 ^ (d + ex - 53 + 1074)).
  { rewrite <- Z.pow_add_r by lia. f_equal. lia. }
  assert (0 < 2 ^ (d + ex - 53 + 1074)) by lia.
  destruct (Z.eq_dec R (2 ^ 53)) as [E53|N53].
  - rewrite (Zdigits2_bounds R 54) by lia.
    replace (Z.max (54 + (d + ex - 53) - 53) (3 - 1024 - 53) - (d + ex - 53)) with 1 by lia.
    rewrite E53. cbn [shr iter_pos shr_1 shr_m Z.pow Z.pow_pos Pos.iter Z.mul Pos.mul].
    destruct (Z.leb_spec (d + ex - 53 + 1) (1024 - 53)); [|lia].
    eexists _, _. split; [done|]. split; [lia|].
    rewrite Epow. replace (d + ex - 53 + 1 + 1074) with (1 + (d + ex - 53 + 1074)) by lia.
    rewrite (Z.pow_add_r 2 1) by lia. lia.
  - rewrite (Zdigits2_bounds R 53) by lia.
    rewrite shr_nonpos by lia. cbn [shr_m].
    destruct R as [|m|m] eqn:ER; try lia.
    destruct (Z.leb_spec (d + ex - 53) (1024 - 53)); [|lia].
    exists m, (d + ex - 53). split; [done|]. split; [lia|]. rewrite Epow. nia.
Qed.


(** The quotient by 1000 of a numerator brought to 63 bits has 53 or 54
    bits. *)
Lemma quotient_1000 (x d : Z) :
  0 < d ≤ 63 → 2 ^ (d - 1) ≤ x < 2 ^ d →
  let q := x * 2 ^ (63 - d) / 1000 in
  2 ^ 52 ≤ q ∧ 53 ≤ Zdigits2 q ≤ 54.
Proof.
  intros Hd Hx q.
  assert (Elo : 2 ^ 62 = 2 ^ (d - 1) * 2 ^ (63 - d)).
  { rewrite <- Z.pow_add_r by lia. f_equal. lia. }
  assert (Ehi : 2 ^ 63 = 2 ^ d * 2 ^ (63 - d)).
  { rewrite <- Z.pow_add_r by lia. f_equal. lia. }
  assert (0 < 2 ^ (63 - d)) by lia.
  assert (HX : 2 ^ 62 ≤ x * 2 ^ (63 - d) < 2 ^ 63) by nia.
  assert (Hq : 2 ^ 52 ≤ q < 2 ^ 54).
  { subst q. split; [apply Z.div_le_lower_bound|apply Z.div_lt_upper_bound]; lia. }
  split; [lia|].
  destruct (Z_lt_le_dec q (2 ^ 53)).
  - rewrite (Zdigits2_bounds q 53); lia.
  - rewrite (Zdigits2_bounds q 54); lia.
Qed.

Lemma int_div_core_1000 (p : positive) :
  Z.pos p < 2 ^ 30 →
  ∃ q lz d, SFdiv_core_binary 53 1024 (Z.pos p) 0 1000 0 = (q, d - 63, lz)
            ∧ 0 < d ≤ 30 ∧ 2 ^ 52 ≤ q ∧ 53 ≤ Zdigits2 q ≤ 54.
Proof.
  intros Hbound. unfold SFdiv_core_binary, fexp, emin.
  pose proof (digits2_pos_bounds p) as Hd. cbn [Zdigits2].
  change (Z.pos (digits2_pos 1000)) with 10.
  set (d := Z.pos (digits2_pos p)) in *.
  assert (Hd0 : 0 < d) by (subst d; lia).
  assert (Hd30 : d ≤ 30).
  { destruct (Z_le_gt_dec d 30) as [|Hgt]; [done|].
    assert (2 ^ 30 ≤ 2 ^ (d - 1)) by (apply Z.pow_le_mono_r; lia). lia. }
  rewrite !Z.add_0_r, !Z.sub_0_r, Z.sub_0_l.
  replace (Z.min (Z.max (d - 10 - 53) (3 - 1024 - 53)) 0) with (d - 63) by lia.
  replace (- (d - 63)) with (63 - d) by lia.
  assert (Hm' : match 63 - d with
                | Z.pos _ => Z.shiftl (Z.pos p) (63 - d)
                | 0 => Z.pos p
                | Z.neg _ => 0
                end = Z.pos p * 2 ^ (63 - d)).
  { destruct (63 - d) eqn:E; try lia. rewrite Z.shiftl_mul_pow2; lia. }
  rewrite Hm'.
  pose proof (quotient_1000 (Z.pos p) d ltac:(lia) Hd) as Hq. cbn zeta in Hq.
  unfold Z.div in Hq.
  destruct (Z.div_eucl (Z.pos p * 2 ^ (63 - d)) 1000) as [q r].
  exists q, (new_location 1000 r), d. split; [done|]. split; [lia|]. exact Hq.
Qed.

(** [a / 1000] for an integer [a] of less than 30 bits: a double of the
    sign of [a], of at most [2^21]. *)
Lemma int_truediv_1000 (a : Z) :
  a ≠ 0 → Z.abs a < 2 ^ 30 →
  ∃ m e, float.int_truediv a 1000 = inr (S754_finite (a <? 0) m e)
         ∧ -62 ≤ e
         ∧ Z.pos m * 2 ^ (e + 1074) ≤ 2 ^ (21 + 1074).
Proof.
  intros Ha Hbound. unfold float.int_truediv, float.prec, float.emax.
  destruct a as [|p|p]; try done.
  all: change (Z.abs (Z.pos p)) with (Z.pos p) in *;
       change (Z.abs (Z.neg p)) with (Z.pos p) in *;
       change (Z.abs 1000) with 1000.
  all: destruct (int_div_core_1000 p Hbound) as (q & lz & d & -> & Hd & Hq & Hdq).
  all: cbn [Z.ltb Z.compare xorb].
  all: match goal with |- context [binary_round_aux 53 1024 ?sx ?q0 ?e0 ?l0] =>
         destruct (binary_round_aux_bound sx q0 e0 l0) as (m & e & -> & He & Hm);
           [lia|lia|lia|] end.
  all: exists m, e; split; [done|]; split; [lia|].
  all: etrans; [exact Hm|]; apply Z.pow_le_mono_r; lia.
Qed.

(** [float(p) / 1000.0] for a positive integer [p] of less than 30
    bits: a positive double of at most [2^21]. *)
Lemma div_1000 (p : Z) :
  0 < p < 2 ^ 30 →
  ∃ x m e, float.of_pyint p = inr x
           ∧ float.div x (float.of_int 1000) = S754_finite false m e
           ∧ -62 ≤ e
           ∧ Z.pos m * 2 ^ (e + 1074) ≤ 2 ^ (21 + 1074).
Proof.
  intros Hp.
  assert (Hx : ∃ mx ex, float.of_int p = S754_finite false mx ex
                        ∧ -1074 ≤ ex ∧ Z.pos mx < 2 ^ 53
                        ∧ Z.pos mx * 2 ^ (ex + 1074) = p * 2 ^ 1074).
  { unfold float.of_int, float.prec, float.emax, binary_normalize.
    destruct p as [|p|p]; try lia.
    destruct (binary_round_pos false p 0) as (m & e & R & -> & He & Hm & Hval & Hnear).
    { lia. }
    { change (0 + 1074) with 1074. lia. }
    change (0 + 1074) with 1074 in *.
    rewrite (nearest_rep _ _ (rep_mul_pow2 (Z.pos p) 1074 ltac:(lia) ltac:(lia)) Hnear) in Hval.
    by exists m, e. }
  destruct Hx as (mx & ex & Hof & Hex & Hmx & Hval).
  exists (S754_finite false mx ex). unfold float.of_pyint. rewrite Hof.
  change (float.of_int 1000) with (S754_finite false 8796093022208000 (-43)).
  unfold float.div, SFdiv. cbn [xorb].
  pose proof (digits2_pos_bounds mx) as Hd.
  set (d := Z.pos (digits2_pos mx)) in *.
  assert (Hd0 : 0 < d) by (subst d; lia).
  assert (Hlo : 0 < d + ex).
  { destruct (Z_lt_le_dec 0 (d + ex)) as [|Hle]; [done|].
    assert (2 ^ (d + (ex + 1074)) ≤ 2 ^ 1074) by (apply Z.pow_le_mono_r; lia).
    rewrite Z.pow_add_r in * by lia. assert (0 < 2 ^ (ex + 1074)) by lia. nia. }
  assert (Hhi : d + ex ≤ 30).
  { destruct (Z_le_gt_dec (d + ex) 30) as [|Hgt]; [done|].
    assert (2 ^ (30 + 1074) ≤ 2 ^ ((d - 1) + (ex + 1074))) by (apply Z.pow_le_mono_r; lia).
    rewrite (Z.pow_add_r 2 (d - 1)) in * by lia. rewrite (Z.pow_add_r 2 30) in * by lia.
    assert (0 < 2 ^ (ex + 1074)) by lia. assert (0 < 2 ^ 1074) by lia. nia. }
  assert (Hd53 : d ≤ 63).
  { destruct (Z_le_gt_dec d 63) as [|Hgt]; [done|].
    assert (2 ^ 63 ≤ 2 ^ (d - 1)) by (apply Z.pow_le_mono_r; lia). lia. }
  assert (Hcore : ∃ q lz, SFdiv_core_binary float.prec float.emax (Z.pos mx) ex
                            8796093022208000 (-43) = (q, d + ex - 63, lz)
                          ∧ 2 ^ 52 ≤ q ∧ 53 ≤ Zdigits2 q ≤ 54).
  { unfold SFdiv_core_binary, float.prec, float.emax, fexp, emin. cbn [Zdigits2].
    change (Z.pos (digits2_pos 8796093022208000)) with 53. fold d.
    replace (Z.min (Z.max (d + ex - (53 + -43) - 53) (3 - 1024 - 53)) (ex - -43))
      with (d + ex - 63) by lia.
    replace (ex - -43 - (d + ex - 63)) with (106 - d) by lia.
    assert (Hm' : match 106 - d with
                  | Z.pos _ => Z.shiftl (Z.pos mx) (106 - d)
                  | 0 => Z.pos mx
                  | Z.neg _ => 0
                  end = Z.pos mx * 2 ^ (63 - d) * 2 ^ 43).
    { destruct (106 - d) eqn:E; try lia. rewrite Z.shiftl_mul_pow2, <- E by lia.
      rewrite <- Z.mul_assoc, <- Z.pow_add_r by lia. do 2 f_equal. lia. }
    rewrite Hm'.
    pose proof (quotient_1000 (Z.pos mx) d ltac:(lia) Hd) as Hq. cbn zeta in Hq.
    assert (Ediv : Z.pos mx * 2 ^ (63 - d) * 2 ^ 43 / 8796093022208000
                   = Z.pos mx * 2 ^ (63 - d) / 1000).
    { change 8796093022208000 with (1000 * 2 ^ 43). apply Z.div_mul_cancel_r; lia. }
    rewrite <- Ediv in Hq. unfold Z.div in Hq.
    destruct (Z.div_eucl (Z.pos mx * 2 ^ (63 - d) * 2 ^ 43) 8796093022208000) as [q r].
    by exists q, (new_location 8796093022208000 r). }
  destruct Hcore as (q & lz & -> & Hq & Hdq).
  unfold float.prec, float.emax.
  destruct (binary_round_aux_bound false q (d + ex - 63) lz) as (m & e & -> & He & Hm);
    [lia|lia|lia|].
  exists m, e. split_and!; [done|done|lia|].
  etrans; [exact Hm|]. apply Z.pow_le_mono_r; lia.
Qed.


(** A double of at most [H], rounded away from zero. *)
Lemma round_away_bound (s : bool) (m : positive) (e H : Z) :
  -1074 ≤ e → Z.pos m * 2 ^ (e + 1074) ≤ H * 2 ^ 1074 →
  ∃ n, float.round_away (S754_finite s m e) = Some (if s then - n else n) ∧ 1 ≤ n ≤ H.
Proof.
  intros He Hm. unfold float.round_away. eexists. split; [reflexivity|].
  destruct e as [|p|p].
  - change (0 + 1074) with 1074 in Hm. assert (0 < 2 ^ 1074) by lia. nia.
  - rewrite Z.pow_add_r in Hm by lia.
    assert (0 < 2 ^ 1074) by lia. assert (0 < 2 ^ Z.pos p) by lia. nia.
  - assert (E : 2 ^ 1074 = 2 ^ Z.pos p * 2 ^ (Z.neg p + 1074)).
    { rewrite <- Z.pow_add_r by lia. f_equal. lia. }
    rewrite E in Hm. assert (0 < 2 ^ (Z.neg p + 1074)) by lia.
    assert (0 < 2 ^ Z.pos p) by lia.
    assert (Z.pos m ≤ H * 2 ^ Z.pos p) by nia.
    split.
    + apply Z.div_le_lower_bound; lia.
    + assert ((Z.pos m + 2 ^ Z.pos p - 1) / 2 ^ Z.pos p < H + 1); [|lia].
      apply Z.div_lt_upper_bound; lia.
Qed.

(** The nanoseconds of a double of at most [2^21] seconds. *)
Lemma nanoseconds_bounded (s : bool) (m : positive) (e : Z) :
  -62 ≤ e → Z.pos m * 2 ^ (e + 1074) ≤ 2 ^ (21 + 1074) →
  ∃ n, nanoseconds (S754_finite s m e) = inr (if s then - n else n)
       ∧ 1 ≤ n ≤ 1000000000 * 2 ^ 21.
Proof.
  intros He Hm. unfold nanoseconds.
  change (float.of_int 1000000000) with (S754_finite false 8388608000000000 (-23)).
  unfold float.mul, float.prec, float.emax, SFmul. rewrite xorb_false_r.
  assert (HX : Z.pos m * 8388608000000000 * 2 ^ (e + -23 + 1074)
               = Z.pos m * 2 ^ (e + 1074) * 1000000000).
  { replace (e + 1074) with (23 + (e + -23 + 1074)) by lia.
    rewrite (Z.pow_add_r 2 23) by lia.
    change 8388608000000000 with (1000000000 * 2 ^ 23). lia. }
  assert (Hhi : Z.pos m * 2 ^ (e + 1074) * 1000000000 ≤ 1000000000 * 2 ^ (21 + 1074)) by lia.
  assert (Hpos : 0 < Z.pos m * 2 ^ (e + 1074) * 1000000000).
  { assert (0 < 2 ^ (e + 1074)) by lia. nia. }
  destruct (binary_round_aux_pos s (m * 8388608000000000) (e + -23))
    as (m' & e' & R & -> & He' & Hm' & Hval & Hnear).
  { lia. }
  { rewrite Pos2Z.inj_mul, HX.
    assert (2 ^ (21 + 1074) * 1000000000 < 2 ^ 2045); [|lia].
    change 2045 with (21 + 1074 + 950). rewrite (Z.pow_add_r 2 (21 + 1074)) by lia.
    assert (0 < 2 ^ (21 + 1074)) by lia. assert (1000000000 < 2 ^ 950) by (vm_compute; done).
    nia. }
  rewrite Pos2Z.inj_mul, HX in Hval, Hnear.
  assert (Hrep : (1000000000 * 2 ^ (21 + 1074)) `mod` 2 ^ float.grid (1000000000 * 2 ^ (21 + 1074)) = 0)
    by (apply rep_mul_pow2; lia).
  pose proof (nearest_le_rep (Z.pos m * 2 ^ (e + 1074) * 1000000000) R
                (1000000000 * 2 ^ (21 + 1074)) (conj Hpos Hhi) Hrep Hnear) as Hle.
  rewrite <- Hval in Hle.
  destruct (round_away_bound s m' e' (1000000000 * 2 ^ 21) He') as (n & -> & Hn).
  { rewrite (Z.pow_add_r 2 21) in Hle by lia. lia. }
  exists n. split; [|done].
  assert (Hrange : ((if s then - n else n) <? - 2 ^ 63) = false
                   ∧ (2 ^ 63 <? (if s then - n else n)) = false).
  { split; apply Z.ltb_ge; destruct s; lia. }
  destruct Hrange as [-> ->]. reflexivity.
Qed.

Lemma sleepable_zero (s : bool) : sleepable (S754_zero s).
Proof. exists 0. split; [by destruct s|lia]. Qed.

(** [json_producer.py]: a period from 0 to [2^30] ms gives a length that
    [time.sleep] takes. *)
Lemma json_sleep_s_sleepable (a : json_producer.args) :
  (∀ p, json_producer.period a = Some p → 0 ≤ p < 2 ^ 30) →
  ∃ s, json_producer.sleep_s a = inr s ∧ sleepable s.
Proof.
  intros Hp. unfold json_producer.sleep_s.
  destruct (json_producer.period a) as [p|]; [|exists float.zero; split; [done|apply sleepable_zero]].
  specialize (Hp p eq_refl).
  destruct (Z.eq_dec p 0) as [->|Hp0].
  { eexists. split; [reflexivity|]. apply sleepable_zero. }
  destruct (int_truediv_1000 p Hp0 ltac:(lia)) as (m & e & -> & He & Hm).
  eexists. split; [done|].
  destruct (nanoseconds_bounded (p <? 0) m e He Hm) as (n & Hns & Hn).
  destruct (Z.ltb_spec p 0); [lia|]. exists n. split; [done|lia].
Qed.

(** [json_producer.py]: a negative period down to [-2^30] ms gives a
    negative length. *)
Lemma json_sleep_s_negative (a : json_producer.args) (p : Z) :
  json_producer.period a = Some p → - 2 ^ 30 < p < 0 →
  ∃ s n, json_producer.sleep_s a = inr s ∧ float.ltb s float.zero = true
         ∧ nanoseconds s = inr n ∧ n < 0.
Proof.
  intros Hperiod Hp. unfold json_producer.sleep_s. rewrite Hperiod.
  destruct (int_truediv_1000 p ltac:(lia) ltac:(lia)) as (m & e & -> & He & Hm).
  destruct (nanoseconds_bounded (p <? 0) m e He Hm) as (n & Hns & Hn).
  destruct (Z.ltb_spec p 0); [|lia]. exists (S754_finite true m e), (- n).
  split_and!; [done|done|done|lia].
Qed.

(** [data_producer.py]: every period below [2^30] ms, and none, gives a
    length that [time.sleep] takes. *)
Lemma data_sleep_s_sleepable (a : data_producer.args) :
  (∀ p, data_producer.period a = Some p → p < 2 ^ 30) →
  ∃ s, data_producer.sleep_s a = inr s ∧ sleepable s.
Proof.
  intros Hp. unfold data_producer.sleep_s.
  destruct (data_producer.period a) as [p|]; [|exists float.zero; split; [done|apply sleepable_zero]].
  specialize (Hp p eq_refl).
  destruct (Z.ltb_spec p 0).
  { exists float.zero. split; [done|apply sleepable_zero]. }
  destruct (Z.eq_dec p 0) as [->|Hp0].
  { eexists. split; [reflexivity|]. apply sleepable_zero. }
  destruct (div_1000 p ltac:(lia)) as (x & m & e & -> & -> & He & Hm).
  eexists. split; [done|].
  destruct (nanoseconds_bounded false m e He Hm) as (n & Hns & Hn).
  exists n. split; [done|lia].
Qed.

End sleeping.


(** ** Provisioning *)

Section provisioning_facts.
Context (env : environment).

Lemma creations_app (h1 h2 : list event) : creations (h1 ++ h2) = creations h1 ++ creations h2.
Proof. unfold creations, requests. by rewrite !omap_app. Qed.

Lemma requests_app (h1 h2 : list event) : requests (h1 ++ h2) = requests h1 ++ requests h2.
Proof. unfold requests. by rewrite omap_app. Qed.

Lemma polls_requests (name : string) (Δ : list event) :
  Forall (polls name) Δ → Forall (λ rq, rq = DescribeStream name) (requests Δ).
Proof.
  induction 1 as [|ev Δ Hev _ IH]; [constructor|].
  destruct ev as [rq rp|m|s]; cbn in *; [by constructor|done|done].
Qed.

Lemma polls_creations (name : string) (Δ : list event) : Forall (polls name) Δ → creations Δ = [].
Proof.
  intros H%polls_requests. unfold creations.
  induction H as [|rq rqs -> _ IH]; [done|]. exact IH.
Qed.

Lemma describe_stream_run (name : string) (w : world) :
  describe_stream env name w
  = (match backend env (asked w) with Returns body => Ok body | Raises e => Raised e end,
     {| asked := S (asked w);
        history := history w ++ [Called (DescribeStream name) (backend env (asked w))] |}).
Proof. unfold describe_stream, call, bind, ask, observe. cbn. by destruct (backend env (asked w)). Qed.

Lemma create_stream_run (name : string) (shards : Z) (w : world) :
  create_stream env name shards w
  = (match backend env (asked w) with Returns _ => Ok tt | Raises e => Raised e end,
     {| asked := S (asked w);
        history := history w ++ [Called (CreateStream name shards) (backend env (asked w))] |}).
Proof. unfold create_stream, call, bind, ask, observe. cbn. by destruct (backend env (asked w)). Qed.

Lemma response_eta (body : response) (s : string) :
  StreamStatus body = Some s → body = status s.
Proof. destruct body as [o]. cbn. by intros ->. Qed.

Lemma describe_status_run (name : string) (w : world) :
  describe_status env name w
  = (match backend env (asked w) with
     | Returns body => match StreamStatus body with
                       | Some s => Ok s
                       | None => Raised (KeyError "StreamStatus")
                       end
     | Raises e => Raised e
     end,
     {| asked := S (asked w);
        history := history w ++ [Called (DescribeStream name) (backend env (asked w))] |}).
Proof.
  unfold describe_status, bind. rewrite describe_stream_run.
  destruct (backend env (asked w)) as [body|e]; [|done].
  unfold stream_status. by destruct (StreamStatus body).
Qed.

Lemma wait_for_description_safe (fuel : nat) (name : string) (w : world) :
  ∃ Δ, history (wait_for_description env fuel name w).2 = history w ++ Δ
       ∧ Forall (polls name) Δ
       ∧ ∀ s, (wait_for_description env fuel name w).1 = Ok s →
              ∃ Δ', Δ = Δ' ++ [Called (DescribeStream name) (Returns (status s))].
Proof.
  revert w. induction fuel as [|fuel IH]; intros w.
  { exists []. cbn. rewrite app_nil_r. by split_and!. }
  cbn [wait_for_description]. unfold try_except.
  rewrite describe_status_run.
  set (ev := Called (DescribeStream name) (backend env (asked w))).
  set (w1 := {| asked := S (asked w); history := history w ++ [ev] |}).
  assert (Hev : polls name ev) by done.
  assert (Hretry : ∀ key : string,
    ∃ Δ, history (wait_for_description env fuel name w1).2 = history w ++ Δ
       ∧ Forall (polls name) Δ
       ∧ ∀ s, (wait_for_description env fuel name w1).1 = Ok s →
              ∃ Δ', Δ = Δ' ++ [Called (DescribeStream name) (Returns (status s))]).
  { intros _. destruct (IH w1) as (Δ & HΔ & Hpoll & Hok).
    exists (ev :: Δ). split_and!.
    - rewrite HΔ. cbn. by rewrite <- app_assoc.
    - by constructor.
    - intros s Hs. destruct (Hok s Hs) as (Δ' & ->). by exists (ev :: Δ'). }
  destruct (backend env (asked w)) as [body|e] eqn:Hrp.
  - destruct (StreamStatus body) as [s|] eqn:Hs; [|by apply Hretry].
    exists [ev]. cbn. split_and!; [done|by constructor|].
    intros s' [= <-]. exists []. subst ev. by rewrite (response_eta body s).
  - destruct e; try by apply Hretry.
    all: exists [ev]; cbn; split_and!; [done|by constructor|done].
Qed.


Lemma sleep_3_run (w : world) :
  time_sleep env (float.of_int 3) w
  = (Ok tt, {| asked := asked w; history := history w ++ [Slept (float.of_int 3)] |}).
Proof. reflexivity. Qed.

Lemma wait_for_active_step (fuel : nat) (name st : string) (w : world) :
  st ≠ "ACTIVE" →
  wait_for_active env (S fuel) name st 3 w
  = let w' := {| asked := S (asked w);
                 history := history w ++ [Printed (MsgStatusSleeping name st 3);
                                          Slept (float.of_int 3);
                                          Called (DescribeStream name) (backend env (asked w))] |} in
    match backend env (asked w) with
    | Returns body =>
        match StreamStatus body with
        | Some s => wait_for_active env fuel name s 3 w'
        | None => (Raised (KeyError "StreamStatus"), w')
        end
    | Raises e => (Raised e, w')
    end.
Proof.
  intros Hst. cbn [wait_for_active].
  destruct (String.eqb_spec st "ACTIVE") as [|_]; [done|].
  unfold bind at 1. unfold print, observe at 1. unfold bind at 1. rewrite sleep_3_run.
  cbn [asked history]. unfold bind at 1. rewrite describe_status_run. cbn [asked history].
  rewrite <- !app_assoc. cbn [app].
  destruct (backend env (asked w)) as [body|e]; [|done]. by destruct (StreamStatus body).
Qed.

Lemma wait_for_active_safe (fuel : nat) (name st : string) (w : world) :
  ∃ Δ, history (wait_for_active env fuel name st 3 w).2 = history w ++ Δ
       ∧ Forall (polls name) Δ
       ∧ ((wait_for_active env fuel name st 3 w).1 = Ok tt →
          (st = "ACTIVE" ∧ Δ = [])
          ∨ ∃ Δ', Δ = Δ' ++ [Called (DescribeStream name) (Returns (status "ACTIVE"))]).
Proof.
  revert st w. induction fuel as [|fuel IH]; intros st w.
  all: destruct (decide (st = "ACTIVE")) as [->|Hst].
  1,3: exists []; cbn; rewrite app_nil_r; split_and!; [done|done|by auto].
  { exists []. cbn [wait_for_active]. destruct (String.eqb_spec st "ACTIVE"); [done|].
    cbn. rewrite app_nil_r. by split_and!. }
  rewrite wait_for_active_step by done. cbn zeta.
  set (rp := backend env (asked w)).
  set (Δ0 := [Printed (MsgStatusSleeping name st 3); Slept (float.of_int 3);
              Called (DescribeStream name) rp]).
  assert (HΔ0 : Forall (polls name) Δ0) by (repeat constructor).
  destruct rp as [body|e] eqn:Hrp.
  - destruct (StreamStatus body) as [s|] eqn:Hs.
    + match goal with |- context [wait_for_active env fuel name s 3 ?w1] =>
        destruct (IH s w1) as (Δ & HΔ & Hpoll & Hok) end.
      cbn [history] in HΔ.
      exists (Δ0 ++ Δ). split_and!.
      * rewrite HΔ. by rewrite <- app_assoc.
      * by apply Forall_app.
      * intros Hr. right. destruct (Hok Hr) as [[-> ->]|(Δ' & ->)].
        -- exists [Printed (MsgStatusSleeping name st 3); Slept (float.of_int 3)].
           rewrite app_nil_r. subst Δ0. by rewrite (response_eta body "ACTIVE").
        -- exists (Δ0 ++ Δ'). by rewrite app_assoc.
    + exists Δ0. by split_and!.
  - exists Δ0. by split_and!.
Qed.

Lemma wait_for_stream_safe (fuel : nat) (name : string) (w : world) :
  ∃ Δ, history (wait_for_stream env fuel name 3 w).2 = history w ++ Δ
       ∧ Forall (polls name) Δ
       ∧ ((wait_for_stream env fuel name 3 w).1 = Ok tt →
          ∃ Δ', Δ = Δ' ++ [Called (DescribeStream name) (Returns (status "ACTIVE"))]).
Proof.
  unfold wait_for_stream, bind.
  destruct (wait_for_description_safe fuel name w) as (Δ1 & H1 & Hp1 & Hok1).
  destruct (wait_for_description env fuel name w) as [[s| |] w1]; cbn [fst snd] in *.
  2-3: exists Δ1; by split_and!.
  destruct (Hok1 s eq_refl) as (Δ1' & ->).
  destruct (wait_for_active_safe fuel name s w1) as (Δ2 & H2 & Hp2 & Hok2).
  exists ((Δ1' ++ [Called (DescribeStream name) (Returns (status s))]) ++ Δ2). split_and!.
  - by rewrite H2, H1, <- !app_assoc.
  - by apply Forall_app.
  - intros Hr. destruct (Hok2 Hr) as [[-> ->]|(Δ' & ->)].
    + exists Δ1'. by rewrite app_nil_r.
    + eexists. by rewrite app_assoc.
Qed.


Lemma wait_for_active_progress (pending : list string) :
  ∀ (current : string) (fuel : nat) (name : string) (w : world),
  leads_to_active current pending →
  (∀ (i : nat) s, pending !! i = Some s → backend env (asked w + i)%nat = Returns (status s)) →
  (length pending ≤ fuel)%nat →
  wait_for_active env fuel name current 3 w
  = (Ok tt, {| asked := (asked w + length pending)%nat;
               history := history w ++ poll_events name current pending |}).
Proof.
  induction pending as [|next pending IH]; intros current fuel name w Hlead Hrp Hfuel.
  - cbn in Hlead. subst current. destruct w as [a h].
    destruct fuel; cbn; by rewrite Nat.add_0_r, app_nil_r.
  - destruct Hlead as [Hcur Hlead]. destruct fuel as [|fuel]; [cbn in Hfuel; lia|].
    rewrite wait_for_active_step by done. cbn zeta.
    pose proof (Hrp 0%nat next eq_refl) as H0. rewrite Nat.add_0_r in H0. rewrite H0.
    cbn [StreamStatus status].
    rewrite (IH next fuel name); [|done| |cbn in Hfuel; lia].
    + cbn [asked history length poll_events]. f_equal. f_equal; [lia|].
      by rewrite <- app_assoc.
    + intros i s Hi. cbn [asked]. rewrite <- (Hrp (S i) s Hi). f_equal. lia.
Qed.

Lemma wait_for_stream_progress (current : string) (pending : list string)
    (fuel : nat) (name : string) (w : world) :
  leads_to_active current pending →
  (∀ (i : nat) s, (current :: pending) !! i = Some s →
                  backend env (asked w + i)%nat = Returns (status s)) →
  (length pending < fuel)%nat →
  wait_for_stream env fuel name 3 w
  = (Ok tt, {| asked := (asked w + S (length pending))%nat;
               history := history w
                 ++ Called (DescribeStream name) (Returns (status current))
                 :: poll_events name current pending |}).
Proof.
  intros Hlead Hrp Hfuel. unfold wait_for_stream, bind.
  destruct fuel as [|fuel]; [lia|].
  cbn [wait_for_description]. unfold try_except. rewrite describe_status_run.
  pose proof (Hrp 0%nat current eq_refl) as H0. rewrite Nat.add_0_r in H0. rewrite H0.
  cbn [StreamStatus status].
  rewrite (wait_for_active_progress pending current); [|done| |lia].
  - cbn [asked history]. f_equal. f_equal; [lia|]. by rewrite <- app_assoc.
  - intros i s Hi. cbn [asked]. rewrite <- (Hrp (S i) s Hi). f_equal. lia.
Qed.

Lemma connect_failed_lookup (fuel : nat) (name : string) (w : world) (e : exn) :
  lookup_error (backend env (asked w)) = Some e →
  connect_to_stream env fuel name w
  = let w' := {| asked := S (S (asked w));
                 history := history w
                   ++ [Called (DescribeStream name) (backend env (asked w));
                       Printed (MsgCreating name);
                       Called (CreateStream name 1) (backend env (S (asked w)))] |} in
    match backend env (S (asked w)) with
    | Returns _ =>
        match wait_for_stream env fuel name 3 w' with
        | (Ok _, w'') => (Ok true, w'')
        | (Raised e', w'') => (Raised e', w'')
        | (Diverged, w'') => (Diverged, w'')
        end
    | Raises e' => (Raised e', w')
    end.
Proof.
  intros He. unfold connect_to_stream, connect_attempt.
  unfold bind at 1. unfold try_except. unfold bind at 1. rewrite describe_status_run.
  assert (Hfail : match backend env (asked w) with
                  | Returns body => match StreamStatus body with
                                    | Some s => Ok s
                                    | None => Raised (KeyError "StreamStatus")
                                    end
                  | Raises e0 => Raised e0
                  end = Raised e).
  { destruct (backend env (asked w)) as [body|e0]; cbn in He; [|congruence].
    destruct (StreamStatus body); congruence. }
  rewrite Hfail. unfold connect_create.
  unfold bind at 1. unfold print, observe at 1. unfold bind at 1.
  rewrite create_stream_run. cbn [asked history].
  rewrite <- !app_assoc. cbn [app].
  destruct (backend env (S (asked w))) as [body|e']; [|done].
  unfold bind at 1.
  by destruct (wait_for_stream env fuel name 3 _) as [[[]| |] w''].
Qed.

Lemma connect_deleting (fuel : nat) (name : string) (w : world) :
  backend env (asked w) = Returns (status "DELETING") →
  connect_to_stream env fuel name w
  = (Ok false,
     {| asked := S (asked w);
        history := history w
          ++ [Called (DescribeStream name) (Returns (status "DELETING"));
              Printed (MsgBeingDeleted name)] |}).
Proof.
  intros Hrp. unfold connect_to_stream, connect_attempt.
  unfold bind at 1. unfold try_except. unfold bind at 1.
  rewrite describe_status_run, Hrp. cbn [StreamStatus status String.eqb Ascii.eqb Bool.eqb].
  unfold bind, print, observe, ret. cbn [asked history]. by rewrite <- app_assoc.
Qed.

Lemma connect_active (fuel : nat) (name : string) (w : world) :
  backend env (asked w) = Returns (status "ACTIVE") →
  connect_to_stream env fuel name w
  = (Ok true,
     {| asked := S (asked w);
        history := history w ++ [Called (DescribeStream name) (Returns (status "ACTIVE"))] |}).
Proof.
  intros Hrp. unfold connect_to_stream, connect_attempt.
  unfold bind at 1. unfold try_except. unfold bind at 1.
  by rewrite describe_status_run, Hrp.
Qed.

End provisioning_facts.

(** ** The loop of [json_producer.py] *)

Section json_facts.
Context (env : environment).
Import json_producer.

Lemma msg_type_of_cases (r : Z) : msg_type_of r = 0 ∨ msg_type_of r = 1 ∨ msg_type_of r = 2.
Proof. unfold msg_type_of. repeat case_match; auto. Qed.

Lemma getitem_insert (d : dict) (key : string) (v : pyval) :
  getitem (<[key := v]> d) key = ret v.
Proof. unfold getitem. by rewrite lookup_insert_eq. Qed.

Lemma getitem_insert_ne (d : dict) (key key' : string) (v : pyval) :
  key ≠ key' → getitem (<[key := v]> d) key' = getitem d key'.
Proof. intros. unfold getitem. by rewrite lookup_insert_ne. Qed.

Lemma random_random_run (w : world) :
  random_random env w
  = (Ok (float.ldexp (entropy env (asked w) `mod` 2 ^ 53) (-53)),
     {| asked := S (asked w); history := history w |}).
Proof. reflexivity. Qed.

(** Lines 84 to 87. *)
Lemma value_branch_run (t : Z) (obj : dict) (w : world) :
  ∃ v, range_contract t v
    ∧ (if py_eq_int (PyInt t) 1
       then
         u <- random_random env ;;
         i <- lift (float.to_int (float.mul u (float.of_int 256))) ;;
         value <- lift (float.of_pyint i) ;;
         ret (<["value" := PyFloat value]> obj)
       else
         u <- random_random env ;;
         ret (<["value" := PyFloat (float.sub (float.mul u (float.of_int 2000))
                                              (float.of_int 1000))]> obj)) w
      = (Ok (<["value" := PyFloat v]> obj), {| asked := S (asked w); history := history w |}).
Proof.
  pose proof (Z.mod_pos_bound (entropy env (asked w)) (2 ^ 53) ltac:(lia)) as Hk.
  unfold range_contract, py_eq_int. destruct (t =? 1).
  - destruct (integer_like_value _ Hk) as (i & Hi & Hrange & Hfloat & Hscaled).
    exists (float.of_int i). split; [by exists i|].
    unfold bind at 1. rewrite random_random_run.
    unfold bind at 1. rewrite Hi. cbn [lift ret].
    unfold bind at 1. rewrite Hfloat. by cbn [lift ret].
  - destruct (default_value _ Hk) as (y & Hy & Hrange).
    eexists. split; [by exists y|].
    unfold bind at 1. by rewrite random_random_run.
Qed.

Lemma json_create_object_run (n : list Z) (w : world) :
  length n = 3%nat →
  ∃ t c v,
    t = msg_type_of (1 + entropy env (asked w) `mod` 501)
    ∧ n !! Z.to_nat t = Some c
    ∧ range_contract t v
    ∧ create_object env n w
      = (Ok (sample t v (c + 1) (clock env (S (S (asked w)))), <[Z.to_nat t := c + 1]> n),
         {| asked := S (S (S (asked w))); history := history w |}).
Proof.
  intros Hn. destruct n as [|n0 [|n1 [|n2 [|]]]]; try done.
  unfold create_object.
  unfold bind at 1. unfold randint at 1. unfold bind at 1. unfold ask at 1. unfold ret at 1.
  rewrite getitem_insert. unfold bind at 1. unfold ret at 1.
  change (1 + entropy env (asked w) `mod` (501 - 1 + 1)) with (1 + entropy env (asked w) `mod` 501).
  set (t := msg_type_of _).
  unfold bind at 1.
  match goal with |- context [ (if py_eq_int (PyInt t) 1 then _ else _) ?w1 ] =>
    destruct (value_branch_run t (<["msg_type" := PyInt t]> ∅) w1) as (v & Hv & ->) end.
  cbn [asked history].
  rewrite getitem_insert_ne, getitem_insert by done.
  unfold bind at 1. unfold ret at 1.
  exists t. 
  destruct (msg_type_of_cases (1 + entropy env (asked w) `mod` 501)) as [E|[E|E]];
    fold t in E; rewrite E in *.
  - exists n0, v. split_and!; try done.
  - exists n1, v. split_and!; try done.
  - exists n2, v. split_and!; try done.
Qed.


Lemma time_sleep_run (s : float.t) (w : world) :
  time_sleep env s w
  = match refusal env s (asked w) with
    | Some e => (Raised e, w)
    | None => (Ok tt, {| asked := asked w; history := history w ++ [Slept s] |})
    end.
Proof.
  unfold time_sleep, refusal, bind. destruct (nanoseconds s) as [e|timeout]; [done|].
  cbn [lift ret]. destruct (timeout <? 0); [done|]. destruct (timeout <? 2 ^ 51); [done|].
  by destruct (timer env (asked w) timeout).
Qed.

(** A length that [time.sleep] takes is refused at no time. *)
Lemma refusal_sleepable (s : float.t) (k : nat) : sleepable s → refusal env s k = None.
Proof.
  intros (timeout & Hns & Hrange). unfold refusal. rewrite Hns.
  destruct (Z.ltb_spec timeout 0); [lia|]. by destruct (Z.ltb_spec timeout (2 ^ 51)); [|lia].
Qed.

Lemma refusal_negative (s : float.t) (n : Z) (k : nat) :
  nanoseconds s = inr n → n < 0 →
  refusal env s k = Some (ValueError "sleep length must be non-negative").
Proof.
  intros Hns Hn. unfold refusal. rewrite Hns. by destruct (Z.ltb_spec n 0); [|lia].
Qed.

Lemma put_record_run (name : string) (data : json) (key : string) (w : world) :
  put_record env name data key w
  = (match backend env (asked w) with Returns _ => Ok tt | Raises e => Raised e end,
     {| asked := S (asked w);
        history := history w ++ [Called (PutRecord name data key) (backend env (asked w))] |}).
Proof. unfold put_record, call, bind, ask, observe. cbn. by destruct (backend env (asked w)). Qed.

Lemma json_send_run (a : args) (t : Z) (v : float.t) (c : Z) (ts : string) (w : world) :
  send env a (sample t v c ts) (JObject (sample t v c ts)) w
  = (Ok tt,
     {| asked := S (asked w);
        history := history w
          ++ Called (PutRecord (stream_name a) (JObject (sample t v c ts)) "123")
                    (backend env (asked w))
          :: aftermath a t v c ts (backend env (asked w)) |}).
Proof.
  unfold send, try_except. unfold bind at 1. rewrite put_record_run.
  unfold aftermath. destruct (backend env (asked w)) as [body|e].
  - destruct (silent a); cbn [negb].
    + done.
    + unfold sample. rewrite getitem_insert_ne, getitem_insert by done.
      unfold bind at 1. unfold ret at 1.
      rewrite !getitem_insert_ne, getitem_insert by done.
      unfold bind at 1. unfold ret at 1.
      rewrite !getitem_insert_ne, getitem_insert by done.
      unfold bind at 1. unfold ret at 1. unfold print, observe.
      cbn [asked history]. rewrite <- app_assoc. reflexivity.
  - unfold bind, print, observe. cbn [asked history]. rewrite <- !app_assoc. reflexivity.
Qed.

Lemma json_emission_run (a : args) (s : float.t) (n : list Z) (w : world) :
  length n = 3%nat →
  ∃ t c v,
    t = msg_type_of (1 + entropy env (asked w) `mod` 501)
    ∧ n !! Z.to_nat t = Some c
    ∧ range_contract t v
    ∧ let ts := clock env (S (S (asked w))) in
      let rp := backend env (S (S (S (asked w)))) in
      let Δ := Called (PutRecord (stream_name a) (JObject (sample t v (c + 1) ts)) "123") rp
               :: aftermath a t v (c + 1) ts rp in
      emission env a s n w
      = match refusal env s (S (S (S (S (asked w))))) with
        | Some e =>
            (Raised e, {| asked := S (S (S (S (asked w)))); history := history w ++ Δ |})
        | None =>
            (Ok (<[Z.to_nat t := c + 1]> n),
             {| asked := S (S (S (S (asked w)))); history := history w ++ Δ ++ [Slept s] |})
        end.
Proof.
  intros Hn. destruct (json_create_object_run n w Hn) as (t & c & v & Ht & Hc & Hv & Hrun).
  exists t, c, v. split_and!; try done. cbn zeta.
  unfold emission. unfold bind at 1. rewrite Hrun.
  unfold bind at 1. rewrite json_send_run. cbn [asked history].
  unfold bind at 1. rewrite time_sleep_run. cbn [asked history].
  destruct (refusal env s _); [done|].
  cbn. by rewrite <- !app_assoc.
Qed.

Lemma attempts_app (h1 h2 : list event) : attempts (h1 ++ h2) = attempts h1 ++ attempts h2.
Proof. unfold attempts, requests. by rewrite !omap_app. Qed.

Lemma attempts_emission (a : args) (t : Z) (v : float.t) (c : Z) (ts : string)
    (rp : reply) (tail : list event) :
  attempts (Called (PutRecord (stream_name a) (JObject (sample t v c ts)) "123") rp
            :: aftermath a t v c ts rp ++ tail)
  = JObject (sample t v c ts) :: attempts tail.
Proof. unfold aftermath. destruct rp; [destruct (silent a)|]; reflexivity. Qed.

Lemma sequences_sample (t t' : Z) (v : float.t) (c : Z) (ts : string) (records : list json) :
  sequences t' (JObject (sample t v c ts) :: records)
  = (if t =? t' then [c] else []) ++ sequences t' records.
Proof.
  unfold sequences at 1. cbn [omap list_omap]. unfold sample.
  rewrite !lookup_insert_ne, lookup_insert_eq by done.
  rewrite lookup_insert_ne, lookup_insert_eq by done.
  by destruct (t =? t').
Qed.

Lemma sum_insert (n : list Z) (i : nat) (c c' : Z) :
  n !! i = Some c → foldr Z.add 0 (<[i := c']> n) = foldr Z.add 0 n + (c' - c).
Proof.
  revert i. induction n as [|x n IH]; intros [|i] Hc; try done.
  - cbn in *. simplify_eq. lia.
  - change (x + foldr Z.add 0 (<[i := c']> n) = x + foldr Z.add 0 n + (c' - c)).
    rewrite (IH i Hc). lia.
Qed.

Lemma json_emission_loop_run (a : args) (s : float.t) (N : nat) :
  sleepable s →
  ∀ (n : list Z) (w : world),
  length n = 3%nat →
  ∃ n' Δ,
    iterate N (emission env a s) n w
    = (Ok n', {| asked := (asked w + 4 * N)%nat; history := history w ++ Δ |})
    ∧ length n' = 3%nat
    ∧ length (attempts Δ) = N
    ∧ Forall well_formed (attempts Δ)
    ∧ foldr Z.add 0 n' = foldr Z.add 0 n + Z.of_nat N
    ∧ ∀ (t : nat) c, n !! t = Some c →
        ∃ c', n' !! t = Some c' ∧ c ≤ c'
              ∧ sequences (Z.of_nat t) (attempts Δ) = seqZ (c + 1) (c' - c).
Proof.
  intros Hs. induction N as [|N IH]; intros n w Hn.
  { exists n, []. cbn. rewrite Nat.add_0_r, app_nil_r. destruct w. split_and!; try done; [lia|].
    intros t c Hc. exists c. rewrite Z.sub_diag. by split_and!. }
  cbn [iterate]. unfold bind at 1.
  destruct (json_emission_run a s n w Hn) as (t0 & c0 & v & Ht0 & Hc0 & Hv & Hrun).
  cbn zeta in Hrun. rewrite Hrun, (refusal_sleepable s _ Hs). clear Hrun.
  set (ts := clock env (S (S (asked w)))) in *.
  set (rp := backend env (S (S (S (asked w))))) in *.
  match goal with |- context [iterate N _ ?n1 ?w1] =>
    destruct (IH n1 w1) as (n' & Δ & -> & Hn' & Hlen & Hwf & Hsum & Hseq) end.
  { by rewrite length_insert. }
  cbn [asked history].
  exists n', (Called (PutRecord (stream_name a) (JObject (sample t0 v (c0 + 1) ts)) "123") rp
              :: aftermath a t0 v (c0 + 1) ts rp ++ Slept s :: Δ).
  assert (Hatt : ∀ tail, attempts (Slept s :: tail) = attempts tail) by done.
  rewrite attempts_emission, Hatt.
  split_and!.
  - f_equal. f_equal; [lia|]. rewrite <- !app_assoc. reflexivity.
  - done.
  - cbn. by rewrite Hlen.
  - constructor; [|done].
    exists t0, v, (c0 + 1), ts. split_and!; try done.
    all: destruct (msg_type_of_cases (1 + entropy env (asked w) `mod` 501)); lia.
  - rewrite Hsum, (sum_insert n (Z.to_nat t0) c0 (c0 + 1)) by done. lia.
  - intros t c Hc. rewrite sequences_sample.
    assert (Ht0' : 0 ≤ t0) by (destruct (msg_type_of_cases (1 + entropy env (asked w) `mod` 501)); lia).
    destruct (decide (t = Z.to_nat t0)) as [->|Hne].
    + assert (c = c0) as -> by congruence.
      destruct (Hseq (Z.to_nat t0) (c0 + 1)) as (c' & Hc' & Hle & E).
      { apply list_lookup_insert_eq. by eapply lookup_lt_Some. }
      exists c'. split_and!; [done|lia|].
      rewrite Z2Nat.id in * by done. rewrite Z.eqb_refl, E.
      rewrite (seqZ_cons (c0 + 1)) by lia. cbn [app]. do 2 f_equal; lia.
    + destruct (Hseq t c) as (c' & Hc' & Hle & E).
      { by rewrite list_lookup_insert_ne. }
      exists c'. split_and!; [done|done|].
      destruct (Z.eqb_spec t0 (Z.of_nat t)); [lia|]. by rewrite E.
Qed.


(** [send] raises nothing, whatever the object and the reply. *)
Lemma json_send_total (a : args) (obj : dict) (data : json) (w : world) :
  ∃ Δ, send env a obj data w
       = (Ok tt, {| asked := S (asked w); history := history w ++ Δ |}).
Proof.
  unfold send, try_except. unfold bind at 1. rewrite put_record_run.
  destruct (backend env (asked w)) as [body|e].
  - destruct (silent a); cbn [negb]; [by eexists|].
    unfold getitem, bind, print, observe, raise, ret.
    destruct (obj !! "sequence"), (obj !! "value"), (obj !! "msg_type");
      cbn [asked history]; rewrite <- ?app_assoc; by eexists.
  - unfold bind, print, observe. cbn [asked history]. rewrite <- !app_assoc. by eexists.
Qed.

(** Once connected, [main] is the loop, from three counters at zero. *)
Lemma json_main_connected (fuel : nat) (a : args) (s : float.t) (w w1 : world) :
  connect_to_stream env fuel (stream_name a)
    {| asked := asked w;
       history := history w ++ [Printed (MsgConnecting (stream_name a) (region a))] |}
  = (Ok true, w1) →
  sleep_s a = inr s →
  main env fuel a w
  = forever fuel (emission env a s) [0; 0; 0]
      (if silent a
       then {| asked := asked w1; history := history w1 ++ [Printed (MsgSendingEvery s)] |}
       else w1).
Proof.
  intros Hconnect Hs. unfold main.
  unfold bind at 1. unfold print, observe at 1. unfold bind at 1.
  rewrite Hconnect. cbn [negb].
  unfold bind at 1. rewrite Hs. cbn [lift ret].
  unfold bind at 1. by destruct (silent a).
Qed.

(** The loop, whatever the sleep does: the events are those of the
    emission, the records handed over are well formed, and those of a type
    carry the numbers that follow the counter of the type, one by one. *)
Lemma json_emission_loop_trace (a : args) (s : float.t) (N : nat) :
  ∀ (n : list Z) (w : world),
  length n = 3%nat →
  ∃ Δ,
    history (iterate N (emission env a s) n w).2 = history w ++ Δ
    ∧ Forall (emits (stream_name a) "123") Δ
    ∧ Forall well_formed (attempts Δ)
    ∧ ∀ (t : nat) c, n !! t = Some c →
        ∃ k, 0 ≤ k
             ∧ sequences (Z.of_nat t) (attempts Δ) = seqZ (c + 1) k
             ∧ ∀ n', (iterate N (emission env a s) n w).1 = Ok n' → n' !! t = Some (c + k).
Proof.
  induction N as [|N IH]; intros n w Hn.
  { exists []. cbn. rewrite app_nil_r. split_and!; try done.
    intros t c Hc. exists 0. split_and!; [done|done|].
    intros n' [= <-]. by rewrite Z.add_0_r. }
  cbn [iterate]. unfold bind at 1 2.
  destruct (json_emission_run a s n w Hn) as (t0 & c0 & v & Ht0 & Hc0 & Hv & Hrun).
  cbn zeta in Hrun. rewrite Hrun. clear Hrun.
  set (ts := clock env (S (S (asked w)))) in *.
  set (rp := backend env (S (S (S (asked w))))) in *.
  assert (Ht0' : 0 ≤ t0 ≤ 2)
    by (destruct (msg_type_of_cases (1 + entropy env (asked w) `mod` 501)); lia).
  assert (Hwf : well_formed (JObject (sample t0 v (c0 + 1) ts))).
  { exists t0, v, (c0 + 1), ts. split_and!; try done; lia. }
  assert (Hem : Forall (emits (stream_name a) "123")
                  (Called (PutRecord (stream_name a) (JObject (sample t0 v (c0 + 1) ts)) "123")
                          rp :: aftermath a t0 v (c0 + 1) ts rp)).
  { unfold aftermath. destruct rp; [destruct (silent a)|]; repeat constructor; by eexists. }
  destruct (refusal env s _) as [e|].
  - cbn [fst snd history].
    exists (Called (PutRecord (stream_name a) (JObject (sample t0 v (c0 + 1) ts)) "123") rp
            :: aftermath a t0 v (c0 + 1) ts rp).
    rewrite <- (app_nil_r (aftermath _ _ _ _ _ _)), attempts_emission, app_nil_r.
    split_and!; [done|done|by repeat constructor|].
    intros t c Hc. rewrite sequences_sample. cbn [sequences omap list_omap].
    destruct (Z.eqb_spec t0 (Z.of_nat t)) as [E|E].
    + assert (c = c0) as -> by (rewrite E, Nat2Z.id in Hc0; congruence).
      exists 1. by split_and!.
    + exists 0. by split_and!.
  - match goal with |- context [iterate N _ ?n1 ?w1] =>
      destruct (IH n1 w1) as (Δ & HΔ & Hemits & Hwfs & Hseq) end.
    { by rewrite length_insert. }
    cbn [history] in HΔ.
    exists (Called (PutRecord (stream_name a) (JObject (sample t0 v (c0 + 1) ts)) "123") rp
            :: aftermath a t0 v (c0 + 1) ts rp ++ Slept s :: Δ).
    assert (Hatt : ∀ tail, attempts (Slept s :: tail) = attempts tail) by done.
    rewrite attempts_emission, Hatt.
    split_and!.
    + rewrite HΔ, <- !app_assoc. reflexivity.
    + rewrite app_comm_cons. apply Forall_app_2; [done|]. by constructor.
    + by constructor.
    + intros t c Hc. rewrite sequences_sample.
      destruct (decide (t = Z.to_nat t0)) as [->|Hne].
      * assert (c = c0) as -> by congruence.
        destruct (Hseq (Z.to_nat t0) (c0 + 1)) as (k & Hk & E & Hend).
        { apply list_lookup_insert_eq. by eapply lookup_lt_Some. }
        exists (k + 1). rewrite Z2Nat.id in * by lia. rewrite Z.eqb_refl, E.
        split_and!; [lia| |].
        -- rewrite (seqZ_cons (c0 + 1)) by lia. cbn [app]. do 2 f_equal; lia.
        -- intros n' Hn'. rewrite (Hend n' Hn'). f_equal. lia.
      * destruct (Hseq t c) as (k & Hk & E & Hend).
        { by rewrite list_lookup_insert_ne. }
        exists k. destruct (Z.eqb_spec t0 (Z.of_nat t)); [lia|]. by split_and!.
Qed.

(** Whatever the sleep does, the records handed over are well formed. *)
Lemma json_emission_loop_records (a : args) (s : float.t) (N : nat) (n : list Z) (w : world) :
  length n = 3%nat →
  ∃ Δ, history (iterate N (emission env a s) n w).2 = history w ++ Δ
       ∧ Forall well_formed (attempts Δ).
Proof.
  intros Hn. destruct (json_emission_loop_trace a s N n w Hn) as (Δ & HΔ & _ & Hwf & _).
  by exists Δ.
Qed.

End json_facts.

(** ** The loop of [data_producer.py] *)

Section data_facts.
Context (env : environment).
Import data_producer.

Lemma list_index_nat {A} (l : list A) (i : nat) :
  (i < length l)%nat → list_index l (Z.of_nat i) = inr i.
Proof.
  intros Hi. unfold list_index.
  destruct (Z.ltb_spec (Z.of_nat i) 0); [lia|].
  destruct (Z.leb_spec 0 (Z.of_nat i)); [|lia].
  destruct (Z.ltb_spec (Z.of_nat i) (Z.of_nat (length l))); [|lia].
  cbn. by rewrite Nat2Z.id.
Qed.

Lemma stamp_run (i : nat) (objects : list dict) (o : dict) (counter : Z) (w : world) :
  objects !! i = Some o →
  stamp env (Z.of_nat i) (objects, counter) w
  = (Ok (<[i := stamped (clock env (asked w)) counter o]> objects, counter + 1),
     {| asked := S (asked w); history := history w |}).
Proof.
  intros Ho. pose proof (lookup_lt_Some _ _ _ Ho) as Hi.
  unfold stamp. unfold bind at 1. unfold now_str, ask at 1.
  unfold list_getitem at 1. rewrite list_index_nat by done. cbn [lift].
  unfold bind at 1. unfold ret at 1. unfold bind at 1. rewrite Ho. unfold ret at 1.
  unfold list_setitem at 1. rewrite list_index_nat by done. cbn [lift].
  unfold bind at 1. unfold bind at 1. unfold ret at 1. unfold ret at 1.
  unfold list_getitem at 1. rewrite list_index_nat by (by rewrite length_insert). cbn [lift].
  unfold bind at 1. unfold ret at 1. unfold bind at 1.
  rewrite list_lookup_insert_eq by done. unfold ret at 1.
  unfold list_setitem at 1. rewrite list_index_nat by (by rewrite length_insert). cbn [lift].
  unfold bind at 1. unfold bind at 1. unfold ret at 1. unfold ret at 1.
  rewrite list_insert_insert_eq. reflexivity.
Qed.


Lemma stamp_some_run (m : nat) :
  ∀ (k : nat) (objects : list dict) (counter : Z) (w : world),
  (k + m ≤ length objects)%nat →
  ∃ objects',
    for_each (Z.of_nat <$> seq k m) (stamp env) (objects, counter) w
    = (Ok (objects', counter + Z.of_nat m),
       {| asked := (asked w + m)%nat; history := history w |})
    ∧ length objects' = length objects
    ∧ ∀ (j : nat) o, objects !! j = Some o →
        objects' !! j
        = Some (if decide (k ≤ j < k + m)%nat
                then stamped (clock env (asked w + (j - k))%nat) (counter + Z.of_nat (j - k)) o
                else o).
Proof.
  induction m as [|m IH]; intros k objects counter w Hk.
  { exists objects. cbn. rewrite Z.add_0_r, Nat.add_0_r. destruct w. split_and!; try done.
    intros j o Ho. case_decide; [lia|done]. }
  cbn [seq fmap list_fmap for_each].
  assert (Hk' : (k < length objects)%nat).
  { lia. }
  destruct (lookup_lt_is_Some_2 objects k Hk') as [ok Hok].
  unfold bind at 1. rewrite (stamp_run k objects ok) by done.
  destruct (IH (S k) (<[k := stamped (clock env (asked w)) counter ok]> objects) (counter + 1)
               {| asked := S (asked w); history := history w |})
    as (objects' & -> & Hlen & Hlook).
  { rewrite length_insert. lia. }
  exists objects'. cbn [asked history]. split_and!.
  - replace (counter + Z.of_nat (S m)) with (counter + 1 + Z.of_nat m) by lia.
    replace (asked w + S m)%nat with (S (asked w) + m)%nat by lia. reflexivity.
  - by rewrite Hlen, length_insert.
  - intros j o Ho. destruct (decide (j = k)) as [->|Hne].
    + assert (o = ok) as -> by congruence.
      rewrite (Hlook k (stamped (clock env (asked w)) counter ok))
        by (apply list_lookup_insert_eq; lia).
      rewrite decide_False by lia. rewrite decide_True by lia.
      rewrite Nat.sub_diag, Nat.add_0_r, Z.add_0_r. done.
    + rewrite (Hlook j o) by (by rewrite list_lookup_insert_ne).
      destruct (decide (S k ≤ j < S k + m)%nat), (decide (k ≤ j < k + S m)%nat); try lia; [|done].
      do 2 f_equal.
      * cbn [asked]. f_equal. lia.
      * lia.
Qed.

(** Lines 93 to 96: every object is stamped, in order. *)
Lemma stamp_all_run (a : args) (objects : list dict) (counter : Z) (w : world) :
  length objects = Z.to_nat (objects_per_message a) →
  for_each (range (objects_per_message a)) (stamp env) (objects, counter) w
  = (Ok (imap (λ j, stamped (clock env (asked w + j)%nat) (counter + Z.of_nat j)) objects,
         counter + Z.of_nat (length objects)),
     {| asked := (asked w + length objects)%nat; history := history w |}).
Proof.
  intros Hlen. unfold range. rewrite <- Hlen.
  assert (Hall : (0 + length objects ≤ length objects)%nat) by lia.
  destruct (stamp_some_run (length objects) 0 objects counter w Hall)
    as (objects' & -> & Hlen' & Hlook).
  do 3 f_equal. apply list_eq. intros j. rewrite list_lookup_imap.
  destruct (objects !! j) as [o|] eqn:Ho.
  - rewrite (Hlook j o Ho). pose proof (lookup_lt_Some _ _ _ Ho).
    rewrite decide_True by lia. cbn. by rewrite Nat.sub_0_r.
  - cbn. apply lookup_ge_None. apply lookup_ge_None in Ho. lia.
Qed.

Lemma data_send_run (a : args) (data : json) (w : world) :
  send env a data w
  = (Ok tt,
     {| asked := S (asked w);
        history := history w
          ++ Called (PutRecord (stream_name a) data "SergiRamis") (backend env (asked w))
          :: aftermath a (backend env (asked w)) |}).
Proof.
  unfold send, try_except. rewrite put_record_run.
  unfold aftermath. destruct (backend env (asked w)) as [body|e]; [done|].
  unfold bind, print, observe. cbn [asked history]. rewrite <- !app_assoc. reflexivity.
Qed.

Lemma data_emission_run (a : args) (s : float.t) (objects : list dict) (counter : Z) (w : world) :
  length objects = Z.to_nat (objects_per_message a) →
  let objects' := imap (λ j, stamped (clock env (asked w + j)%nat) (counter + Z.of_nat j))
                       objects in
  let rp := backend env (asked w + length objects)%nat in
  let Δ := Called (PutRecord (stream_name a) (JArray objects') "SergiRamis") rp
           :: aftermath a rp in
  emission env a s (objects, counter) w
  = match refusal env s (S (asked w + length objects)) with
    | Some e =>
        (Raised e, {| asked := S (asked w + length objects); history := history w ++ Δ |})
    | None =>
        (Ok (objects', counter + Z.of_nat (length objects)),
         {| asked := S (asked w + length objects); history := history w ++ Δ ++ [Slept s] |})
    end.
Proof.
  intros Hlen. cbn zeta. unfold emission.
  unfold bind at 1. rewrite stamp_all_run by done.
  unfold bind at 1. rewrite data_send_run. cbn [asked history].
  unfold bind at 1. rewrite time_sleep_run. cbn [asked history].
  destruct (refusal env s _); [done|].
  cbn. by rewrite <- !app_assoc.
Qed.


Lemma same_but_stamp_stamped (ts : string) (c : Z) (o : dict) : same_but_stamp o (stamped ts c o).
Proof. intros key H1 H2. unfold stamped. by rewrite !lookup_insert_ne. Qed.

Lemma same_but_stamp_imap (f : nat → string) (g : nat → Z) (objects : list dict) :
  Forall2 same_but_stamp objects (imap (λ j, stamped (f j) (g j)) objects).
Proof.
  apply Forall2_same_length_lookup_2; [by rewrite length_imap|].
  intros i o o' Ho. rewrite list_lookup_imap, Ho. intros [= <-].
  apply same_but_stamp_stamped.
Qed.

Lemma same_but_stamp_trans (l1 l2 l3 : list dict) :
  Forall2 same_but_stamp l1 l2 → Forall2 same_but_stamp l2 l3 → Forall2 same_but_stamp l1 l3.
Proof.
  apply Forall2_trans. intros o1 o2 o3 H12 H23 key Hk1 Hk2.
  by rewrite H23, H12.
Qed.

Lemma motor_counters_imap (f : nat → string) (objects : list dict) :
  ∀ counter : Z,
  omap (λ obj : dict, match obj !! "motor_counter" with
                      | Some (PyInt c) => Some c
                      | _ => None
                      end)
       (imap (λ j, stamped (f j) (counter + Z.of_nat j)) objects)
  = seqZ counter (Z.of_nat (length objects)).
Proof.
  revert f. induction objects as [|o objects IH]; intros f counter; [done|].
  rewrite imap_cons. cbn [omap list_omap length]. unfold stamped at 1.
  rewrite lookup_insert_eq, (seqZ_cons counter) by lia.
  replace (Z.pred (Z.of_nat (S (length objects)))) with (Z.of_nat (length objects)) by lia.
  f_equal; [lia|]. rewrite <- (IH (f ∘ S) (Z.succ counter)). f_equal.
  apply imap_ext. intros j x _. cbn. f_equal. lia.
Qed.

Lemma attempts_data_emission (a : args) (data : json) (rp : reply) (tail : list event) :
  attempts (Called (PutRecord (stream_name a) data "SergiRamis") rp :: aftermath a rp ++ tail)
  = data :: attempts tail.
Proof. unfold aftermath. by destruct rp. Qed.

Lemma data_emission_loop_run (a : args) (s : float.t) (N : nat) :
  sleepable s →
  ∀ (objects : list dict) (counter : Z) (w : world),
  length objects = Z.to_nat (objects_per_message a) →
  ∃ objects' Δ,
    iterate N (emission env a s) (objects, counter) w
    = (Ok (objects', counter + Z.of_nat N * Z.of_nat (length objects)),
       {| asked := (asked w + N * S (length objects))%nat; history := history w ++ Δ |})
    ∧ Forall2 same_but_stamp objects objects'
    ∧ length (attempts Δ) = N
    ∧ Forall (restamped objects) (attempts Δ)
    ∧ motor_counters (attempts Δ) = seqZ counter (Z.of_nat N * Z.of_nat (length objects)).
Proof.
  intros Hs. induction N as [|N IH]; intros objects counter w Hlen.
  { exists objects, []. cbn. rewrite Nat.add_0_r, app_nil_r, Z.add_0_r. destruct w.
    split_and!; try done. by apply Forall2_same_length_lookup_2; [|intros; simplify_eq]. }
  cbn [iterate]. unfold bind at 1.
  pose proof (data_emission_run a s objects counter w Hlen) as Hrun.
  cbn zeta in Hrun. rewrite Hrun, (refusal_sleepable env s _ Hs). clear Hrun.
  set (objects1 := imap _ objects).
  set (rp := backend env _).
  assert (H1 : Forall2 same_but_stamp objects objects1) by apply same_but_stamp_imap.
  assert (Hlen1 : length objects1 = length objects) by apply length_imap.
  match goal with |- context [iterate N _ ?s1 ?w1] =>
    destruct (IH objects1 (counter + Z.of_nat (length objects)) w1)
      as (objects' & Δ & HIH & Hsame & Hatt & Hre & Hmc) end.
  { by rewrite Hlen1. }
  rewrite HIH. cbn [asked history].
  exists objects', (Called (PutRecord (stream_name a) (JArray objects1) "SergiRamis") rp
                    :: aftermath a rp ++ Slept s :: Δ).
  assert (Hskip : ∀ tail, attempts (Slept s :: tail) = attempts tail) by done.
  rewrite attempts_data_emission, Hskip.
  split_and!.
  - subst objects1. rewrite !length_imap. f_equal; [f_equal; f_equal; lia|].
    f_equal; [lia|]. rewrite <- !app_assoc. reflexivity.
  - by eapply same_but_stamp_trans.
  - cbn. by rewrite Hatt.
  - constructor.
    + by exists objects1.
    + eapply Forall_impl; [exact Hre|]. intros data (objs & -> & Hobjs).
      exists objs. split; [done|]. by eapply same_but_stamp_trans.
  - unfold motor_counters in *. rewrite bind_cons, Hmc. subst objects1.
    rewrite motor_counters_imap, !length_imap.
    rewrite <- seqZ_app by lia. f_equal. lia.
Qed.

(** The loop, whatever the sleep does: the events are those of the
    emission, every record handed over has the objects of the start but
    for their stamps, and the motor counters follow the counter of the
    start, one by one. *)
Lemma data_emission_loop_trace (a : args) (s : float.t) (N : nat) :
  ∀ (objects : list dict) (counter : Z) (w : world),
  length objects = Z.to_nat (objects_per_message a) →
  ∃ Δ k,
    history (iterate N (emission env a s) (objects, counter) w).2 = history w ++ Δ
    ∧ Forall (emits (stream_name a) "SergiRamis") Δ
    ∧ Forall (restamped objects) (attempts Δ)
    ∧ 0 ≤ k
    ∧ motor_counters (attempts Δ) = seqZ counter k
    ∧ ∀ st', (iterate N (emission env a s) (objects, counter) w).1 = Ok st' →
             st'.2 = counter + k.
Proof.
  induction N as [|N IH]; intros objects counter w Hlen.
  { exists [], 0. cbn. rewrite app_nil_r. split_and!; try done.
    intros st' [= <-]. cbn. lia. }
  cbn [iterate]. unfold bind at 1 2.
  pose proof (data_emission_run a s objects counter w Hlen) as Hrun.
  cbn zeta in Hrun. rewrite Hrun. clear Hrun.
  set (objects1 := imap _ objects).
  set (rp := backend env _).
  assert (H1 : Forall2 same_but_stamp objects objects1) by apply same_but_stamp_imap.
  assert (Hlen1 : length objects1 = length objects) by apply length_imap.
  assert (Hem : Forall (emits (stream_name a) "SergiRamis")
                  (Called (PutRecord (stream_name a) (JArray objects1) "SergiRamis") rp
                   :: aftermath a rp)).
  { unfold aftermath. destruct rp; repeat constructor; by eexists. }
  assert (Hmc1 : motor_counters [JArray objects1]
                 = seqZ counter (Z.of_nat (length objects))).
  { unfold motor_counters. rewrite bind_cons. cbn [mbind list_bind]. rewrite app_nil_r.
    subst objects1. apply motor_counters_imap. }
  destruct (refusal env s _) as [e|].
  - cbn [fst snd history].
    exists (Called (PutRecord (stream_name a) (JArray objects1) "SergiRamis") rp
            :: aftermath a rp), (Z.of_nat (length objects)).
    rewrite <- (app_nil_r (aftermath a rp)), attempts_data_emission, app_nil_r.
    split_and!; [done|done| |lia|done|done].
    constructor; [|constructor]. by exists objects1.
  - match goal with |- context [iterate N _ ?s1 ?w1] =>
      destruct (IH objects1 (counter + Z.of_nat (length objects)) w1)
        as (Δ & k & HΔ & Hemits & Hre & Hk & Hmc & Hend) end.
    { by rewrite Hlen1. }
    cbn [history] in HΔ.
    exists (Called (PutRecord (stream_name a) (JArray objects1) "SergiRamis") rp
            :: aftermath a rp ++ Slept s :: Δ), (Z.of_nat (length objects) + k).
    assert (Hskip : ∀ tail, attempts (Slept s :: tail) = attempts tail) by done.
    rewrite attempts_data_emission, Hskip.
    split_and!.
    + rewrite HΔ, <- !app_assoc. reflexivity.
    + rewrite app_comm_cons. apply Forall_app_2; [done|]. by constructor.
    + constructor.
      * by exists objects1.
      * eapply Forall_impl; [exact Hre|]. intros data (objs & -> & Hobjs).
        exists objs. split; [done|]. by eapply same_but_stamp_trans.
    + lia.
    + change (JArray objects1 :: attempts Δ) with ([JArray objects1] ++ attempts Δ).
      unfold motor_counters in *. rewrite bind_app, Hmc1, Hmc.
      by rewrite <- seqZ_app by lia.
    + intros st' Hst'. rewrite (Hend st' Hst'). lia.
Qed.

Lemma data_create_object_run (i : Z) (objects : list dict) (w : world) :
  create_object env i objects w
  = (Ok (objects ++ [fresh_object i (-180 + entropy env (asked w) `mod` 360)
                                    (-255 + entropy env (S (asked w)) `mod` 511)
                                    (clock env (S (S (asked w))))]),
     {| asked := S (S (S (asked w))); history := history w |}).
Proof. reflexivity. Qed.

Lemma create_some_run (base : nat) (m : nat) :
  ∀ (k : nat) (objects : list dict) (w : world),
  asked w = (base + 3 * k)%nat →
  for_each (Z.of_nat <$> seq k m) (create_object env) objects w
  = (Ok (objects ++ (fresh_at env base <$> seq k m)),
     {| asked := (asked w + 3 * m)%nat; history := history w |}).
Proof.
  induction m as [|m IH]; intros k objects w Hw.
  { cbn. rewrite app_nil_r, Nat.add_0_r. by destruct w. }
  cbn [seq fmap list_fmap for_each]. unfold bind at 1. rewrite data_create_object_run.
  rewrite (IH (S k) _ {| asked := S (S (S (asked w))); history := history w |})
    by (cbn [asked]; lia).
  cbn [asked history]. rewrite <- app_assoc. cbn [app].
  unfold fresh_at at 2. rewrite Hw.
  replace (base + 3 * k + 1)%nat with (S (base + 3 * k)) by lia.
  replace (base + 3 * k + 2)%nat with (S (S (base + 3 * k))) by lia.
  do 2 f_equal. lia.
Qed.

(** Lines 78 to 87. *)
Lemma create_objects_run (a : args) (w : world) :
  let m := Z.to_nat (objects_per_message a) in
  create_objects env a w
  = (Ok (fresh_at env (asked w) <$> seq 0 m),
     {| asked := (asked w + 3 * m)%nat; history := history w |}).
Proof.
  cbn zeta. unfold create_objects, range.
  rewrite (create_some_run (asked w)) by lia. reflexivity.
Qed.

(** [send] raises nothing, whatever the reply. *)
Lemma data_send_total (a : args) (data : json) (w : world) :
  ∃ Δ, send env a data w
       = (Ok tt, {| asked := S (asked w); history := history w ++ Δ |}).
Proof. rewrite data_send_run. by eexists. Qed.

(** Once connected, [main] makes the objects and is the loop, from these
    objects and the counter at zero. *)
Lemma data_main_connected (fuel : nat) (a : args) (s : float.t) (w w1 : world) :
  connect_to_stream env fuel (stream_name a)
    {| asked := asked w;
       history := history w ++ [Printed (MsgConnecting (stream_name a) (region a))] |}
  = (Ok true, w1) →
  sleep_s a = inr s →
  main env fuel a w
  = forever fuel (emission env a s)
      (fresh_at env (asked w1) <$> seq 0 (Z.to_nat (objects_per_message a)), 0)
      {| asked := (asked w1 + 3 * Z.to_nat (objects_per_message a))%nat;
         history := history w1 |}.
Proof.
  intros Hconnect Hs. unfold main.
  unfold bind at 1. unfold print, observe at 1. unfold bind at 1.
  rewrite Hconnect. cbn [negb].
  unfold bind at 1. rewrite create_objects_run. cbn zeta.
  unfold bind at 1. rewrite Hs. by cbn [lift ret].
Qed.

Lemma restamped_fields (key : string) (objects : list dict) (data : json) :
  key ≠ "timestamp" → key ≠ "motor_counter" →
  data_producer.restamped objects data →
  fields key data = (λ obj : dict, obj !! key) <$> objects.
Proof.
  intros H1 H2 (objs & -> & Hobjs). cbn [fields].
  induction Hobjs as [|o o' objects objs Ho _ IH]; [done|].
  cbn [fmap list_fmap]. f_equal; [by apply Ho|exact IH].
Qed.

End data_facts.

(** ** A whole run of [json_producer.py] *)

Section whole_run.
Context (env : environment).

(** The calls that wait for the stream hand no record over. *)
Lemma polls_attempts (name : string) (Δ : list event) : Forall (polls name) Δ → attempts Δ = [].
Proof.
  intros H%polls_requests. unfold attempts.
  induction H as [|rq rqs -> _ IH]; [done|]. exact IH.
Qed.

(** [connect_to_stream] hands no record over. *)
Lemma connect_to_stream_attempts (fuel : nat) (name : string) (w : world) :
  ∃ Δ, history (connect_to_stream env fuel name w).2 = history w ++ Δ ∧ attempts Δ = [].
Proof.
  destruct (lookup_error (backend env (asked w))) as [e|] eqn:Herr.
  - rewrite (connect_failed_lookup env fuel name w e Herr). cbn zeta.
    set (Δ0 := [Called (DescribeStream name) (backend env (asked w));
                Printed (MsgCreating name);
                Called (CreateStream name 1) (backend env (S (asked w)))]).
    destruct (backend env (S (asked w))) as [body|e'].
    + destruct (wait_for_stream_safe env fuel name
                  {| asked := S (S (asked w)); history := history w ++ Δ0 |})
        as (Δ & HΔ & Hpolls & _).
      exists (Δ0 ++ Δ). split.
      * destruct (wait_for_stream env fuel name 3 _) as [[[]| |] w''];
          cbn [fst snd history] in *; by rewrite HΔ, <- app_assoc.
      * by rewrite attempts_app, (polls_attempts name Δ).
    + by exists Δ0.
  - unfold connect_to_stream, connect_attempt.
    unfold bind at 1. unfold try_except. unfold bind at 1. rewrite describe_status_run.
    destruct (backend env (asked w)) as [body|]; [|done]. cbn in Herr.
    destruct (StreamStatus body) as [s|]; [|done].
    set (ev := Called (DescribeStream name) (Returns body)).
    destruct (String.eqb s "DELETING").
    { eexists [ev; _]. unfold bind, print, observe, ret. cbn [snd asked history].
      by rewrite <- app_assoc. }
    destruct (String.eqb s "ACTIVE"); cbn [negb].
    { by exists [ev]. }
    unfold bind at 1.
    match goal with |- context [wait_for_stream env fuel name 3 ?w1] =>
      destruct (wait_for_stream_safe env fuel name w1) as (Δ1 & HΔ1 & Hp1 & _);
      destruct (wait_for_stream env fuel name 3 w1) as [[[]|e|] w2] eqn:Hwait end;
      unfold ret; cbn [fst snd asked history] in *.
    + exists (ev :: Δ1). rewrite HΔ1, <- app_assoc. split; [done|].
      change (attempts (ev :: Δ1)) with (attempts Δ1). by apply (polls_attempts name).
    + unfold connect_create.
      unfold bind at 1. unfold bind at 1. unfold print, observe at 1.
      unfold bind at 1. rewrite create_stream_run. cbn [asked history].
      set (Δ2 := [Printed (MsgCreating name);
                  Called (CreateStream name 1) (backend env (asked w2))]).
      assert (Hw2 : (history w2 ++ [Printed (MsgCreating name)])
                    ++ [Called (CreateStream name 1) (backend env (asked w2))]
                    = history w ++ (ev :: Δ1) ++ Δ2).
      { rewrite HΔ1, <- !app_assoc. reflexivity. }
      rewrite Hw2.
      assert (Hquiet : attempts ((ev :: Δ1) ++ Δ2) = []).
      { rewrite attempts_app. change (attempts (ev :: Δ1)) with (attempts Δ1).
        by rewrite (polls_attempts name Δ1). }
      destruct (backend env (asked w2)) as [body'|e'].
      * match goal with |- context [wait_for_stream env fuel name 3 ?w3] =>
          destruct (wait_for_stream_safe env fuel name w3) as (Δ3 & HΔ3 & Hp3 & _);
          destruct (wait_for_stream env fuel name 3 w3) as [[[]| |] w4] end;
          unfold ret; cbn [fst snd history] in *.
        all: exists (((ev :: Δ1) ++ Δ2) ++ Δ3); rewrite HΔ3, <- !app_assoc; split; [done|].
        all: rewrite !app_assoc, attempts_app, Hquiet; by apply (polls_attempts name).
      * by exists ((ev :: Δ1) ++ Δ2).
    + exists (ev :: Δ1). rewrite HΔ1, <- app_assoc. split; [done|].
      change (attempts (ev :: Δ1)) with (attempts Δ1). by apply (polls_attempts name).
Qed.


Lemma forever_history {S A} (fuel : nat) (body : S → M S) (st : S) (w : world) :
  history (forever (A:=A) fuel body st w).2 = history (iterate fuel body st w).2.
Proof.
  unfold forever, bind, diverge.
  by destruct (iterate fuel body st w) as [[| |] w'].
Qed.

(** Every record of a run of [json_producer.py], from its first line on
    and however it ends, is well formed. *)
Lemma json_main_records (fuel : nat) (a : json_producer.args) (w : world) :
  ∃ Δ, history (json_producer.main env fuel a w).2 = history w ++ Δ
       ∧ Forall json_producer.well_formed (attempts Δ).
Proof.
  set (ev := Printed (MsgConnecting (json_producer.stream_name a) (json_producer.region a))).
  set (w0 := {| asked := asked w; history := history w ++ [ev] |}).
  destruct (connect_to_stream_attempts fuel (json_producer.stream_name a) w0)
    as (Δ1 & HΔ1 & Hq1).
  destruct (connect_to_stream env fuel (json_producer.stream_name a) w0)
    as [[[|]|e|] w1] eqn:Hconnect; cbn [snd] in HΔ1.
  - destruct (json_producer.sleep_s a) as [e|s] eqn:Hs.
    + exists (ev :: Δ1). split.
      * unfold json_producer.main.
        unfold bind at 1. unfold print, observe at 1. unfold bind at 1.
        fold ev w0. unfold json_producer.connect_to_stream. rewrite Hconnect. cbn [negb].
        unfold bind at 1. rewrite Hs. cbn [lift raise snd].
        by rewrite HΔ1; cbn; rewrite <- app_assoc.
      * change (attempts (ev :: Δ1)) with (attempts Δ1). rewrite Hq1. constructor.
    + rewrite (json_main_connected env fuel a s w w1 Hconnect Hs), forever_history.
      match goal with |- context [iterate fuel _ _ ?w2] =>
        destruct (json_emission_loop_records env a s fuel [0; 0; 0] w2 eq_refl)
          as (Δ3 & HΔ3 & Hwf) end.
      rewrite HΔ3.
      destruct (json_producer.silent a); cbn [history]; rewrite HΔ1.
      * exists ((ev :: Δ1) ++ Printed (MsgSendingEvery s) :: Δ3). split.
        { cbn. rewrite <- !app_assoc. reflexivity. }
        rewrite attempts_app. change (attempts (ev :: Δ1)) with (attempts Δ1).
        rewrite Hq1. exact Hwf.
      * exists ((ev :: Δ1) ++ Δ3). split.
        { cbn. rewrite <- !app_assoc. reflexivity. }
        rewrite attempts_app. change (attempts (ev :: Δ1)) with (attempts Δ1).
        rewrite Hq1. exact Hwf.
  - exists (ev :: Δ1). split.
    + unfold json_producer.main.
      unfold bind at 1. unfold print, observe at 1. unfold bind at 1.
      fold ev w0. unfold json_producer.connect_to_stream. rewrite Hconnect. cbn [negb ret snd].
      by rewrite HΔ1; cbn; rewrite <- app_assoc.
    + change (attempts (ev :: Δ1)) with (attempts Δ1). rewrite Hq1. constructor.
  - exists (ev :: Δ1). split.
    + unfold json_producer.main.
      unfold bind at 1. unfold print, observe at 1. unfold bind at 1.
      fold ev w0. unfold json_producer.connect_to_stream. rewrite Hconnect. cbn [snd].
      by rewrite HΔ1; cbn; rewrite <- app_assoc.
    + change (attempts (ev :: Δ1)) with (attempts Δ1). rewrite Hq1. constructor.
  - exists (ev :: Δ1). split.
    + unfold json_producer.main.
      unfold bind at 1. unfold print, observe at 1. unfold bind at 1.
      fold ev w0. unfold json_producer.connect_to_stream. rewrite Hconnect. cbn [snd].
      by rewrite HΔ1; cbn; rewrite <- app_assoc.
    + change (attempts (ev :: Δ1)) with (attempts Δ1). rewrite Hq1. constructor.
Qed.

End whole_run.

(** ** The replies of the backend and the course of the loop *)

Section replies.
Context (env : environment).

(** Whether an iteration ends, and the counters that it leaves, do not
    depend on the replies of the backend. *)
Lemma json_emission_outcome (b : nat → reply) (a : json_producer.args) (s : float.t) (n : list Z)
    (w : world) :
  (json_producer.emission (with_backend env b) a s n w).1 = (json_producer.emission env a s n w).1.
Proof.
  unfold json_producer.emission. unfold bind at 1 4.
  change (json_producer.create_object (with_backend env b) n w) with (json_producer.create_object env n w).
  destruct (json_producer.create_object env n w) as [[[obj n1]| |] w1]; [|done|done].
  destruct (json_send_total env a obj (JObject obj) w1) as (Δ & HΔ).
  destruct (json_send_total (with_backend env b) a obj (JObject obj) w1) as (Δ' & HΔ').
  unfold bind at 1 3. rewrite HΔ, HΔ'. unfold bind. rewrite !time_sleep_run.
  change (refusal (with_backend env b) s) with (refusal env s). cbn [asked].
  by destruct (refusal env s _).
Qed.

(** Whether an iteration ends, and the objects and the counter that it
    leaves, do not depend on the replies of the backend. *)
Lemma data_emission_outcome (b : nat → reply) (a : data_producer.args) (s : float.t)
    (st : list dict * Z) (w : world) :
  (data_producer.emission (with_backend env b) a s st w).1 = (data_producer.emission env a s st w).1.
Proof.
  unfold data_producer.emission. unfold bind at 1 4.
  change (for_each (range (data_producer.objects_per_message a)) (data_producer.stamp (with_backend env b)) st w)
    with (for_each (range (data_producer.objects_per_message a)) (data_producer.stamp env) st w).
  destruct (for_each _ _ st w) as [[[objects counter]| |] w1]; [|done|done].
  destruct (data_send_total env a (JArray objects) w1) as (Δ & HΔ).
  destruct (data_send_total (with_backend env b) a (JArray objects) w1) as (Δ' & HΔ').
  unfold bind at 1 3. rewrite HΔ, HΔ'. unfold bind. rewrite !time_sleep_run.
  change (refusal (with_backend env b) s) with (refusal env s). cbn [asked].
  by destruct (refusal env s _).
Qed.

End replies.

(** ** Lists of consecutive integers *)

Lemma seqZ_strictly_sorted (n : nat) : ∀ m : Z, StronglySorted Z.lt (seqZ m (Z.of_nat n)).
Proof.
  induction n as [|n IH]; intros m; [constructor|].
  rewrite seqZ_cons by lia.
  replace (Z.pred (Z.of_nat (S n))) with (Z.of_nat n) by lia.
  constructor; [apply IH|].
  apply Forall_forall. intros x [i Hi]%list_elem_of_lookup_1.
  apply lookup_seqZ in Hi as [-> _]. lia.
Qed.

Lemma seqZ_sorted (m k : Z) : StronglySorted Z.lt (seqZ m k).
Proof.
  destruct (Z_lt_le_dec k 0) as [Hk|Hk].
  - rewrite seqZ_nil by lia. constructor.
  - rewrite <- (Z2Nat.id k Hk). apply seqZ_strictly_sorted.
Qed.


(** ** The records delivered, among the records handed over *)

Lemma omap_sublist {A B} (f : A → option B) (l1 l2 : list A) :
  l1 `sublist_of` l2 → omap f l1 `sublist_of` omap f l2.
Proof.
  induction 1 as [|x l1 l2 _ IH|x l1 l2 _ IH]; cbn [omap list_omap].
  - constructor.
  - destruct (f x); [by constructor|done].
  - destruct (f x); [by apply sublist_cons|done].
Qed.

Lemma delivered_sublist (h : list event) : delivered h `sublist_of` attempts h.
Proof.
  induction h as [|ev h IH]; [constructor|].
  destruct ev as [[name|name shards|name data key] [body|e]|m|s]; try exact IH.
  - by apply sublist_skip.
  - by apply sublist_cons.
Qed.

Lemma sublist_Forall {A} (P : A → Prop) (l1 l2 : list A) :
  l1 `sublist_of` l2 → Forall P l2 → Forall P l1.
Proof.
  induction 1 as [|x l1 l2 _ IH|x l1 l2 _ IH]; intros Hall; [done| |].
  - apply Forall_cons in Hall as [Hx Hall]. constructor; [done|by apply IH].
  - apply Forall_cons in Hall as [_ Hall]. by apply IH.
Qed.

Lemma sublist_strictly_sorted (l1 l2 : list Z) :
  l1 `sublist_of` l2 → StronglySorted Z.lt l2 → StronglySorted Z.lt l1.
Proof.
  induction 1 as [|x l1 l2 Hsub IH|x l1 l2 Hsub IH]; intros Hsorted; [done| |].
  - apply StronglySorted_inv in Hsorted as [Hsorted Hx].
    constructor; [by apply IH|]. by eapply sublist_Forall.
  - apply StronglySorted_inv in Hsorted as [Hsorted _]. by apply IH.
Qed.

(** ** The course of the provisioning *)

Section provisioning_course.
Context (env : environment).

Lemma lookups_S (name : string) (from count : nat) :
  lookups env name from (S count)
  = Called (DescribeStream name) (backend env from) :: lookups env name (S from) count.
Proof.
  unfold lookups. cbn [seq fmap list_fmap]. rewrite Nat.add_0_r. f_equal.
  rewrite <- fmap_S_seq, <- list_fmap_compose. apply list_fmap_ext. intros i x _. cbn.
  by rewrite Nat.add_succ_r.
Qed.

Lemma wait_for_description_retry (fuel : nat) (name : string) (w : world) (key : string) :
  lookup_error (backend env (asked w)) = Some (KeyError key) →
  wait_for_description env (S fuel) name w
  = wait_for_description env fuel name
      {| asked := S (asked w);
         history := history w ++ [Called (DescribeStream name) (backend env (asked w))] |}.
Proof.
  intros Herr. cbn [wait_for_description]. unfold try_except. rewrite describe_status_run.
  destruct (backend env (asked w)) as [body|e]; cbn in Herr.
  - destruct (StreamStatus body); by simplify_eq.
  - by simplify_eq.
Qed.

Lemma wait_for_description_answered (fuel : nat) (name s : string) (w : world) :
  backend env (asked w) = Returns (status s) →
  wait_for_description env (S fuel) name w
  = (Ok s, {| asked := S (asked w);
              history := history w ++ [Called (DescribeStream name) (Returns (status s))] |}).
Proof.
  intros Hrp. cbn [wait_for_description]. unfold try_except.
  by rewrite describe_status_run, Hrp.
Qed.

Lemma wait_for_description_spin (j : nat) :
  ∀ (fuel : nat) (name s : string) (w : world),
  (∀ i, (i < j)%nat → unanswered (backend env (asked w + i)%nat)) →
  backend env (asked w + j)%nat = Returns (status s) →
  (j < fuel)%nat →
  wait_for_description env fuel name w
  = (Ok s, {| asked := (asked w + S j)%nat;
              history := history w ++ lookups env name (asked w) (S j) |}).
Proof.
  induction j as [|j IH]; intros fuel name s w Hun Hrp Hfuel.
  - destruct fuel as [|fuel]; [lia|]. rewrite Nat.add_0_r in Hrp.
    rewrite (wait_for_description_answered fuel name s) by done.
    unfold lookups. cbn. rewrite !Nat.add_0_r, Hrp. f_equal. f_equal. lia.
  - destruct fuel as [|fuel]; [lia|].
    destruct (Hun 0%nat ltac:(lia)) as [key Hkey]. rewrite Nat.add_0_r in Hkey.
    rewrite (wait_for_description_retry fuel name w key Hkey).
    rewrite (IH fuel name s); cbn [asked history].
    + rewrite (lookups_S name (asked w) (S j)), <- app_assoc. f_equal. f_equal. lia.
    + intros i Hi. replace (S (asked w) + i)%nat with (asked w + S i)%nat by lia.
      apply Hun. lia.
    + rewrite <- Hrp. f_equal. lia.
    + lia.
Qed.

Lemma wait_for_description_spins (fuel : nat) :
  ∀ (name : string) (w : world),
  (∀ i, unanswered (backend env (asked w + i)%nat)) →
  wait_for_description env fuel name w
  = (Diverged, {| asked := (asked w + fuel)%nat;
                  history := history w ++ lookups env name (asked w) fuel |}).
Proof.
  induction fuel as [|fuel IH]; intros name w Hun.
  - cbn. rewrite Nat.add_0_r, app_nil_r. by destruct w.
  - destruct (Hun 0%nat) as [key Hkey]. rewrite Nat.add_0_r in Hkey.
    rewrite (wait_for_description_retry fuel name w key Hkey).
    rewrite IH; cbn [asked history].
    + rewrite (lookups_S name (asked w) fuel), <- app_assoc. f_equal. f_equal. lia.
    + intros i. replace (S (asked w) + i)%nat with (asked w + S i)%nat by lia. apply Hun.
Qed.

(** [connect_to_stream] when the first lookup answers a status that is
    neither DELETING nor ACTIVE. *)
Lemma connect_pending (fuel : nat) (name s0 : string) (w : world) :
  backend env (asked w) = Returns (status s0) →
  s0 ≠ "DELETING" → s0 ≠ "ACTIVE" →
  connect_to_stream env fuel name w
  = let w1 := {| asked := S (asked w);
                 history := history w
                   ++ [Called (DescribeStream name) (Returns (status s0))] |} in
    match wait_for_stream env fuel name 3 w1 with
    | (Ok _, w2) => (Ok true, w2)
    | (Diverged, w2) => (Diverged, w2)
    | (Raised _, w2) =>
        let w3 := {| asked := S (asked w2);
                     history := history w2
                       ++ [Printed (MsgCreating name);
                           Called (CreateStream name 1) (backend env (asked w2))] |} in
        match backend env (asked w2) with
        | Returns _ =>
            match wait_for_stream env fuel name 3 w3 with
            | (Ok _, w4) => (Ok true, w4)
            | (Raised e', w4) => (Raised e', w4)
            | (Diverged, w4) => (Diverged, w4)
            end
        | Raises e' => (Raised e', w3)
        end
    end.
Proof.
  intros Hrp Hdel Hact. unfold connect_to_stream, connect_attempt.
  unfold bind at 1. unfold try_except. unfold bind at 1.
  rewrite describe_status_run, Hrp. cbn [StreamStatus status].
  destruct (String.eqb_spec s0 "DELETING") as [|_]; [done|].
  destruct (String.eqb_spec s0 "ACTIVE") as [|_]; [done|]. cbn [negb].
  unfold bind at 1. cbn zeta.
  destruct (wait_for_stream env fuel name 3 _) as [[[]|e|] w2]; [done| |done].
  unfold connect_create.
  unfold bind at 1. unfold print, observe at 1. unfold bind at 1.
  rewrite create_stream_run. cbn [asked history].
  rewrite <- !app_assoc. cbn [app].
  destruct (backend env (asked w2)) as [body|e']; [|done].
  unfold bind at 1.
  by destruct (wait_for_stream env fuel name 3 _) as [[[]| |] w4].
Qed.


Lemma poll_events_polls (name : string) (pending : list string) :
  ∀ current, Forall (polls name) (poll_events name current pending).
Proof.
  induction pending as [|next pending IH]; intros current; cbn; [constructor|].
  repeat constructor. apply IH.
Qed.

(** The course of [connect_to_stream], in every case: the first lookup, a
    wait, a decision, a wait. *)
Lemma connect_to_stream_shape (fuel : nat) (name : string) (w : world) :
  ∃ Δ1 c Δ2,
    history (connect_to_stream env fuel name w).2
    = history w ++ Called (DescribeStream name) (backend env (asked w)) :: Δ1 ++ c ++ Δ2
    ∧ Forall (polls name) Δ1 ∧ Forall (polls name) Δ2 ∧ decision name c
    ∧ ((connect_to_stream env fuel name w).1 = Ok false →
       backend env (asked w) = Returns (status "DELETING"))
    ∧ ((connect_to_stream env fuel name w).1 = Ok true →
       ∃ Δ', history (connect_to_stream env fuel name w).2
             = Δ' ++ [Called (DescribeStream name) (Returns (status "ACTIVE"))]).
Proof.
  destruct (lookup_error (backend env (asked w))) as [e|] eqn:Herr.
  - rewrite (connect_failed_lookup env fuel name w e Herr). cbn zeta.
    set (c := [Printed (MsgCreating name);
               Called (CreateStream name 1) (backend env (S (asked w)))]).
    assert (Hc : decision name c) by (right; right; by eexists).
    destruct (backend env (S (asked w))) as [body|e'].
    + match goal with |- context [wait_for_stream env fuel name 3 ?w1] =>
        destruct (wait_for_stream_safe env fuel name w1) as (Δ & HΔ & Hp & Hok);
        destruct (wait_for_stream env fuel name 3 w1) as [[[]| |] w2] end;
        cbn [fst snd history] in *.
      all: exists [], c, Δ; rewrite HΔ, <- !app_assoc; split_and!; try done.
      intros _. destruct (Hok eq_refl) as [Δ' ->]. eexists. by rewrite !app_assoc.
    + exists [], c, []. cbn [fst snd history]. by split_and!.
  - destruct (backend env (asked w)) as [body|] eqn:Hrp; [|done]. cbn in Herr.
    destruct (StreamStatus body) as [s0|] eqn:Hs0; [|done].
    apply response_eta in Hs0 as ->. clear Herr.
    destruct (decide (s0 = "DELETING")) as [->|Hdel].
    { rewrite connect_deleting by done. exists [], [Printed (MsgBeingDeleted name)], [].
      cbn [fst snd history]. split_and!; try done. right; by left. }
    destruct (decide (s0 = "ACTIVE")) as [->|Hact].
    { rewrite connect_active by done. exists [], [], []. cbn [fst snd history].
      split_and!; try done; [by left|]. intros _. by eexists. }
    rewrite (connect_pending fuel name s0) by done. cbn zeta.
    match goal with |- context [wait_for_stream env fuel name 3 ?w1] =>
      destruct (wait_for_stream_safe env fuel name w1) as (Δ1 & HΔ1 & Hp1 & Hok1);
      destruct (wait_for_stream env fuel name 3 w1) as [[[]|e|] w2] end;
      cbn [fst snd history] in *.
    + exists Δ1, [], []. rewrite HΔ1, <- !app_assoc, app_nil_r. split_and!; try done; [by left|].
      intros _. destruct (Hok1 eq_refl) as [Δ' ->]. eexists. by rewrite !app_assoc.
    + set (c := [Printed (MsgCreating name);
                 Called (CreateStream name 1) (backend env (asked w2))]).
      assert (Hc : decision name c) by (right; right; by eexists).
      destruct (backend env (asked w2)) as [body'|e'].
      * match goal with |- context [wait_for_stream env fuel name 3 ?w3] =>
          destruct (wait_for_stream_safe env fuel name w3) as (Δ2 & HΔ2 & Hp2 & Hok2);
          destruct (wait_for_stream env fuel name 3 w3) as [[[]| |] w4] end;
          cbn [fst snd history] in *.
        all: exists Δ1, c, Δ2; rewrite HΔ2, HΔ1, <- !app_assoc; split_and!; try done.
        intros _. destruct (Hok2 eq_refl) as [Δ' ->]. eexists. by rewrite !app_assoc.
      * exists Δ1, c, []. cbn [fst snd history]. rewrite HΔ1, <- !app_assoc.
        by split_and!.
    + exists Δ1, [], []. rewrite HΔ1, <- !app_assoc, app_nil_r. split_and!; try done. by left.
Qed.

Lemma decision_creations (name : string) (c : list event) :
  decision name c → (length (creations c) ≤ 1)%nat.
Proof. intros [->|[->|[rp ->]]]; cbn; lia. Qed.

Lemma decision_attempts (name : string) (c : list event) : decision name c → attempts c = [].
Proof. by intros [->|[->|[rp ->]]]. Qed.

Lemma decision_requests (name : string) (c : list event) :
  decision name c →
  Forall (λ rq, rq = DescribeStream name ∨ rq = CreateStream name 1) (requests c).
Proof.
  intros [->|[->|[rp ->]]]; cbn; [constructor|constructor|].
  apply Forall_cons. split; [by right|constructor].
Qed.

End provisioning_course.

(** ** The iterations of the loops, one by one *)

Section iterations.
Context (env : environment).

Lemma sleeps_app (h1 h2 : list event) : sleeps (h1 ++ h2) = sleeps h1 ++ sleeps h2.
Proof. unfold sleeps. by rewrite omap_app. Qed.

Lemma sleeps_json_iteration (a : json_producer.args) (s : float.t) (b : list event) :
  json_iteration a s b → sleeps b = [s].
Proof.
  intros (t & v & c & ts & rp & ->). unfold json_producer.aftermath.
  destruct rp; [destruct (json_producer.silent a)|]; reflexivity.
Qed.

Lemma sleeps_data_iteration (a : data_producer.args) (s : float.t) (b : list event) :
  data_iteration a s b → sleeps b = [s].
Proof. intros (objs & rp & -> & _). unfold data_producer.aftermath. by destruct rp. Qed.

Lemma sleeps_concat (P : list event → Prop) (s : float.t) (blocks : list (list event)) :
  (∀ b, P b → sleeps b = [s]) → Forall P blocks →
  sleeps (concat blocks) = replicate (length blocks) s.
Proof.
  intros HP. induction 1 as [|b blocks Hb _ IH]; [done|].
  cbn. by rewrite sleeps_app, (HP b Hb), IH.
Qed.

Lemma emits_json_iteration (a : json_producer.args) (s : float.t) (b : list event) :
  json_iteration a s b → Forall (emits (json_producer.stream_name a) "123") b.
Proof.
  intros (t & v & c & ts & rp & ->). unfold json_producer.aftermath.
  destruct rp; [destruct (json_producer.silent a)|]; repeat constructor; by eexists.
Qed.

Lemma emits_data_iteration (a : data_producer.args) (s : float.t) (b : list event) :
  data_iteration a s b → Forall (emits (data_producer.stream_name a) "SergiRamis") b.
Proof.
  intros (objs & rp & -> & _). unfold data_producer.aftermath.
  destruct rp; repeat constructor; by eexists.
Qed.

Lemma emits_concat (P : list event → Prop) (name key : string) (blocks : list (list event)) :
  (∀ b, P b → Forall (emits name key) b) → Forall P blocks →
  Forall (emits name key) (concat blocks).
Proof.
  intros HP. induction 1 as [|b blocks Hb _ IH]; [constructor|].
  cbn. apply Forall_app_2; [by apply HP|done].
Qed.

(** N iterations of the loop of [json_producer.py], one by one. *)
Lemma json_emission_loop_blocks (a : json_producer.args) (s : float.t) (N : nat) :
  sleepable s →
  ∀ (n : list Z) (w : world),
  length n = 3%nat →
  ∃ n' blocks,
    iterate N (json_producer.emission env a s) n w
    = (Ok n', {| asked := (asked w + 4 * N)%nat; history := history w ++ concat blocks |})
    ∧ length blocks = N
    ∧ Forall (json_iteration a s) blocks.
Proof.
  intros Hs. induction N as [|N IH]; intros n w Hn.
  { exists n, []. cbn. rewrite Nat.add_0_r, app_nil_r. by destruct w. }
  cbn [iterate]. unfold bind at 1.
  destruct (json_emission_run env a s n w Hn) as (t0 & c0 & v & _ & _ & _ & Hrun).
  cbn zeta in Hrun. rewrite Hrun, (refusal_sleepable env s _ Hs). clear Hrun.
  set (ts := clock env (S (S (asked w)))).
  set (rp := backend env (S (S (S (asked w))))).
  match goal with |- context [iterate N _ ?n1 ?w1] =>
    destruct (IH n1 w1) as (n' & blocks & -> & Hlen & Hblocks) end.
  { by rewrite length_insert. }
  cbn [asked history].
  exists n', ((Called (PutRecord (json_producer.stream_name a)
                         (JObject (json_producer.sample t0 v (c0 + 1) ts)) "123") rp
               :: json_producer.aftermath a t0 v (c0 + 1) ts rp ++ [Slept s]) :: blocks).
  split_and!.
  - f_equal. f_equal; [lia|]. cbn [concat]. rewrite <- !app_assoc. cbn [app].
    by rewrite <- !app_assoc.
  - cbn. by rewrite Hlen.
  - constructor; [|done]. by exists t0, v, (c0 + 1), ts, rp.
Qed.

(** N iterations of the loop of [data_producer.py], one by one. *)
Lemma data_emission_loop_blocks (a : data_producer.args) (s : float.t) (N : nat) :
  sleepable s →
  ∀ (objects : list dict) (counter : Z) (w : world),
  length objects = Z.to_nat (data_producer.objects_per_message a) →
  ∃ st' blocks,
    iterate N (data_producer.emission env a s) (objects, counter) w
    = (Ok st', {| asked := (asked w + N * S (length objects))%nat;
                  history := history w ++ concat blocks |})
    ∧ length blocks = N
    ∧ Forall (data_iteration a s) blocks.
Proof.
  intros Hs. induction N as [|N IH]; intros objects counter w Hlen.
  { exists (objects, counter), []. cbn. rewrite Nat.add_0_r, app_nil_r. by destruct w. }
  cbn [iterate]. unfold bind at 1.
  pose proof (data_emission_run env a s objects counter w Hlen) as Hrun.
  cbn zeta in Hrun. rewrite Hrun, (refusal_sleepable env s _ Hs). clear Hrun.
  set (objects1 := imap _ objects).
  assert (Hlen1 : length objects1 = length objects) by apply length_imap.
  match goal with |- context [iterate N _ ?s1 ?w1] =>
    destruct (IH objects1 (counter + Z.of_nat (length objects)) w1)
      as (st' & blocks & HIH & Hblocks & Hall) end.
  { by rewrite Hlen1. }
  rewrite HIH. cbn [asked history].
  set (rp := backend env (asked w + length objects)%nat).
  exists st', ((Called (PutRecord (data_producer.stream_name a) (JArray objects1)
                          "SergiRamis") rp
                :: data_producer.aftermath a rp ++ [Slept s]) :: blocks).
  split_and!.
  - rewrite Hlen1. f_equal. f_equal; [lia|]. cbn [concat]. rewrite <- !app_assoc. cbn [app].
    by rewrite <- !app_assoc.
  - cbn. by rewrite Hblocks.
  - constructor; [|done]. exists objects1, rp. split; [reflexivity|]. by rewrite Hlen1.
Qed.

(** The events of the loop of [json_producer.py], however it ends. *)
Lemma json_emission_loop_emits (a : json_producer.args) (s : float.t) (N : nat)
    (n : list Z) (w : world) :
  length n = 3%nat →
  ∃ Δ, history (iterate N (json_producer.emission env a s) n w).2 = history w ++ Δ
       ∧ Forall (emits (json_producer.stream_name a) "123") Δ.
Proof.
  intros Hn. destruct (json_emission_loop_trace env a s N n w Hn) as (Δ & HΔ & Hemits & _).
  by exists Δ.
Qed.

(** The events of the loop of [data_producer.py], however it ends. *)
Lemma data_emission_loop_emits (a : data_producer.args) (s : float.t) (N : nat)
    (objects : list dict) (counter : Z) (w : world) :
  length objects = Z.to_nat (data_producer.objects_per_message a) →
  ∃ Δ, history (iterate N (data_producer.emission env a s) (objects, counter) w).2
       = history w ++ Δ
       ∧ Forall (emits (data_producer.stream_name a) "SergiRamis") Δ.
Proof.
  intros Hlen.
  destruct (data_emission_loop_trace env a s N objects counter w Hlen)
    as (Δ & k & HΔ & Hemits & _).
  by exists Δ.
Qed.

End iterations.

(** ** The runs of the scripts *)

Section runs.
Context (env : environment).

Lemma forever_outcome {S A} (fuel : nat) (body : S → M S) (st : S) (w : world) (x : A) :
  (forever (A:=A) fuel body st w).1 ≠ Ok x.
Proof.
  unfold forever, bind, diverge.
  by destruct (iterate fuel body st w) as [[| |] w'].
Qed.

(** [main] of [json_producer.py], by the result of [connect_to_stream]. *)
Lemma json_main_run (fuel : nat) (a : json_producer.args) (w : world) :
  json_producer.main env fuel a w
  = match connect_to_stream env fuel (json_producer.stream_name a)
            {| asked := asked w;
               history := history w
                 ++ [Printed (MsgConnecting (json_producer.stream_name a)
                                            (json_producer.region a))] |} with
    | (Ok true, w1) =>
        match json_producer.sleep_s a with
        | inl e => (Raised e, w1)
        | inr s =>
            forever fuel (json_producer.emission env a s) [0; 0; 0]
              (if json_producer.silent a
               then {| asked := asked w1;
                       history := history w1 ++ [Printed (MsgSendingEvery s)] |}
               else w1)
        end
    | (Ok false, w1) => (Ok tt, w1)
    | (Raised e, w1) => (Raised e, w1)
    | (Diverged, w1) => (Diverged, w1)
    end.
Proof.
  destruct (connect_to_stream env fuel _ _) as [[[|]|e|] w1] eqn:Hconnect.
  - destruct (json_producer.sleep_s a) as [e|s] eqn:Hs.
    + unfold json_producer.main.
      unfold bind at 1. unfold print, observe at 1. unfold bind at 1.
      unfold json_producer.connect_to_stream. rewrite Hconnect. cbn [negb].
      unfold bind at 1. by rewrite Hs.
    + by apply json_main_connected.
  - unfold json_producer.main.
    unfold bind at 1. unfold print, observe at 1. unfold bind at 1.
    unfold json_producer.connect_to_stream. by rewrite Hconnect.
  - unfold json_producer.main.
    unfold bind at 1. unfold print, observe at 1. unfold bind at 1.
    unfold json_producer.connect_to_stream. by rewrite Hconnect.
  - unfold json_producer.main.
    unfold bind at 1. unfold print, observe at 1. unfold bind at 1.
    unfold json_producer.connect_to_stream. by rewrite Hconnect.
Qed.

(** [main] of [data_producer.py], by the result of [connect_to_stream]. *)
Lemma data_main_run (fuel : nat) (a : data_producer.args) (w : world) :
  data_producer.main env fuel a w
  = match connect_to_stream env fuel (data_producer.stream_name a)
            {| asked := asked w;
               history := history w
                 ++ [Printed (MsgConnecting (data_producer.stream_name a)
                                            (data_producer.region a))] |} with
    | (Ok true, w1) =>
        let m := Z.to_nat (data_producer.objects_per_message a) in
        let w2 := {| asked := (asked w1 + 3 * m)%nat; history := history w1 |} in
        match data_producer.sleep_s a with
        | inl e => (Raised e, w2)
        | inr s =>
            forever fuel (data_producer.emission env a s)
              (data_producer.fresh_at env (asked w1) <$> seq 0 m, 0) w2
        end
    | (Ok false, w1) => (Ok tt, w1)
    | (Raised e, w1) => (Raised e, w1)
    | (Diverged, w1) => (Diverged, w1)
    end.
Proof.
  destruct (connect_to_stream env fuel _ _) as [[[|]|e|] w1] eqn:Hconnect.
  - cbn zeta. destruct (data_producer.sleep_s a) as [e|s] eqn:Hs.
    + unfold data_producer.main.
      unfold bind at 1. unfold print, observe at 1. unfold bind at 1.
      unfold data_producer.connect_to_stream. rewrite Hconnect. cbn [negb].
      unfold bind at 1. rewrite create_objects_run. cbn zeta.
      unfold bind at 1. by rewrite Hs.
    + by apply data_main_connected.
  - unfold data_producer.main.
    unfold bind at 1. unfold print, observe at 1. unfold bind at 1.
    unfold data_producer.connect_to_stream. by rewrite Hconnect.
  - unfold data_producer.main.
    unfold bind at 1. unfold print, observe at 1. unfold bind at 1.
    unfold data_producer.connect_to_stream. by rewrite Hconnect.
  - unfold data_producer.main.
    unfold bind at 1. unfold print, observe at 1. unfold bind at 1.
    unfold data_producer.connect_to_stream. by rewrite Hconnect.
Qed.

Lemma connect_phase (fuel : nat) (name : string) (w : world) :
  ∃ Δc, history (connect_to_stream env fuel name w).2 = history w ++ Δc
        ∧ attempts Δc = []
        ∧ (length (creations Δc) ≤ 1)%nat
        ∧ ((connect_to_stream env fuel name w).1 = Ok true →
           ∃ Δ', Δc = Δ' ++ [Called (DescribeStream name) (Returns (status "ACTIVE"))]).
Proof.
  destruct (connect_to_stream_shape env fuel name w)
    as (Δ1 & c & Δ2 & HΔ & Hp1 & Hp2 & Hc & _ & Htrue).
  eexists. split; [exact HΔ|].
  change (Called (DescribeStream name) (backend env (asked w)) :: Δ1 ++ c ++ Δ2)
    with ([Called (DescribeStream name) (backend env (asked w))] ++ Δ1 ++ c ++ Δ2) in *.
  split_and!.
  - rewrite !attempts_app, (polls_attempts name Δ1 Hp1), (polls_attempts name Δ2 Hp2).
    by rewrite (decision_attempts name c Hc).
  - rewrite !creations_app, (polls_creations name Δ1 Hp1), (polls_creations name Δ2 Hp2).
    rewrite app_nil_r. cbn. by apply (decision_creations name).
  - intros Hok. destruct (Htrue Hok) as [Δ' HΔ']. rewrite HΔ in HΔ'.
    set (Δc := [_] ++ Δ1 ++ c ++ Δ2) in *.
    assert (Hne : Δc ≠ []) by done. clearbody Δc.
    destruct (exists_last Hne) as (Δ0 & ev & ->).
    rewrite app_assoc in HΔ'. apply app_inj_tail in HΔ' as [_ ->]. by eexists.
Qed.

Lemma json_main_phases (fuel : nat) (a : json_producer.args) (w : world) :
  ∃ Δ, history (json_producer.main env fuel a w).2
       = history w
         ++ Printed (MsgConnecting (json_producer.stream_name a) (json_producer.region a)) :: Δ
       ∧ phases (json_producer.stream_name a) "123" Δ.
Proof.
  rewrite json_main_run.
  match goal with |- context [connect_to_stream env fuel ?name ?w0] =>
    destruct (connect_phase fuel name w0) as (Δc & HΔc & Hatt & Hcre & Hact);
    destruct (connect_to_stream env fuel name w0) as [[[|]|e|] w1] end;
    cbn [fst snd history] in HΔc, Hact.
  2-4: exists Δc; cbn [snd]; rewrite HΔc, <- app_assoc; split; [done|];
       exists Δc, []; rewrite app_nil_r; by split_and!.
  destruct (json_producer.sleep_s a) as [e|s].
  { exists Δc. cbn [snd]. rewrite HΔc, <- app_assoc. split; [done|].
    exists Δc, []. rewrite app_nil_r. by split_and!. }
  rewrite forever_history.
  match goal with |- context [iterate fuel _ _ ?w2] =>
    destruct (json_emission_loop_emits env a s fuel [0; 0; 0] w2 eq_refl)
      as (Δe & HΔe & Hemits) end.
  rewrite HΔe. destruct (json_producer.silent a); cbn [history]; rewrite HΔc.
  - exists (Δc ++ Printed (MsgSendingEvery s) :: Δe). split.
    { rewrite <- !app_assoc. reflexivity. }
    exists Δc, (Printed (MsgSendingEvery s) :: Δe). split_and!; try done.
    + by constructor.
    + intros _. by apply Hact.
  - exists (Δc ++ Δe). split.
    { rewrite <- !app_assoc. reflexivity. }
    exists Δc, Δe. split_and!; try done. intros _. by apply Hact.
Qed.

Lemma data_main_phases (fuel : nat) (a : data_producer.args) (w : world) :
  ∃ Δ, history (data_producer.main env fuel a w).2
       = history w
         ++ Printed (MsgConnecting (data_producer.stream_name a) (data_producer.region a)) :: Δ
       ∧ phases (data_producer.stream_name a) "SergiRamis" Δ.
Proof.
  rewrite data_main_run.
  match goal with |- context [connect_to_stream env fuel ?name ?w0] =>
    destruct (connect_phase fuel name w0) as (Δc & HΔc & Hatt & Hcre & Hact);
    destruct (connect_to_stream env fuel name w0) as [[[|]|e|] w1] end;
    cbn [fst snd history] in HΔc, Hact.
  2-4: exists Δc; cbn [snd]; rewrite HΔc, <- app_assoc; split; [done|];
       exists Δc, []; rewrite app_nil_r; by split_and!.
  cbn zeta. destruct (data_producer.sleep_s a) as [e|s].
  { exists Δc. cbn [snd history]. rewrite HΔc, <- app_assoc. split; [done|].
    exists Δc, []. rewrite app_nil_r. by split_and!. }
  rewrite forever_history.
  match goal with |- context [iterate fuel _ (?objects, 0) ?w2] =>
    destruct (data_emission_loop_emits env a s fuel objects 0 w2)
      as (Δe & HΔe & Hemits) end.
  { by rewrite length_fmap, length_seq. }
  rewrite HΔe. cbn [history]. rewrite HΔc.
  exists (Δc ++ Δe). split.
  { rewrite <- !app_assoc. reflexivity. }
  exists Δc, Δe. split_and!; try done. intros _. by apply Hact.
Qed.

End runs.

(** ** The value of a sample of type 1 *)

Section integer_like.
Context (env : environment).

(** [int(random.random() * 256)] is the integer part of [256 * u]. *)
Lemma integer_like_exact (k : Z) :
  0 ≤ k < 2 ^ 53 →
  float.to_int (float.mul (float.ldexp k (-53)) (float.of_int 256)) = inr (k / 2 ^ 45).
Proof.
  intros Hk.
  destruct (Z.eq_dec k 0) as [->|Hk0]; [done|].
  destruct (ldexp_53 k ltac:(lia)) as (mu & eu & -> & Heu & Hu).
  change (float.of_int 256) with (S754_finite false 4503599627370496 (-44)).
  assert (HX : Z.pos mu * 4503599627370496 * 2 ^ (eu + -44 + 1074) = k * 2 ^ 1029).
  { replace (eu + 1074) with (44 + (eu + -44 + 1074)) in Hu by lia.
    replace 1029 with (8 + 1021) by lia.
    rewrite Z.pow_add_r in Hu by lia. rewrite (Z.pow_add_r 2 8) by lia.
    change 4503599627370496 with (2 ^ 8 * 2 ^ 44). lia. }
  destruct (mul_pos mu 4503599627370496 eu (-44)) as (m & e & R & -> & He & Hm & Hval & Hnear).
  { lia. }
  { rewrite HX. lia. }
  rewrite HX in *.
  rewrite (nearest_rep _ _ (rep_mul_pow2 k 1029 ltac:(lia) ltac:(lia)) Hnear) in Hval.
  rewrite to_int_pos, Hval by done.
  replace 1074 with (45 + 1029) by lia.
  by rewrite (Z.pow_add_r 2 45), Z.div_mul_cancel_r by lia.
Qed.

(** The object of an iteration of [json_producer.py] whose type is 1. *)
Lemma json_create_object_integer_like (n : list Z) (w : world) :
  length n = 3%nat →
  json_producer.msg_type_of (1 + entropy env (asked w) `mod` 501) = 1 →
  ∃ c,
    n !! 1%nat = Some c
    ∧ json_producer.create_object env n w
      = (Ok (json_producer.sample 1
               (float.of_int ((entropy env (S (asked w)) `mod` 2 ^ 53) / 2 ^ 45))
               (c + 1) (clock env (S (S (asked w)))),
             <[1%nat := c + 1]> n),
         {| asked := S (S (S (asked w))); history := history w |}).
Proof.
  intros Hn Ht. destruct n as [|n0 [|n1 [|n2 [|]]]]; try done.
  exists n1. split; [done|].
  pose proof (Z.mod_pos_bound (entropy env (S (asked w))) (2 ^ 53) ltac:(lia)) as Hk.
  assert (Hi : 0 ≤ entropy env (S (asked w)) `mod` 2 ^ 53 / 2 ^ 45 ≤ 255).
  { split; [apply Z.div_pos; lia|].
    assert (entropy env (S (asked w)) `mod` 2 ^ 53 / 2 ^ 45 < 256);
      [apply Z.div_lt_upper_bound|]; lia. }
  unfold json_producer.create_object.
  unfold bind at 1. unfold randint at 1. unfold bind at 1. unfold ask at 1. unfold ret at 1.
  rewrite getitem_insert. unfold bind at 1. unfold ret at 1.
  change (1 + entropy env (asked w) `mod` (501 - 1 + 1))
    with (1 + entropy env (asked w) `mod` 501).
  rewrite Ht. cbn [py_eq_int Z.eqb Pos.eqb].
  unfold bind at 1. unfold bind at 1. rewrite random_random_run. cbn [asked history].
  unfold bind at 1. rewrite (integer_like_exact _ Hk). cbn [lift ret].
  assert (Hsmall : 0 ≤ entropy env (S (asked w)) `mod` 2 ^ 53 / 2 ^ 45 < 2 ^ 53).
  { generalize dependent (entropy env (S (asked w)) `mod` 2 ^ 53 / 2 ^ 45). intros; lia. }
  unfold bind at 1. rewrite (proj1 (of_int_small _ Hsmall)). cbn [lift ret].
  rewrite getitem_insert_ne, getitem_insert by done.
  reflexivity.
Qed.

End integer_like.

(** ** The fields of a record of several objects *)

Section stamping.
Context (env : environment).

Lemma fields_imap (key : string) (f : nat → dict → dict) (g : nat → option pyval)
    (objects : list dict) :
  (∀ j o, objects !! j = Some o → f j o !! key = g j) →
  fields key (JArray (imap f objects)) = g <$> seq 0 (length objects).
Proof.
  intros Hf. cbn [fields]. apply list_eq. intros j.
  rewrite !list_lookup_fmap, list_lookup_imap.
  destruct (objects !! j) as [o|] eqn:Ho; cbn.
  - rewrite lookup_seq_lt by (by eapply lookup_lt_Some). cbn. f_equal. by apply Hf.
  - rewrite lookup_seq_ge; [done|]. by apply lookup_ge_None.
Qed.

End stamping.

(** * The claims *)

(** C1, as the code has it.  An iteration whose [put_record] raises [e]
    catches the exception and prints the two lines that tell the failure
    and [e]; then it goes to its sleep, as after a record that was
    accepted.  When the period is one that [time.sleep] takes, and no
    period and every period from 0 to [2^30] ms are (in
    [data_producer.py] a negative one too), the sleep ends the iteration
    and the loop is ready for the next one: so, whatever the replies of
    the backend, any number of iterations complete.  And whatever the
    period, whether an iteration ends and the state that it leaves to the
    next do not depend on the replies of the backend: no failure of
    [put_record] ends the loop.  (The loop of [json_producer.py] is taken
    with its three counters, that of [data_producer.py] with as many
    objects as a message has.) *)
Theorem failed_publish_is_told_and_the_loop_goes_on (env : environment) (e : exn) :
  (∀ (a : json_producer.args) (s : float.t) (n : list Z) (w : world),
     length n = 3%nat →
     backend env (S (S (S (asked w)))) = Raises e →
     ∃ obj rest,
       history (json_producer.emission env a s n w).2
       = history w
         ++ [Called (PutRecord (json_producer.stream_name a) (JObject obj) "123") (Raises e);
             Printed (MsgPutRecordFailed (JObject obj) (json_producer.stream_name a));
             Printed (MsgException e)]
         ++ rest)
  ∧ (∀ (a : data_producer.args) (s : float.t) (objects : list dict) (counter : Z)
       (w : world),
     length objects = Z.to_nat (data_producer.objects_per_message a) →
     backend env (asked w + length objects)%nat = Raises e →
     ∃ objects' rest,
       history (data_producer.emission env a s (objects, counter) w).2
       = history w
         ++ [Called (PutRecord (data_producer.stream_name a) (JArray objects') "SergiRamis")
                    (Raises e);
             Printed (MsgPutSensorFailed (data_producer.stream_name a));
             Printed (MsgException e)]
         ++ rest)
  ∧ (∀ (a : json_producer.args) (n : list Z) (w : world),
     (∀ p, json_producer.period a = Some p → 0 ≤ p < 2 ^ 30) →
     length n = 3%nat →
     backend env (S (S (S (asked w)))) = Raises e →
     ∃ s,
       json_producer.sleep_s a = inr s
       ∧ (∃ obj n',
            json_producer.emission env a s n w
            = (Ok n',
               {| asked := S (S (S (S (asked w))));
                  history := history w
                    ++ [Called (PutRecord (json_producer.stream_name a) (JObject obj) "123")
                               (Raises e);
                        Printed (MsgPutRecordFailed (JObject obj)
                                                    (json_producer.stream_name a));
                        Printed (MsgException e);
                        Slept s] |})
            ∧ length n' = 3%nat)
       ∧ ∀ N, ∃ n' w', iterate N (json_producer.emission env a s) n w = (Ok n', w'))
  ∧ (∀ (a : data_producer.args) (objects : list dict) (counter : Z) (w : world),
     (∀ p, data_producer.period a = Some p → p < 2 ^ 30) →
     length objects = Z.to_nat (data_producer.objects_per_message a) →
     backend env (asked w + length objects)%nat = Raises e →
     ∃ s,
       data_producer.sleep_s a = inr s
       ∧ (∃ objects' counter',
            data_producer.emission env a s (objects, counter) w
            = (Ok (objects', counter'),
               {| asked := S (asked w + length objects);
                  history := history w
                    ++ [Called (PutRecord (data_producer.stream_name a) (JArray objects')
                                          "SergiRamis") (Raises e);
                        Printed (MsgPutSensorFailed (data_producer.stream_name a));
                        Printed (MsgException e);
                        Slept s] |})
            ∧ length objects' = Z.to_nat (data_producer.objects_per_message a))
       ∧ ∀ N, ∃ st' w',
           iterate N (data_producer.emission env a s) (objects, counter) w = (Ok st', w'))
  ∧ (∀ (b : nat → reply) (a : json_producer.args) (s : float.t) (n : list Z) (w : world),
       (json_producer.emission (with_backend env b) a s n w).1
       = (json_producer.emission env a s n w).1)
  ∧ (∀ (b : nat → reply) (a : data_producer.args) (s : float.t) (st : list dict * Z)
       (w : world),
       (data_producer.emission (with_backend env b) a s st w).1
       = (data_producer.emission env a s st w).1).
Proof.
  split_and!; [| | | |apply json_emission_outcome|apply data_emission_outcome].
  - intros a s n w Hn Hrp.
    destruct (json_emission_run env a s n w Hn) as (t & c & v & _ & Hc & _ & Hrun).
    cbn zeta in Hrun. rewrite Hrp in Hrun. rewrite Hrun.
    destruct (refusal env s _); cbn [snd history]; by eexists _, _.
  - intros a s objects counter w Hlen Hrp.
    pose proof (data_emission_run env a s objects counter w Hlen) as Hrun.
    cbn zeta in Hrun. rewrite Hrp in Hrun. rewrite Hrun.
    destruct (refusal env s _); cbn [snd history]; by eexists _, _.
  - intros a n w Hperiod Hn Hrp.
    destruct (json_sleep_s_sleepable a Hperiod) as (s & Hsleep & Hs).
    exists s. split; [done|]. split.
    + destruct (json_emission_run env a s n w Hn) as (t & c & v & _ & Hc & _ & Hrun).
      cbn zeta in Hrun. rewrite (refusal_sleepable env s _ Hs), Hrp in Hrun.
      eexists _, _. split; [exact Hrun|]. by rewrite length_insert.
    + intros N. destruct (json_emission_loop_run env a s N Hs n w Hn) as (n' & Δ & -> & _).
      by eexists _, _.
  - intros a objects counter w Hperiod Hlen Hrp.
    destruct (data_sleep_s_sleepable a Hperiod) as (s & Hsleep & Hs).
    exists s. split; [done|]. split.
    + pose proof (data_emission_run env a s objects counter w Hlen) as Hrun.
      cbn zeta in Hrun. rewrite (refusal_sleepable env s _ Hs), Hrp in Hrun.
      eexists _, _. split; [exact Hrun|]. by rewrite length_imap.
    + intros N.
      destruct (data_emission_loop_run env a s N Hs objects counter w Hlen)
        as (objects' & Δ & -> & _).
      by eexists _, _.
Qed.

(** C1, as stated, fails when the period is longer than [time.sleep]
    takes.  With a period of 10^13 ms the iteration whose [put_record]
    fails tells the failure, and then [time.sleep] raises
    [OverflowError]: the loop does not go on to a next iteration, in
    either script. *)
Lemma failed_publish_before_a_sleep_too_long :
  (∃ s obj,
     json_producer.sleep_s aeon_json = inr s
     ∧ json_producer.emission (steady (Raises (ClientError "InternalFailure"))) aeon_json
         s [0; 0; 0] genesis
       = (Raised OverflowError,
          {| asked := 4;
             history :=
               [Called (PutRecord "motors" (JObject obj) "123")
                       (Raises (ClientError "InternalFailure"));
                Printed (MsgPutRecordFailed (JObject obj) "motors");
                Printed (MsgException (ClientError "InternalFailure"))] |})
     ∧ (iterate 2 (json_producer.emission (steady (Raises (ClientError "InternalFailure")))
                     aeon_json s) [0; 0; 0] genesis).1
       = Raised OverflowError)
  ∧ (∃ s objects',
       data_producer.sleep_s aeon_data = inr s
       ∧ data_producer.emission (steady (Raises (ClientError "InternalFailure"))) aeon_data
           s ([∅; ∅], 0) genesis
         = (Raised OverflowError,
            {| asked := 3;
               history :=
                 [Called (PutRecord "motors" (JArray objects') "SergiRamis")
                         (Raises (ClientError "InternalFailure"));
                  Printed (MsgPutSensorFailed "motors");
                  Printed (MsgException (ClientError "InternalFailure"))] |})
       ∧ (iterate 2 (data_producer.emission (steady (Raises (ClientError "InternalFailure")))
                       aeon_data s) ([∅; ∅], 0) genesis).1
         = Raised OverflowError).
Proof.
  split; eexists _, _; split_and!;
    try (vm_compute json_producer.sleep_s; reflexivity);
    try (vm_compute data_producer.sleep_s; reflexivity);
    vm_compute; reflexivity.
Qed.

Lemma failed_publish_is_told_and_the_loop_goes_on_witness :
  (∃ s,
     json_producer.sleep_s motors_json = inr s
     ∧ (∃ obj n',
          json_producer.emission (steady (Raises (ClientError "InternalFailure"))) motors_json
            s [0; 0; 0] genesis
          = (Ok n',
             {| asked := 4;
                history :=
                  history genesis
                  ++ [Called (PutRecord "motors" (JObject obj) "123")
                             (Raises (ClientError "InternalFailure"));
                      Printed (MsgPutRecordFailed (JObject obj) "motors");
                      Printed (MsgException (ClientError "InternalFailure"));
                      Slept s] |})
          ∧ length n' = 3%nat)
     ∧ ∀ N, ∃ n' w',
         iterate N (json_producer.emission (steady (Raises (ClientError "InternalFailure")))
                      motors_json s) [0; 0; 0] genesis = (Ok n', w'))
  ∧ (∃ s,
       data_producer.sleep_s motors_data = inr s
       ∧ (∃ objects' counter',
            data_producer.emission (steady (Raises (ClientError "InternalFailure")))
              motors_data s ([∅; ∅], 0) genesis
            = (Ok (objects', counter'),
               {| asked := 3;
                  history :=
                    history genesis
                    ++ [Called (PutRecord "motors" (JArray objects') "SergiRamis")
                               (Raises (ClientError "InternalFailure"));
                        Printed (MsgPutSensorFailed "motors");
                        Printed (MsgException (ClientError "InternalFailure"));
                        Slept s] |})
            ∧ length objects' = 2%nat)
       ∧ ∀ N, ∃ st' w',
           iterate N (data_producer.emission (steady (Raises (ClientError "InternalFailure")))
                        motors_data s) ([∅; ∅], 0) genesis = (Ok st', w')).
Proof.
  split.
  - refine (proj1 (proj2 (proj2 (failed_publish_is_told_and_the_loop_goes_on
              (steady (Raises (ClientError "InternalFailure")))
              (ClientError "InternalFailure"))))
              motors_json [0; 0; 0] genesis _ _ _).
    + intros p [= <-]. lia.
    + reflexivity.
    + reflexivity.
  - refine (proj1 (proj2 (proj2 (proj2 (failed_publish_is_told_and_the_loop_goes_on
              (steady (Raises (ClientError "InternalFailure")))
              (ClientError "InternalFailure")))))
              motors_data [∅; ∅] 0 genesis _ _ _).
    + intros p [= <-]. lia.
    + reflexivity.
    + reflexivity.
Defined.

(** C2, as the code has it.  When the period is one that [time.sleep]
    takes, and no period and every period from 0 to [2^30] ms are (in
    [data_producer.py] a negative one too), then, whatever the replies of
    the backend (any number of the publish calls may fail), N iterations
    complete and each hands one record over.  In [json_producer.py] the
    counter of a type has advanced by the number of those records that
    are of that type, and the three counters together by N; in
    [data_producer.py] the counter has advanced by N times the number of
    objects of a message.  (The loop of [json_producer.py] is taken with
    its three counters, that of [data_producer.py] with as many objects
    as a message has.) *)
Theorem counters_advance_with_every_attempt (env : environment) (N : nat) :
  (∀ (a : json_producer.args) (n : list Z) (w : world),
     (∀ p, json_producer.period a = Some p → 0 ≤ p < 2 ^ 30) →
     length n = 3%nat →
     ∃ s n' Δ,
       json_producer.sleep_s a = inr s
       ∧ iterate N (json_producer.emission env a s) n w
         = (Ok n', {| asked := (asked w + 4 * N)%nat; history := history w ++ Δ |})
       ∧ length (attempts Δ) = N
       ∧ (∀ (t : nat) c, n !! t = Some c →
            n' !! t = Some (c + Z.of_nat (length (json_producer.sequences (Z.of_nat t) (attempts Δ)))))
       ∧ foldr Z.add 0 n' = foldr Z.add 0 n + Z.of_nat N)
  ∧ (∀ (a : data_producer.args) (objects : list dict) (counter : Z) (w : world),
     (∀ p, data_producer.period a = Some p → p < 2 ^ 30) →
     length objects = Z.to_nat (data_producer.objects_per_message a) →
     ∃ s objects' Δ,
       data_producer.sleep_s a = inr s
       ∧ iterate N (data_producer.emission env a s) (objects, counter) w
         = (Ok (objects',
                counter + Z.of_nat N * Z.max 0 (data_producer.objects_per_message a)),
            {| asked := (asked w + N * S (length objects))%nat; history := history w ++ Δ |})
       ∧ length (attempts Δ) = N).
Proof.
  split.
  - intros a n w Hperiod Hn.
    destruct (json_sleep_s_sleepable a Hperiod) as (s & Hsleep & Hs).
    destruct (json_emission_loop_run env a s N Hs n w Hn)
      as (n' & Δ & Hrun & _ & Hatt & _ & Hsum & Hseq).
    exists s, n', Δ. split_and!; try done.
    intros t c Hc. destruct (Hseq t c Hc) as (c' & -> & Hle & ->).
    rewrite length_seqZ. f_equal. lia.
  - intros a objects counter w Hperiod Hlen.
    destruct (data_sleep_s_sleepable a Hperiod) as (s & Hsleep & Hs).
    destruct (data_emission_loop_run env a s N Hs objects counter w Hlen)
      as (objects' & Δ & Hrun & _ & Hatt & _).
    exists s, objects', Δ. split_and!; [done| |done]. rewrite Hrun. do 4 f_equal. lia.
Qed.

(** C2, as stated, fails.  Three iterations, every record delivered; the
    records are of type 0, 0 and 1, and the counters end at 2, 1 and 0:
    none has advanced by three.  And with a period of 10^13 ms, longer
    than [time.sleep] takes, the loop does not complete its iterations:
    the first one ends with [OverflowError]. *)
Lemma counter_of_a_type_counts_its_type :
  (iterate 3 (json_producer.emission mixed motors_json half) [0; 0; 0] genesis).1
  = Ok [2; 1; 0]
  ∧ field "msg_type"
      <$> attempts (history (iterate 3 (json_producer.emission mixed motors_json half)
                               [0; 0; 0] genesis).2)
    = [Some (PyInt 0); Some (PyInt 0); Some (PyInt 1)]
  ∧ ∃ s,
      json_producer.sleep_s aeon_json = inr s
      ∧ (iterate 3 (json_producer.emission mixed aeon_json s) [0; 0; 0] genesis).1
        = Raised OverflowError
      ∧ length (attempts (history (iterate 3 (json_producer.emission mixed aeon_json s)
                                     [0; 0; 0] genesis).2))
        = 1%nat.
Proof.
  split_and!; [vm_compute; reflexivity|vm_compute; reflexivity|].
  eexists. split_and!; [vm_compute json_producer.sleep_s; reflexivity| |];
    vm_compute; reflexivity.
Qed.

Lemma counters_advance_with_every_attempt_witness :
  ∃ s n' Δ,
    json_producer.sleep_s motors_json = inr s
    ∧ iterate 3 (json_producer.emission mixed motors_json s) [0; 0; 0] genesis
      = (Ok n', {| asked := (asked genesis + 4 * 3)%nat; history := history genesis ++ Δ |})
    ∧ length (attempts Δ) = 3%nat
    ∧ (∀ (t : nat) c, [0; 0; 0] !! t = Some c →
         n' !! t = Some (c + Z.of_nat (length (json_producer.sequences (Z.of_nat t) (attempts Δ)))))
    ∧ foldr Z.add 0 n' = foldr Z.add 0 [0; 0; 0] + Z.of_nat 3.
Proof.
  refine (proj1 (counters_advance_with_every_attempt mixed 3) motors_json [0; 0; 0]
            genesis _ _).
  - intros p [= <-]. lia.
  - reflexivity.
Defined.

(** C3. When the first lookup of the stream fails, the stream is taken to
    be absent: the next request creates it, with one shard; nothing but
    polling follows, so that this is the only create request; [True] is
    returned only after a poll answered ACTIVE, and [False] never.  And
    the wait ends: when the creation is accepted and the polls are
    answered by statuses that lead to ACTIVE, [True] is returned after
    exactly those polls. *)
Theorem absent_stream_is_created_once_then_awaited (env : environment)
    (fuel : nat) (name : string) (w : world) (e : exn) :
  backend env (asked w) = Raises e →
  (∃ Δ,
     history (connect_to_stream env fuel name w).2
     = history w
       ++ [Called (DescribeStream name) (Raises e);
           Printed (MsgCreating name);
           Called (CreateStream name 1) (backend env (S (asked w)))]
       ++ Δ
     ∧ Forall (polls name) Δ
     ∧ creations (history (connect_to_stream env fuel name w).2)
       = creations (history w) ++ [(name, 1)]
     ∧ (connect_to_stream env fuel name w).1 ≠ Ok false
     ∧ ((connect_to_stream env fuel name w).1 = Ok true →
        ∃ Δ', Δ = Δ' ++ [Called (DescribeStream name) (Returns (status "ACTIVE"))]))
  ∧ ∀ (body : response) (current : string) (pending : list string),
      backend env (S (asked w)) = Returns body →
      leads_to_active current pending →
      (∀ (i : nat) s, (current :: pending) !! i = Some s →
                      backend env (S (S (asked w)) + i)%nat = Returns (status s)) →
      (length pending < fuel)%nat →
      connect_to_stream env fuel name w
      = (Ok true,
         {| asked := (S (S (asked w)) + S (length pending))%nat;
            history := history w
              ++ [Called (DescribeStream name) (Raises e);
                  Printed (MsgCreating name);
                  Called (CreateStream name 1) (Returns body);
                  Called (DescribeStream name) (Returns (status current))]
              ++ poll_events name current pending |}).
Proof.
  intros Hrp.
  assert (Herr : lookup_error (backend env (asked w)) = Some e) by (by rewrite Hrp).
  rewrite (connect_failed_lookup env fuel name w e Herr). cbn zeta. rewrite Hrp.
  set (w' := {| asked := S (S (asked w)); history := _ |}).
  split.
  - destruct (backend env (S (asked w))) as [body|e'] eqn:Hcreate.
    + destruct (wait_for_stream_safe env fuel name w') as (Δ & HΔ & Hpolls & Hok).
      exists Δ.
      destruct (wait_for_stream env fuel name 3 w') as [[[]| |] w''] eqn:Hwait;
        cbn [fst snd] in *.
      all: rewrite HΔ; subst w'; cbn [history]; rewrite <- !app_assoc.
      all: split_and!; try done.
      all: try (rewrite !creations_app, (polls_creations name Δ Hpolls); by rewrite app_nil_r).
      intros _. by apply Hok.
    + exists []. subst w'. cbn [fst snd history]. rewrite app_nil_r.
      split_and!; try done. by rewrite creations_app.
  - intros body current pending Hcreate Hlead Hanswers Hfuel. rewrite Hcreate.
    rewrite (wait_for_stream_progress env current pending fuel name w'); try done.
    subst w'. cbn [asked history]. rewrite Hcreate, <- !app_assoc. reflexivity.
Qed.

Lemma absent_stream_is_created_once_then_awaited_witness :
  connect_to_stream creating 3 "motors" genesis
  = (Ok true,
     {| asked := 5;
        history :=
          [Called (DescribeStream "motors") (Raises (ClientError "ResourceNotFoundException"));
           Printed (MsgCreating "motors");
           Called (CreateStream "motors" 1) (Returns {| StreamStatus := None |});
           Called (DescribeStream "motors") (Returns (status "CREATING"));
           Printed (MsgStatusSleeping "motors" "CREATING" 3);
           Slept (float.of_int 3);
           Called (DescribeStream "motors") (Returns (status "CREATING"));
           Printed (MsgStatusSleeping "motors" "CREATING" 3);
           Slept (float.of_int 3);
           Called (DescribeStream "motors") (Returns (status "ACTIVE"))] |}).
Proof.
  refine (proj2 (absent_stream_is_created_once_then_awaited creating 3 "motors" genesis
                   (ClientError "ResourceNotFoundException") _)
            {| StreamStatus := None |} "CREATING" ["CREATING"; "ACTIVE"] _ _ _ _).
  - reflexivity.
  - reflexivity.
  - cbn. by split_and!.
  - intros [|[|[|i]]] s; cbn; intros [= <-]; reflexivity.
  - cbn. lia.
Defined.

(** C4. When the first lookup answers DELETING, [connect_to_stream] tells
    so and returns [False] after that one request, and [main], in both
    scripts, returns at once: the run has sent no create request and has
    handed no record to [put_record]. *)
Theorem deleting_stream_ends_the_run (env : environment) (fuel : nat) (name : string) (w : world) :
  backend env (asked w) = Returns (status "DELETING") →
  let Δ := [Called (DescribeStream name) (Returns (status "DELETING"));
            Printed (MsgBeingDeleted name)] in
  connect_to_stream env fuel name w
  = (Ok false, {| asked := S (asked w); history := history w ++ Δ |})
  ∧ creations Δ = [] ∧ attempts Δ = []
  ∧ (∀ a : json_producer.args,
       json_producer.stream_name a = name →
       json_producer.main env fuel a w
       = (Ok tt, {| asked := S (asked w);
                    history := history w
                      ++ Printed (MsgConnecting name (json_producer.region a)) :: Δ |}))
  ∧ (∀ a : data_producer.args,
       data_producer.stream_name a = name →
       data_producer.main env fuel a w
       = (Ok tt, {| asked := S (asked w);
                    history := history w
                      ++ Printed (MsgConnecting name (data_producer.region a)) :: Δ |})).
Proof.
  intros Hrp Δ. split; [by apply connect_deleting|]. split; [done|]. split; [done|].
  split; intros a <-.
  - unfold json_producer.main, json_producer.connect_to_stream.
    unfold bind at 1. unfold print, observe at 1. unfold bind at 1.
    rewrite connect_deleting by done. cbn [negb asked history ret].
    by rewrite <- app_assoc.
  - unfold data_producer.main, data_producer.connect_to_stream.
    unfold bind at 1. unfold print, observe at 1. unfold bind at 1.
    rewrite connect_deleting by done. cbn [negb asked history ret].
    by rewrite <- app_assoc.
Qed.

Lemma deleting_stream_ends_the_run_witness :
  json_producer.main (steady (Returns (status "DELETING"))) 5
    {| json_producer.stream_name := "motors"; json_producer.region := "us-east-1";
       json_producer.period := Some 500; json_producer.silent := false |} genesis
  = (Ok tt,
     {| asked := 1;
        history := [Printed (MsgConnecting "motors" "us-east-1");
                    Called (DescribeStream "motors") (Returns (status "DELETING"));
                    Printed (MsgBeingDeleted "motors")] |}).
Proof.
  by apply (proj1 (proj2 (proj2 (proj2
    (deleting_stream_ends_the_run (steady (Returns (status "DELETING"))) 5 "motors" genesis
       eq_refl))))).
Defined.

(** C5. When the first lookup answers ACTIVE, [connect_to_stream] returns
    [True] after that one request; called again on a stream still ACTIVE,
    it does the same: the two calls have sent two describe requests and
    nothing else. *)
Theorem active_stream_is_ready_at_once (env : environment) (fuel : nat) (name : string) (w : world) :
  backend env (asked w) = Returns (status "ACTIVE") →
  connect_to_stream env fuel name w
  = (Ok true,
     {| asked := S (asked w);
        history := history w ++ [Called (DescribeStream name) (Returns (status "ACTIVE"))] |})
  ∧ (backend env (S (asked w)) = Returns (status "ACTIVE") →
     (connect_to_stream env fuel name ;; connect_to_stream env fuel name) w
     = (Ok true,
        {| asked := S (S (asked w));
           history := history w
             ++ [Called (DescribeStream name) (Returns (status "ACTIVE"));
                 Called (DescribeStream name) (Returns (status "ACTIVE"))] |}))
  ∧ creations [Called (DescribeStream name) (Returns (status "ACTIVE"))] = [].
Proof.
  intros Hrp. split; [by apply connect_active|]. split; [|done].
  intros Hrp'. unfold bind. rewrite connect_active by done.
  rewrite connect_active by done. cbn [asked history]. by rewrite <- app_assoc.
Qed.

Lemma active_stream_is_ready_at_once_witness :
  connect_to_stream (steady (Returns (status "ACTIVE"))) 5 "motors" genesis
  = (Ok true,
     {| asked := 1;
        history := [Called (DescribeStream "motors") (Returns (status "ACTIVE"))] |}).
Proof.
  exact (proj1 (active_stream_is_ready_at_once (steady (Returns (status "ACTIVE"))) 5
                  "motors" genesis eq_refl)).
Defined.

(** C6, as the code has it.  A first lookup that fails, whatever the
    failure (the service's not-found error, any other error of the
    request, a response without status), is taken for the absence of the
    stream: the lookup is not repeated; the next request creates the
    stream, with one shard. *)
Theorem failed_lookup_is_taken_for_absence (env : environment)
    (fuel : nat) (name : string) (w : world) (e : exn) :
  lookup_error (backend env (asked w)) = Some e →
  ∃ Δ, history (connect_to_stream env fuel name w).2
       = history w
         ++ [Called (DescribeStream name) (backend env (asked w));
             Printed (MsgCreating name);
             Called (CreateStream name 1) (backend env (S (asked w)))]
         ++ Δ.
Proof.
  intros Herr. rewrite (connect_failed_lookup env fuel name w e Herr). cbn zeta.
  destruct (backend env (S (asked w))) as [body|e'].
  - destruct (wait_for_stream_safe env fuel name
                {| asked := S (S (asked w));
                   history := history w
                     ++ [Called (DescribeStream name) (backend env (asked w));
                         Printed (MsgCreating name);
                         Called (CreateStream name 1) (Returns body)] |})
      as (Δ & HΔ & _).
    exists Δ. destruct (wait_for_stream env fuel name 3 _) as [[[]| |] w''];
      cbn [fst snd history] in *; by rewrite HΔ, <- app_assoc.
  - exists []. cbn [snd history]. by rewrite app_nil_r.
Qed.

(** C6, as stated, fails: the first lookup is throttled (the stream
    exists, as the answer to the create request tells); the script does
    not look again but sends the create request. *)
Lemma throttled_lookup_is_not_repeated :
  lookup_error (backend throttled 0) = Some (ClientError "LimitExceededException")
  ∧ connect_to_stream throttled 3 "motors" genesis
    = (Raised (ClientError "ResourceInUseException"),
       {| asked := 2;
          history :=
            [Called (DescribeStream "motors") (Raises (ClientError "LimitExceededException"));
             Printed (MsgCreating "motors");
             Called (CreateStream "motors" 1)
                    (Raises (ClientError "ResourceInUseException"))] |}).
Proof. split; reflexivity. Qed.

Lemma failed_lookup_is_taken_for_absence_witness :
  ∃ Δ, history (connect_to_stream throttled 3 "motors" genesis).2
       = history genesis
         ++ [Called (DescribeStream "motors") (backend throttled (asked genesis));
             Printed (MsgCreating "motors");
             Called (CreateStream "motors" 1) (backend throttled (S (asked genesis)))]
         ++ Δ.
Proof.
  exact (failed_lookup_is_taken_for_absence throttled 3 "motors" genesis
           (ClientError "LimitExceededException") eq_refl).
Defined.

(** C7, as the code has it.  In [json_producer.py] no counter ever
    decreases, and the records of one type handed to [put_record] carry,
    in the order of their sending, the sequence numbers that follow the
    counter of the type at the start, one by one.  The records published
    are those that the backend accepts, in the same order: among the
    published records of one type the sequence field increases strictly
    (a refused record leaves a gap).  In [data_producer.py] the motor
    counters of the objects handed over, in the order of their sending,
    are the integers that follow the counter at the start, one by one;
    those of the published objects increase strictly; and every record
    carries the encoder counters of the start.  All this holds of any
    number of iterations, whatever the period and however the loop ends.
    (The loop of [json_producer.py] is taken with its three counters,
    that of [data_producer.py] with as many objects as a message has.) *)
Theorem counters_increase_type_by_type (env : environment) (N : nat) :
  (∀ (a : json_producer.args) (s : float.t) (n : list Z) (w : world),
     length n = 3%nat →
     ∃ Δ,
       history (iterate N (json_producer.emission env a s) n w).2 = history w ++ Δ
       ∧ delivered Δ `sublist_of` attempts Δ
       ∧ ∀ (t : nat) c, n !! t = Some c →
           ∃ k, 0 ≤ k
                ∧ json_producer.sequences (Z.of_nat t) (attempts Δ) = seqZ (c + 1) k
                ∧ json_producer.sequences (Z.of_nat t) (delivered Δ)
                  `sublist_of` json_producer.sequences (Z.of_nat t) (attempts Δ)
                ∧ StronglySorted Z.lt (json_producer.sequences (Z.of_nat t) (delivered Δ))
                ∧ ∀ n', (iterate N (json_producer.emission env a s) n w).1 = Ok n' →
                        n' !! t = Some (c + k))
  ∧ (∀ (a : data_producer.args) (s : float.t) (objects : list dict) (counter : Z)
       (w : world),
     length objects = Z.to_nat (data_producer.objects_per_message a) →
     ∃ Δ k,
       history (iterate N (data_producer.emission env a s) (objects, counter) w).2
       = history w ++ Δ
       ∧ delivered Δ `sublist_of` attempts Δ
       ∧ 0 ≤ k
       ∧ data_producer.motor_counters (attempts Δ) = seqZ counter k
       ∧ data_producer.motor_counters (delivered Δ)
         `sublist_of` data_producer.motor_counters (attempts Δ)
       ∧ StronglySorted Z.lt (data_producer.motor_counters (delivered Δ))
       ∧ (∀ st', (iterate N (data_producer.emission env a s) (objects, counter) w).1 = Ok st' →
                 st'.2 = counter + k)
       ∧ Forall (λ data, fields "encoder_counter" data
                         = (λ obj : dict, obj !! "encoder_counter") <$> objects)
                (attempts Δ)).
Proof.
  split.
  - intros a s n w Hn.
    destruct (json_emission_loop_trace env a s N n w Hn) as (Δ & HΔ & _ & _ & Hseq).
    exists Δ. split; [done|]. split; [apply delivered_sublist|].
    intros t c Hc. destruct (Hseq t c Hc) as (k & Hk & E & Hend).
    assert (Hsub : json_producer.sequences (Z.of_nat t) (delivered Δ)
                   `sublist_of` json_producer.sequences (Z.of_nat t) (attempts Δ))
      by apply omap_sublist, delivered_sublist.
    exists k. split_and!; try done.
    eapply sublist_strictly_sorted; [exact Hsub|]. rewrite E. apply seqZ_sorted.
  - intros a s objects counter w Hlen.
    destruct (data_emission_loop_trace env a s N objects counter w Hlen)
      as (Δ & k & HΔ & _ & Hre & Hk & Hmc & Hend).
    assert (Hsub : data_producer.motor_counters (delivered Δ)
                   `sublist_of` data_producer.motor_counters (attempts Δ))
      by apply bind_sublist, delivered_sublist.
    exists Δ, k. split_and!; try done.
    + apply delivered_sublist.
    + eapply sublist_strictly_sorted; [exact Hsub|]. rewrite Hmc. apply seqZ_sorted.
    + eapply Forall_impl; [exact Hre|]. intros data. by apply restamped_fields.
Qed.

(** C7, as stated, fails: three records, all delivered, of types 0, 0
    and 1; their sequence fields are 1, 2 and 1. *)
Lemma sequence_field_drops_from_type_to_type :
  field "msg_type"
    <$> delivered (history (iterate 3 (json_producer.emission mixed motors_json half)
                              [0; 0; 0] genesis).2)
  = [Some (PyInt 0); Some (PyInt 0); Some (PyInt 1)]
  ∧ field "sequence"
      <$> delivered (history (iterate 3 (json_producer.emission mixed motors_json half)
                                [0; 0; 0] genesis).2)
    = [Some (PyInt 1); Some (PyInt 2); Some (PyInt 1)].
Proof. split; vm_compute; reflexivity. Qed.

Lemma counters_increase_type_by_type_witness :
  ∃ Δ,
    history (iterate 3 (json_producer.emission mixed motors_json half) [0; 0; 0] genesis).2
    = history genesis ++ Δ
    ∧ delivered Δ `sublist_of` attempts Δ
    ∧ ∀ (t : nat) c, [0; 0; 0] !! t = Some c →
        ∃ k, 0 ≤ k
             ∧ json_producer.sequences (Z.of_nat t) (attempts Δ) = seqZ (c + 1) k
             ∧ json_producer.sequences (Z.of_nat t) (delivered Δ)
               `sublist_of` json_producer.sequences (Z.of_nat t) (attempts Δ)
             ∧ StronglySorted Z.lt (json_producer.sequences (Z.of_nat t) (delivered Δ))
             ∧ ∀ n', (iterate 3 (json_producer.emission mixed motors_json half)
                        [0; 0; 0] genesis).1 = Ok n' →
                     n' !! t = Some (c + k).
Proof.
  exact (proj1 (counters_increase_type_by_type mixed 3) motors_json half [0; 0; 0]
           genesis eq_refl).
Defined.

(** C8. Every record that [json_producer.py] hands over is one object
    with a type and a value: of type 1, the value is a whole number of
    0..255; of another type, the value is at least -1000 and below 1000.
    This holds of the loop, from any three counters and however long it
    runs, and of a whole run of the script, from its first line on and
    however it ends. *)
Theorem values_are_in_the_range_of_their_type (env : environment)
    (a : json_producer.args) :
  (∀ (s : float.t) (N : nat) (n : list Z) (w : world),
     length n = 3%nat →
     ∃ Δ, history (iterate N (json_producer.emission env a s) n w).2 = history w ++ Δ
          ∧ Forall (λ data,
                    ∃ (t : Z) (v : float.t),
                      field "msg_type" data = Some (PyInt t)
                      ∧ field "value" data = Some (PyFloat v)
                      ∧ (t = 1 → ∃ z, 0 ≤ z ≤ 255 ∧ float.whole v z)
                      ∧ (t ≠ 1 → float.within (-1000) 1000 v))
                   (attempts Δ))
  ∧ (∀ (fuel : nat) (w : world),
     ∃ Δ, history (json_producer.main env fuel a w).2 = history w ++ Δ
          ∧ Forall (λ data,
                    ∃ (t : Z) (v : float.t),
                      field "msg_type" data = Some (PyInt t)
                      ∧ field "value" data = Some (PyFloat v)
                      ∧ (t = 1 → ∃ z, 0 ≤ z ≤ 255 ∧ float.whole v z)
                      ∧ (t ≠ 1 → float.within (-1000) 1000 v))
                   (attempts Δ)).
Proof.
  assert (Hfields : ∀ data, json_producer.well_formed data →
            ∃ (t : Z) (v : float.t),
              field "msg_type" data = Some (PyInt t)
              ∧ field "value" data = Some (PyFloat v)
              ∧ (t = 1 → ∃ z, 0 ≤ z ≤ 255 ∧ float.whole v z)
              ∧ (t ≠ 1 → float.within (-1000) 1000 v)).
  { intros data (t & v & c & ts & -> & Ht & Hrange). exists t, v.
    unfold field, json_producer.sample. split_and!.
    - rewrite !lookup_insert_ne, lookup_insert_eq by done; done.
    - rewrite !lookup_insert_ne, lookup_insert_eq by done; done.
    - intros ->. exact Hrange.
    - intros Hne. unfold json_producer.range_contract in Hrange.
      by destruct (Z.eqb_spec t 1). }
  split.
  - intros s N n w Hn.
    destruct (json_emission_loop_records env a s N n w Hn) as (Δ & HΔ & Hwf).
    exists Δ. split; [done|]. eapply Forall_impl; [exact Hwf|exact Hfields].
  - intros fuel w.
    destruct (json_main_records env fuel a w) as (Δ & HΔ & Hwf).
    exists Δ. split; [done|]. eapply Forall_impl; [exact Hwf|exact Hfields].
Qed.

Lemma values_are_in_the_range_of_their_type_witness :
  ∃ Δ, history (iterate 3 (json_producer.emission mixed motors_json half)
                  [0; 0; 0] genesis).2 = history genesis ++ Δ
       ∧ Forall (λ data,
                 ∃ (t : Z) (v : float.t),
                   field "msg_type" data = Some (PyInt t)
                   ∧ field "value" data = Some (PyFloat v)
                   ∧ (t = 1 → ∃ z, 0 ≤ z ≤ 255 ∧ float.whole v z)
                   ∧ (t ≠ 1 → float.within (-1000) 1000 v))
                (attempts Δ).
Proof.
  exact (proj1 (values_are_in_the_range_of_their_type mixed motors_json)
           half 3%nat [0; 0; 0] genesis eq_refl).
Defined.

(** C9. In [data_producer.py] the objects are made once, before the
    loop: object [i] has type 3, an encoder value of -180..179, a motor
    value of -255..255, the encoder counter [100 * i].  Every record that
    the loop hands over, whatever the period, however many iterations it
    runs and however it ends, has as many objects as there are at the
    start of the loop, and each is the object of the start but for its
    timestamp and its motor counter; so the four fields are, in every
    record, those of the start. *)
Theorem fields_of_the_start_are_kept (env : environment)
    (a : data_producer.args) (w : world) :
  let m := Z.to_nat (data_producer.objects_per_message a) in
  let objects := data_producer.fresh_at env (asked w) <$> seq 0 m in
  data_producer.create_objects env a w
  = (Ok objects, {| asked := (asked w + 3 * m)%nat; history := history w |})
  ∧ (∀ (i : nat) obj, objects !! i = Some obj →
       obj !! "msg_type" = Some (PyInt 3)
       ∧ (∃ encoder, obj !! "encoder" = Some (PyInt encoder) ∧ -180 ≤ encoder < 180)
       ∧ (∃ motor, obj !! "motor" = Some (PyInt motor) ∧ -255 ≤ motor < 256)
       ∧ obj !! "encoder_counter" = Some (PyInt (Z.of_nat i * 100)))
  ∧ ∀ (s : float.t) (N : nat) (counter : Z) (w1 : world),
      ∃ Δ,
        history (iterate N (data_producer.emission env a s) (objects, counter) w1).2
        = history w1 ++ Δ
        ∧ Forall (data_producer.restamped objects) (attempts Δ)
        ∧ Forall (λ data,
                  ∀ key, key ∈ ["msg_type"; "encoder"; "motor"; "encoder_counter"] →
                         fields key data = (λ obj : dict, obj !! key) <$> objects)
                 (attempts Δ).
Proof.
  intros m objects.
  split; [apply create_objects_run|]. split.
  - intros i obj Hobj. subst objects.
    rewrite list_lookup_fmap in Hobj.
    destruct (seq 0 m !! i) as [j|] eqn:Hj; [|done].
    apply lookup_seq in Hj as [-> _]. cbn in Hobj. simplify_eq.
    unfold data_producer.fresh_at, data_producer.fresh_object. split_and!.
    + rewrite !lookup_insert_ne, lookup_insert_eq by done; done.
    + eexists. split; [rewrite !lookup_insert_ne, lookup_insert_eq by done; done|].
      pose proof (Z.mod_pos_bound (entropy env (asked w + 3 * i)%nat) 360 ltac:(lia)). lia.
    + eexists. split; [rewrite !lookup_insert_ne, lookup_insert_eq by done; done|].
      pose proof (Z.mod_pos_bound (entropy env (asked w + 3 * i + 1)%nat) 511 ltac:(lia)). lia.
    + rewrite !lookup_insert_ne, lookup_insert_eq by done; done.
  - intros s N counter w1.
    assert (Hlen : length objects = Z.to_nat (data_producer.objects_per_message a)).
    { subst objects. by rewrite length_fmap, length_seq. }
    destruct (data_emission_loop_trace env a s N objects counter w1 Hlen)
      as (Δ & k & HΔ & _ & Hre & _).
    exists Δ. split; [done|]. split; [done|].
    eapply Forall_impl; [exact Hre|]. intros data Hdata key Hkey.
    repeat (apply elem_of_cons in Hkey as [->|Hkey]; [by apply restamped_fields|]).
    by apply elem_of_nil in Hkey.
Qed.

Lemma fields_of_the_start_are_kept_witness :
  data_producer.create_objects mixed motors_data genesis
  = (Ok (data_producer.fresh_at mixed 0 <$> seq 0 2),
     {| asked := 6; history := [] |}).
Proof. exact (proj1 (fields_of_the_start_are_kept mixed motors_data genesis)). Defined.

(** C10. The type of a sample is 0, 1 or 2 whatever the random generator
    draws; so, the list of counters having its three elements, the making
    of the object raises nothing: the counter of the type is there and is
    incremented, the other two are left, and the object has its type, its
    value and its sequence number, which is the new counter. *)
Theorem sample_type_indexes_the_counters (env : environment) (n : list Z) (w : world) :
  length n = 3%nat →
  (∀ r : Z, 0 ≤ json_producer.msg_type_of r ≤ 2)
  ∧ ∃ (t c : Z) (v : float.t) (obj : dict) (w' : world),
      json_producer.create_object env n w = (Ok (obj, <[Z.to_nat t := c + 1]> n), w')
      ∧ 0 ≤ t ≤ 2
      ∧ n !! Z.to_nat t = Some c
      ∧ length (<[Z.to_nat t := c + 1]> n) = 3%nat
      ∧ obj !! "msg_type" = Some (PyInt t)
      ∧ obj !! "value" = Some (PyFloat v)
      ∧ obj !! "sequence" = Some (PyInt (c + 1)).
Proof.
  intros Hn. split.
  { intros r. destruct (msg_type_of_cases r) as [->|[->| ->]]; lia. }
  destruct (json_create_object_run env n w Hn) as (t & c & v & Ht & Hc & _ & Hrun).
  eexists t, c, v, _, _. split; [exact Hrun|]. unfold json_producer.sample. split_and!.
  - destruct (msg_type_of_cases (1 + entropy env (asked w) `mod` 501)); lia.
  - destruct (msg_type_of_cases (1 + entropy env (asked w) `mod` 501)); lia.
  - done.
  - by rewrite length_insert.
  - rewrite !lookup_insert_ne, lookup_insert_eq by done; done.
  - rewrite !lookup_insert_ne, lookup_insert_eq by done; done.
  - rewrite !lookup_insert_ne, lookup_insert_eq by done; done.
Qed.

Lemma sample_type_indexes_the_counters_witness :
  ∃ (t c : Z) (v : float.t) (obj : dict) (w' : world),
    json_producer.create_object mixed [0; 0; 0] genesis
    = (Ok (obj, <[Z.to_nat t := c + 1]> [0; 0; 0]), w')
    ∧ 0 ≤ t ≤ 2
    ∧ [0; 0; 0] !! Z.to_nat t = Some c
    ∧ length (<[Z.to_nat t := c + 1]> [0; 0; 0]) = 3%nat
    ∧ obj !! "msg_type" = Some (PyInt t)
    ∧ obj !! "value" = Some (PyFloat v)
    ∧ obj !! "sequence" = Some (PyInt (c + 1)).
Proof.
  exact (proj2 (sample_type_indexes_the_counters mixed [0; 0; 0] genesis eq_refl)).
Defined.

(** * Further properties of the scripts *)

(** X1. The first loop of [wait_for_stream] asks again, at once, after a
    response without status or a [KeyError]: after [j] such replies and
    one with a status, it has sent [j + 1] describe requests, printed
    nothing and slept not at all, and goes on to the second loop with
    that status.  When no reply ever carries a status the loop goes on
    for ever, one request after the other, without a sleep. *)
Theorem missing_status_is_asked_again_at_once (env : environment)
    (fuel : nat) (name : string) (w : world) :
  (∀ (j : nat) (s : string),
     (∀ i, (i < j)%nat → unanswered (backend env (asked w + i)%nat)) →
     backend env (asked w + j)%nat = Returns (status s) →
     (j < fuel)%nat →
     wait_for_stream env fuel name 3 w
     = wait_for_active env fuel name s 3
         {| asked := (asked w + S j)%nat;
            history := history w ++ lookups env name (asked w) (S j) |})
  ∧ ((∀ i, unanswered (backend env (asked w + i)%nat)) →
     wait_for_stream env fuel name 3 w
     = (Diverged, {| asked := (asked w + fuel)%nat;
                     history := history w ++ lookups env name (asked w) fuel |})).
Proof.
  split.
  - intros j s Hun Hrp Hfuel. unfold wait_for_stream, bind.
    by rewrite (wait_for_description_spin env j fuel name s w Hun Hrp Hfuel).
  - intros Hun. unfold wait_for_stream, bind.
    by rewrite (wait_for_description_spins env fuel name w Hun).
Qed.

Lemma missing_status_is_asked_again_at_once_witness :
  wait_for_stream mute 5 "motors" 3 genesis
  = (Ok tt,
     {| asked := 3;
        history := [Called (DescribeStream "motors") (Returns {| StreamStatus := None |});
                    Called (DescribeStream "motors") (Raises (KeyError "StreamDescription"));
                    Called (DescribeStream "motors") (Returns (status "ACTIVE"))] |}).
Proof.
  refine (proj1 (missing_status_is_asked_again_at_once mute 5 "motors" genesis)
            2%nat "ACTIVE" _ _ _).
  - intros [|[|i]] Hi; [by exists "StreamStatus"|by exists "StreamDescription"|lia].
  - reflexivity.
  - lia.
Defined.

(** X2. [wait_for_stream] handles nothing but the [KeyError] of its first
    loop.  An other exception of the first describe request leaves the
    function at once.  In the second loop every failure leaves it, also a
    response without status: after the line of the status and the sleep,
    the failed describe request is the last thing done. *)
Theorem failed_poll_ends_the_wait (env : environment)
    (fuel : nat) (name : string) (w : world) (e : exn) :
  (lookup_error (backend env (asked w)) = Some e →
   (∀ key, e ≠ KeyError key) →
   wait_for_stream env (S fuel) name 3 w
   = (Raised e,
      {| asked := S (asked w);
         history := history w ++ [Called (DescribeStream name) (backend env (asked w))] |}))
  ∧ (∀ current : string,
       backend env (asked w) = Returns (status current) →
       current ≠ "ACTIVE" →
       lookup_error (backend env (S (asked w))) = Some e →
       wait_for_stream env (S fuel) name 3 w
       = (Raised e,
          {| asked := S (S (asked w));
             history := history w
               ++ [Called (DescribeStream name) (Returns (status current));
                   Printed (MsgStatusSleeping name current 3);
                   Slept (float.of_int 3);
                   Called (DescribeStream name) (backend env (S (asked w)))] |})).
Proof.
  split.
  - intros Herr Hkey. unfold wait_for_stream, bind.
    cbn [wait_for_description]. unfold try_except. rewrite describe_status_run.
    destruct (backend env (asked w)) as [body|e0]; cbn in Herr.
    + destruct (StreamStatus body); simplify_eq. by destruct (Hkey "StreamStatus").
    + simplify_eq. destruct e; try done. by destruct (Hkey key).
  - intros current Hrp Hcur Herr. unfold wait_for_stream, bind.
    rewrite (wait_for_description_answered env fuel name current w Hrp).
    rewrite wait_for_active_step by done. cbn [asked history]. cbn zeta.
    rewrite <- app_assoc. cbn [app].
    destruct (backend env (S (asked w))) as [body|e0]; cbn in Herr.
    + destruct (StreamStatus body); by simplify_eq.
    + by simplify_eq.
Qed.

Lemma failed_poll_ends_the_wait_witness :
  wait_for_stream interrupted 5 "motors" 3 {| asked := 1; history := [] |}
  = (Raised (ClientError "LimitExceededException"),
     {| asked := 3;
        history := [Called (DescribeStream "motors") (Returns (status "CREATING"));
                    Printed (MsgStatusSleeping "motors" "CREATING" 3);
                    Slept (float.of_int 3);
                    Called (DescribeStream "motors")
                           (Raises (ClientError "LimitExceededException"))] |}).
Proof.
  refine (proj2 (failed_poll_ends_the_wait interrupted 4 "motors" {| asked := 1; history := [] |}
                   (ClientError "LimitExceededException")) "CREATING" _ _ _).
  - reflexivity.
  - done.
  - reflexivity.
Defined.

(** X3. When the first lookup answers a status that is neither DELETING
    nor ACTIVE, [connect_to_stream] waits for the stream: it asks again
    at once, then polls every three seconds; when the statuses lead to
    ACTIVE it returns [True] after exactly those polls, and has sent no
    create request. *)
Theorem pending_stream_is_awaited (env : environment)
    (fuel : nat) (name s0 current : string) (pending : list string) (w : world) :
  backend env (asked w) = Returns (status s0) →
  s0 ≠ "DELETING" → s0 ≠ "ACTIVE" →
  leads_to_active current pending →
  (∀ (i : nat) s, (current :: pending) !! i = Some s →
                  backend env (S (asked w) + i)%nat = Returns (status s)) →
  (length pending < fuel)%nat →
  let Δ := [Called (DescribeStream name) (Returns (status s0));
            Called (DescribeStream name) (Returns (status current))]
           ++ poll_events name current pending in
  connect_to_stream env fuel name w
  = (Ok true, {| asked := (S (asked w) + S (length pending))%nat;
                 history := history w ++ Δ |})
  ∧ creations Δ = [].
Proof.
  intros Hrp Hdel Hact Hlead Hanswers Hfuel Δ. split.
  - rewrite (connect_pending env fuel name s0) by done. cbn zeta.
    rewrite (wait_for_stream_progress env current pending fuel name); try done.
    cbn [asked history]. subst Δ. by rewrite <- !app_assoc.
  - subst Δ. rewrite creations_app.
    by rewrite (polls_creations name _ (poll_events_polls name pending current)).
Qed.

Lemma pending_stream_is_awaited_witness :
  connect_to_stream updating 5 "motors" genesis
  = (Ok true,
     {| asked := 3;
        history := [Called (DescribeStream "motors") (Returns (status "UPDATING"));
                    Called (DescribeStream "motors") (Returns (status "UPDATING"));
                    Printed (MsgStatusSleeping "motors" "UPDATING" 3);
                    Slept (float.of_int 3);
                    Called (DescribeStream "motors") (Returns (status "ACTIVE"))] |}).
Proof.
  refine (proj1 (pending_stream_is_awaited updating 5 "motors" "UPDATING" "UPDATING" ["ACTIVE"]
                   genesis _ _ _ _ _ _)).
  - reflexivity.
  - done.
  - done.
  - cbn. by split.
  - intros [|[|i]] s; cbn; intros [= <-]; reflexivity.
  - cbn. lia.
Defined.

(** X4. The [except:] of [connect_to_stream] also catches what the wait
    for a stream that exists raises: when the first lookup answers a
    status that is neither DELETING nor ACTIVE and the wait that follows
    fails, the stream is taken to be absent and the next request is the
    create request, with one shard; nothing but polling follows. *)
Theorem interrupted_wait_is_taken_for_absence (env : environment)
    (fuel : nat) (name s0 : string) (w w2 : world) (e : exn) :
  backend env (asked w) = Returns (status s0) →
  s0 ≠ "DELETING" → s0 ≠ "ACTIVE" →
  wait_for_stream env fuel name 3
    {| asked := S (asked w);
       history := history w ++ [Called (DescribeStream name) (Returns (status s0))] |}
  = (Raised e, w2) →
  ∃ Δ, history (connect_to_stream env fuel name w).2
       = history w2
         ++ [Printed (MsgCreating name);
             Called (CreateStream name 1) (backend env (asked w2))]
         ++ Δ
       ∧ Forall (polls name) Δ.
Proof.
  intros Hrp Hdel Hact Hwait.
  rewrite (connect_pending env fuel name s0) by done. cbn zeta. rewrite Hwait.
  destruct (backend env (asked w2)) as [body|e'].
  - match goal with |- context [wait_for_stream env fuel name 3 ?w3] =>
      destruct (wait_for_stream_safe env fuel name w3) as (Δ & HΔ & Hp & _);
      destruct (wait_for_stream env fuel name 3 w3) as [[[]| |] w4] end;
      cbn [fst snd history] in *.
    all: exists Δ; by rewrite HΔ, <- !app_assoc.
  - exists []. cbn [snd history]. by rewrite app_nil_r.
Qed.

Lemma interrupted_wait_is_taken_for_absence_witness :
  ∃ Δ, history (connect_to_stream interrupted 5 "motors" genesis).2
       = [Called (DescribeStream "motors") (Returns (status "CREATING"));
          Called (DescribeStream "motors") (Returns (status "CREATING"));
          Printed (MsgStatusSleeping "motors" "CREATING" 3);
          Slept (float.of_int 3);
          Called (DescribeStream "motors") (Raises (ClientError "LimitExceededException"))]
         ++ [Printed (MsgCreating "motors");
             Called (CreateStream "motors" 1) (Raises (ClientError "ResourceInUseException"))]
         ++ Δ
       ∧ Forall (polls "motors") Δ.
Proof.
  exact (interrupted_wait_is_taken_for_absence interrupted 5 "motors" "CREATING" genesis
           {| asked := 3;
              history := [Called (DescribeStream "motors") (Returns (status "CREATING"));
                          Called (DescribeStream "motors") (Returns (status "CREATING"));
                          Printed (MsgStatusSleeping "motors" "CREATING" 3);
                          Slept (float.of_int 3);
                          Called (DescribeStream "motors")
                                 (Raises (ClientError "LimitExceededException"))] |}
           (ClientError "LimitExceededException")
           eq_refl ltac:(done) ltac:(done) eq_refl).
Defined.

(** X5. Whatever the backend answers, a call of [connect_to_stream] sends
    at most one create request; its requests are describe requests and
    that create request, all for the stream of its argument, the create
    request with one shard; it hands no record over. *)
Theorem stream_is_created_at_most_once (env : environment)
    (fuel : nat) (name : string) (w : world) :
  ∃ Δ, history (connect_to_stream env fuel name w).2 = history w ++ Δ
       ∧ (length (creations Δ) ≤ 1)%nat
       ∧ attempts Δ = []
       ∧ Forall (λ rq, rq = DescribeStream name ∨ rq = CreateStream name 1) (requests Δ).
Proof.
  destruct (connect_to_stream_shape env fuel name w)
    as (Δ1 & c & Δ2 & HΔ & Hp1 & Hp2 & Hc & _).
  eexists. split; [exact HΔ|].
  change (Called (DescribeStream name) (backend env (asked w)) :: Δ1 ++ c ++ Δ2)
    with ([Called (DescribeStream name) (backend env (asked w))] ++ Δ1 ++ c ++ Δ2).
  split_and!.
  - rewrite !creations_app, (polls_creations name Δ1 Hp1), (polls_creations name Δ2 Hp2).
    rewrite app_nil_r. cbn. by apply (decision_creations name).
  - rewrite !attempts_app, (polls_attempts name Δ1 Hp1), (polls_attempts name Δ2 Hp2).
    by rewrite (decision_attempts name c Hc).
  - rewrite !requests_app. repeat apply Forall_app_2.
    + cbn. constructor; [by left|constructor].
    + eapply Forall_impl; [by apply (polls_requests name)|]. intros rq ->. by left.
    + by apply decision_requests.
    + eapply Forall_impl; [by apply (polls_requests name)|]. intros rq ->. by left.
Qed.

(** X6. [connect_to_stream] returns [False] only when the first lookup
    answered DELETING, and [True] only when the last thing it did is a
    describe request that was answered ACTIVE. *)
Theorem ready_means_seen_active (env : environment) (fuel : nat) (name : string) (w : world) :
  ((connect_to_stream env fuel name w).1 = Ok false →
   backend env (asked w) = Returns (status "DELETING"))
  ∧ ((connect_to_stream env fuel name w).1 = Ok true →
     ∃ Δ, history (connect_to_stream env fuel name w).2
          = Δ ++ [Called (DescribeStream name) (Returns (status "ACTIVE"))]).
Proof.
  destruct (connect_to_stream_shape env fuel name w)
    as (Δ1 & c & Δ2 & _ & _ & _ & _ & Hfalse & Htrue).
  by split.
Qed.

Lemma ready_means_seen_active_witness :
  ∃ Δ, history (connect_to_stream creating 3 "motors" genesis).2
       = Δ ++ [Called (DescribeStream "motors") (Returns (status "ACTIVE"))].
Proof.
  exact (proj2 (ready_means_seen_active creating 3 "motors" genesis) eq_refl).
Defined.

(** X7. No handler stands around the [except:] of [connect_to_stream]:
    when the first lookup fails and the create request is refused with
    [e'], [connect_to_stream] raises [e'] after those two requests, and
    so does [main] in both scripts: the run ends there, no record sent. *)
Theorem refused_creation_ends_the_run (env : environment)
    (fuel : nat) (name : string) (w : world) (e e' : exn) :
  lookup_error (backend env (asked w)) = Some e →
  backend env (S (asked w)) = Raises e' →
  let Δ := [Called (DescribeStream name) (backend env (asked w));
            Printed (MsgCreating name);
            Called (CreateStream name 1) (Raises e')] in
  connect_to_stream env fuel name w
  = (Raised e', {| asked := S (S (asked w)); history := history w ++ Δ |})
  ∧ (∀ a : json_producer.args,
       json_producer.stream_name a = name →
       json_producer.main env fuel a w
       = (Raised e',
          {| asked := S (S (asked w));
             history := history w
               ++ Printed (MsgConnecting name (json_producer.region a)) :: Δ |}))
  ∧ (∀ a : data_producer.args,
       data_producer.stream_name a = name →
       data_producer.main env fuel a w
       = (Raised e',
          {| asked := S (S (asked w));
             history := history w
               ++ Printed (MsgConnecting name (data_producer.region a)) :: Δ |})).
Proof.
  intros Herr Hcreate Δ.
  assert (Hconnect : ∀ w0, asked w0 = asked w →
            connect_to_stream env fuel name w0
            = (Raised e', {| asked := S (S (asked w)); history := history w0 ++ Δ |})).
  { intros w0 Hw0. rewrite (connect_failed_lookup env fuel name w0 e) by (by rewrite Hw0).
    cbn zeta. by rewrite !Hw0, Hcreate. }
  split; [by apply Hconnect|]. split; intros a <-.
  - unfold json_producer.main, json_producer.connect_to_stream.
    unfold bind at 1. unfold print, observe at 1. unfold bind at 1.
    rewrite Hconnect by done. cbn [history]. by rewrite <- app_assoc.
  - unfold data_producer.main, data_producer.connect_to_stream.
    unfold bind at 1. unfold print, observe at 1. unfold bind at 1.
    rewrite Hconnect by done. cbn [history]. by rewrite <- app_assoc.
Qed.

Lemma refused_creation_ends_the_run_witness :
  json_producer.main throttled 5 motors_json genesis
  = (Raised (ClientError "ResourceInUseException"),
     {| asked := 2;
        history := [Printed (MsgConnecting "motors" "us-east-1");
                    Called (DescribeStream "motors")
                           (Raises (ClientError "LimitExceededException"));
                    Printed (MsgCreating "motors");
                    Called (CreateStream "motors" 1)
                           (Raises (ClientError "ResourceInUseException"))] |}).
Proof.
  exact (proj1 (proj2 (refused_creation_ends_the_run throttled 5 "motors" genesis
                         (ClientError "LimitExceededException")
                         (ClientError "ResourceInUseException") eq_refl eq_refl))
           motors_json eq_refl).
Defined.

(** X8. [main] returns only when the stream is being deleted: in both
    scripts, a run that ends without an exception began with a lookup
    that was answered DELETING.  (Otherwise the run ends with an
    exception or does not end.) *)
Theorem run_returns_only_when_deleting (env : environment) (fuel : nat) (w : world) :
  (∀ a : json_producer.args,
     (json_producer.main env fuel a w).1 = Ok tt →
     backend env (asked w) = Returns (status "DELETING"))
  ∧ (∀ a : data_producer.args,
       (data_producer.main env fuel a w).1 = Ok tt →
       backend env (asked w) = Returns (status "DELETING")).
Proof.
  split; intros a.
  - rewrite json_main_run.
    match goal with |- context [connect_to_stream env fuel ?name ?w0] =>
      destruct (connect_to_stream_shape env fuel name w0) as (_ & _ & _ & _ & _ & _ & _ & H & _);
      destruct (connect_to_stream env fuel name w0) as [[[|]|e|] w1] end;
      cbn [fst] in H; try done.
    + destruct (json_producer.sleep_s a) as [e|s]; [done|].
      intros Hok. by apply forever_outcome in Hok.
    + intros _. by apply H.
  - rewrite data_main_run.
    match goal with |- context [connect_to_stream env fuel ?name ?w0] =>
      destruct (connect_to_stream_shape env fuel name w0) as (_ & _ & _ & _ & _ & _ & _ & H & _);
      destruct (connect_to_stream env fuel name w0) as [[[|]|e|] w1] end;
      cbn [fst] in H; try done.
    + cbn zeta. destruct (data_producer.sleep_s a) as [e|s]; [done|].
      intros Hok. by apply forever_outcome in Hok.
    + intros _. by apply H.
Qed.

Lemma run_returns_only_when_deleting_witness :
  backend (steady (Returns (status "DELETING"))) (asked genesis)
  = Returns (status "DELETING").
Proof.
  exact (proj1 (run_returns_only_when_deleting (steady (Returns (status "DELETING"))) 5 genesis)
           motors_json eq_refl).
Defined.

(** X9. A run of either script has two phases.  The first, after the
    line that tells the connection, hands no record over and sends at
    most one create request.  The second is the emission: its requests
    are all put requests, to the stream of the command line and with the
    partition key of the script (["123"], ["SergiRamis"]).  Whenever the
    second phase has begun, the last event of the first is a describe
    request that was answered ACTIVE. *)
Theorem records_follow_an_active_answer (env : environment) (fuel : nat) (w : world) :
  (∀ a : json_producer.args,
     ∃ Δ, history (json_producer.main env fuel a w).2
          = history w
            ++ Printed (MsgConnecting (json_producer.stream_name a) (json_producer.region a))
               :: Δ
          ∧ phases (json_producer.stream_name a) "123" Δ)
  ∧ (∀ a : data_producer.args,
       ∃ Δ, history (data_producer.main env fuel a w).2
            = history w
              ++ Printed (MsgConnecting (data_producer.stream_name a) (data_producer.region a))
                 :: Δ
            ∧ phases (data_producer.stream_name a) "SergiRamis" Δ).
Proof. split; intros a; [apply json_main_phases|apply data_main_phases]. Qed.

(** X10. Once connected, [json_producer.py] with no period or a period
    from 0 to [2^30] ms does not stop by itself: whatever the backend
    answers, for every number of iterations the run completes them and is
    still in the loop.  It has printed the line of the period if, and
    only if, [--silent] was given; each iteration has sent one put
    request, then printed the line of the record (when the record was
    accepted and the script is not silent) or the two lines of the
    failure, then slept [sleep_s]: as many sleeps, all of that length, as
    iterations. *)
Theorem connected_json_run_goes_on (env : environment)
    (fuel : nat) (a : json_producer.args) (w w1 : world) :
  connect_to_stream env fuel (json_producer.stream_name a)
    {| asked := asked w;
       history := history w
         ++ [Printed (MsgConnecting (json_producer.stream_name a) (json_producer.region a))] |}
  = (Ok true, w1) →
  (∀ p, json_producer.period a = Some p → 0 ≤ p < 2 ^ 30) →
  ∃ s blocks,
    json_producer.sleep_s a = inr s
    ∧ json_producer.main env fuel a w
      = (Diverged,
         {| asked := (asked w1 + 4 * fuel)%nat;
            history := history w1
              ++ (if json_producer.silent a then [Printed (MsgSendingEvery s)] else [])
              ++ concat blocks |})
    ∧ length blocks = fuel
    ∧ Forall (json_iteration a s) blocks
    ∧ sleeps (concat blocks) = replicate fuel s.
Proof.
  intros Hconnect Hperiod.
  destruct (json_sleep_s_sleepable a Hperiod) as (s & Hsleep & Hs).
  rewrite json_main_run, Hconnect, Hsleep. unfold forever, bind.
  match goal with |- context [iterate fuel _ _ ?w2] =>
    destruct (json_emission_loop_blocks env a s fuel Hs [0; 0; 0] w2 eq_refl)
      as (n' & blocks & -> & Hlen & Hblocks) end.
  exists s, blocks. split_and!; try done.
  - unfold diverge. destruct (json_producer.silent a); cbn [asked history app]; [|done].
    by rewrite <- app_assoc.
  - rewrite <- Hlen.
    apply (sleeps_concat (json_iteration a s)); [apply sleeps_json_iteration|done].
Qed.

Lemma connected_json_run_goes_on_witness :
  ∃ s blocks,
    json_producer.sleep_s motors_json = inr s
    ∧ json_producer.main (steady (Returns (status "ACTIVE"))) 2 motors_json genesis
      = (Diverged,
         {| asked := (1 + 4 * 2)%nat;
            history := [Printed (MsgConnecting "motors" "us-east-1");
                        Called (DescribeStream "motors") (Returns (status "ACTIVE"))]
              ++ (if json_producer.silent motors_json then [Printed (MsgSendingEvery s)]
                  else [])
              ++ concat blocks |})
    ∧ length blocks = 2%nat
    ∧ Forall (json_iteration motors_json s) blocks
    ∧ sleeps (concat blocks) = replicate 2 s.
Proof.
  refine (connected_json_run_goes_on (steady (Returns (status "ACTIVE"))) 2 motors_json
            genesis
            {| asked := 1;
               history := [Printed (MsgConnecting "motors" "us-east-1");
                           Called (DescribeStream "motors") (Returns (status "ACTIVE"))] |}
            _ _).
  - reflexivity.
  - intros p [= <-]. lia.
Defined.

(** X11. Once connected, [data_producer.py] with no period or a period
    below [2^30] ms (a negative one too) does not stop by itself: after
    the objects are made, for every number of iterations the run
    completes them and is still in the loop.  Each iteration has sent one
    put request with as many objects as [--objects_per_message] says,
    printed nothing when the record was accepted and the two lines of the
    failure otherwise, then slept [sleep_s]. *)
Theorem connected_data_run_goes_on (env : environment)
    (fuel : nat) (a : data_producer.args) (w w1 : world) :
  connect_to_stream env fuel (data_producer.stream_name a)
    {| asked := asked w;
       history := history w
         ++ [Printed (MsgConnecting (data_producer.stream_name a) (data_producer.region a))] |}
  = (Ok true, w1) →
  (∀ p, data_producer.period a = Some p → p < 2 ^ 30) →
  let m := Z.to_nat (data_producer.objects_per_message a) in
  ∃ s blocks,
    data_producer.sleep_s a = inr s
    ∧ data_producer.main env fuel a w
      = (Diverged,
         {| asked := (asked w1 + 3 * m + fuel * S m)%nat;
            history := history w1 ++ concat blocks |})
    ∧ length blocks = fuel
    ∧ Forall (data_iteration a s) blocks
    ∧ sleeps (concat blocks) = replicate fuel s.
Proof.
  intros Hconnect Hperiod m.
  destruct (data_sleep_s_sleepable a Hperiod) as (s & Hsleep & Hs).
  rewrite data_main_run, Hconnect. cbn zeta. rewrite Hsleep. unfold forever, bind.
  match goal with |- context [iterate fuel _ (?objects, 0) ?w2] =>
    destruct (data_emission_loop_blocks env a s fuel Hs objects 0 w2)
      as (st' & blocks & -> & Hlen & Hblocks) end.
  { by rewrite length_fmap, length_seq. }
  exists s, blocks. split_and!; try done.
  - unfold diverge. cbn [asked history]. by rewrite length_fmap, length_seq.
  - rewrite <- Hlen.
    apply (sleeps_concat (data_iteration a s)); [apply sleeps_data_iteration|done].
Qed.

Lemma connected_data_run_goes_on_witness :
  ∃ s blocks,
    data_producer.sleep_s motors_data = inr s
    ∧ data_producer.main (steady (Returns (status "ACTIVE"))) 2 motors_data genesis
      = (Diverged,
         {| asked := (1 + 3 * 2 + 2 * 3)%nat;
            history := [Printed (MsgConnecting "motors" "us-east-1");
                        Called (DescribeStream "motors") (Returns (status "ACTIVE"))]
              ++ concat blocks |})
    ∧ length blocks = 2%nat
    ∧ Forall (data_iteration motors_data s) blocks
    ∧ sleeps (concat blocks) = replicate 2 s.
Proof.
  refine (connected_data_run_goes_on (steady (Returns (status "ACTIVE"))) 2 motors_data
            genesis
            {| asked := 1;
               history := [Printed (MsgConnecting "motors" "us-east-1");
                           Called (DescribeStream "motors") (Returns (status "ACTIVE"))] |}
            _ _).
  - reflexivity.
  - intros p [= <-]. lia.
Defined.

(** X12. A negative period, down to [-2^30] ms: [json_producer.py]
    divides it by 1000 and hands the negative quotient to [time.sleep],
    which refuses it: once connected, the run ends with [ValueError] in
    its first iteration, after the put request and the lines that tell
    its course.  [data_producer.py] makes the same period a sleep of
    0.0. *)
Theorem negative_period_ends_the_json_run (env : environment)
    (fuel : nat) (a : json_producer.args) (p : Z) (w w1 : world) :
  json_producer.period a = Some p → - 2 ^ 30 < p < 0 →
  connect_to_stream env (S fuel) (json_producer.stream_name a)
    {| asked := asked w;
       history := history w
         ++ [Printed (MsgConnecting (json_producer.stream_name a) (json_producer.region a))] |}
  = (Ok true, w1) →
  (∃ s,
     json_producer.sleep_s a = inr s
     ∧ float.ltb s float.zero = true
     ∧ ∃ t v c ts,
         let rp := backend env (S (S (S (asked w1)))) in
         json_producer.main env (S fuel) a w
         = (Raised (ValueError "sleep length must be non-negative"),
            {| asked := S (S (S (S (asked w1))));
               history := history w1
                 ++ (if json_producer.silent a then [Printed (MsgSendingEvery s)] else [])
                 ++ Called (PutRecord (json_producer.stream_name a)
                                      (JObject (json_producer.sample t v c ts)) "123") rp
                    :: json_producer.aftermath a t v c ts rp |}))
  ∧ (∀ a' : data_producer.args,
       data_producer.period a' = Some p → data_producer.sleep_s a' = inr float.zero).
Proof.
  intros Hperiod Hp Hconnect. split.
  - destruct (json_sleep_s_negative a p Hperiod Hp) as (s & n & Hsleep & Hneg & Hns & Hn).
    exists s. split; [done|]. split; [done|].
    rewrite json_main_run, Hconnect, Hsleep. unfold forever. cbn [iterate].
    unfold bind at 1. unfold bind at 1.
    match goal with |- context [json_producer.emission env a s ?n0 ?w2] =>
      destruct (json_emission_run env a s n0 w2 eq_refl) as (t & c & v & _ & _ & _ & Hrun) end.
    cbn zeta in Hrun. rewrite (refusal_negative env s n _ Hns Hn) in Hrun.
    rewrite Hrun. clear Hrun.
    eexists t, v, (c + 1), _. cbn zeta.
    destruct (json_producer.silent a); cbn [asked history app]; [|done].
    by rewrite <- app_assoc.
  - intros a' Hperiod'. unfold data_producer.sleep_s. rewrite Hperiod'.
    by destruct (Z.ltb_spec p 0); [|lia].
Qed.

Lemma negative_period_ends_the_json_run_witness :
  ∃ s,
    json_producer.sleep_s backwards = inr s
    ∧ float.ltb s float.zero = true
    ∧ ∃ t v c ts,
        json_producer.main (steady (Returns (status "ACTIVE"))) 1 backwards genesis
        = (Raised (ValueError "sleep length must be non-negative"),
           {| asked := 5;
              history :=
                [Printed (MsgConnecting "motors" "us-east-1");
                 Called (DescribeStream "motors") (Returns (status "ACTIVE"))]
                ++ (if json_producer.silent backwards then [Printed (MsgSendingEvery s)]
                    else [])
                ++ Called (PutRecord "motors" (JObject (json_producer.sample t v c ts)) "123")
                          (Returns (status "ACTIVE"))
                   :: json_producer.aftermath backwards t v c ts (Returns (status "ACTIVE")) |}).
Proof.
  refine (proj1 (negative_period_ends_the_json_run (steady (Returns (status "ACTIVE"))) 0
                   backwards (-1) genesis
                   {| asked := 1;
                      history := [Printed (MsgConnecting "motors" "us-east-1");
                                  Called (DescribeStream "motors")
                                         (Returns (status "ACTIVE"))] |} _ _ _)).
  - reflexivity.
  - lia.
  - reflexivity.
Defined.

(** X13. The type of a sample as a function of the draw: of the 501
    values of [random.randint(1, 501)], the first 400 give type 0, the
    next 100 type 1 and the last one, 501, type 2. *)
Theorem type_is_drawn_by_weight (env : environment) (n : list Z) (w : world) :
  length n = 3%nat →
  let r := entropy env (asked w) `mod` 501 in
  ∃ obj n' w',
    json_producer.create_object env n w = (Ok (obj, n'), w')
    ∧ 0 ≤ r < 501
    ∧ obj !! "msg_type" = Some (PyInt (if r <? 400 then 0 else if r <? 500 then 1 else 2)).
Proof.
  intros Hn r.
  destruct (json_create_object_run env n w Hn) as (t & c & v & Ht & _ & _ & Hrun).
  eexists _, _, _. split; [exact Hrun|]. split.
  { apply Z.mod_pos_bound. lia. }
  unfold json_producer.sample. rewrite !lookup_insert_ne, lookup_insert_eq by done.
  rewrite Ht. fold r. unfold json_producer.msg_type_of. do 2 f_equal.
  destruct (Z.ltb_spec r 400), (Z.ltb_spec (1 + r) 401); try lia.
  destruct (Z.ltb_spec r 500), (Z.ltb_spec (1 + r) 501); lia.
Qed.

Lemma type_is_drawn_by_weight_witness :
  ∃ obj n' w',
    json_producer.create_object (steady (Returns (status "ACTIVE"))) [0; 0; 0]
      {| asked := 500; history := [] |} = (Ok (obj, n'), w')
    ∧ 0 ≤ (500 * 7919) `mod` 501 < 501
    ∧ obj !! "msg_type"
      = Some (PyInt (if (500 * 7919) `mod` 501 <? 400 then 0
                     else if (500 * 7919) `mod` 501 <? 500 then 1 else 2)).
Proof.
  exact (type_is_drawn_by_weight (steady (Returns (status "ACTIVE"))) [0; 0; 0]
           {| asked := 500; history := [] |} eq_refl).
Defined.

(** X14. The value of a sample of type 1 is the integer part of
    [256 * u], as a float, where [u = k / 2^53] is what [random.random()]
    returned: it is [z], one of 0..255, exactly when [k] is one of the
    [2^45] integers from [z * 2^45] on; so each of the 256 values comes
    from as many of the [2^53] results of [random.random()]. *)
Theorem integer_like_value_is_uniform (env : environment) (n : list Z) (w : world) :
  length n = 3%nat →
  json_producer.msg_type_of (1 + entropy env (asked w) `mod` 501) = 1 →
  let k := entropy env (S (asked w)) `mod` 2 ^ 53 in
  ∃ obj n' w',
    json_producer.create_object env n w = (Ok (obj, n'), w')
    ∧ obj !! "value" = Some (PyFloat (float.of_int (k / 2 ^ 45)))
    ∧ 0 ≤ k / 2 ^ 45 ≤ 255
    ∧ ∀ z, 0 ≤ z ≤ 255 →
        (float.of_int (k / 2 ^ 45) = float.of_int z ↔ z * 2 ^ 45 ≤ k < (z + 1) * 2 ^ 45).
Proof.
  intros Hn Ht k.
  destruct (json_create_object_integer_like env n w Hn Ht) as (c & _ & Hrun).
  pose proof (Z.mod_pos_bound (entropy env (S (asked w))) (2 ^ 53) ltac:(lia)) as Hk.
  fold k in Hrun, Hk.
  assert (Hi : 0 ≤ k / 2 ^ 45 ≤ 255).
  { split; [apply Z.div_pos; lia|].
    assert (k / 2 ^ 45 < 256); [apply Z.div_lt_upper_bound|]; lia. }
  eexists _, _, _. split; [exact Hrun|]. split_and!; [|lia|lia|].
  { unfold json_producer.sample. by rewrite !lookup_insert_ne, lookup_insert_eq by done. }
  intros z Hz.
  assert (Hquot : k / 2 ^ 45 = z ↔ z * 2 ^ 45 ≤ k < (z + 1) * 2 ^ 45).
  { pose proof (Z.div_mod k (2 ^ 45) ltac:(lia)) as Hdm.
    pose proof (Z.mod_pos_bound k (2 ^ 45) ltac:(lia)) as Hr.
    generalize dependent (k / 2 ^ 45). generalize dependent (k `mod` 2 ^ 45).
    intros; nia. }
  rewrite <- Hquot. split; [|by intros ->].
  intros E.
  assert (Hsmall : ∀ i, 0 ≤ i ≤ 255 → 0 ≤ i < 2 ^ 53) by lia.
  pose proof (proj2 (of_int_small (k / 2 ^ 45) (Hsmall _ Hi))) as H1.
  pose proof (proj2 (of_int_small z (Hsmall _ Hz))) as H2.
  rewrite E, H2 in H1. simplify_eq. lia.
Qed.

Lemma integer_like_value_is_uniform_witness :
  ∃ obj n' w',
    json_producer.create_object mixed [0; 0; 0] {| asked := 8; history := [] |}
    = (Ok (obj, n'), w')
    ∧ obj !! "value" = Some (PyFloat (float.of_int (400 `mod` 2 ^ 53 / 2 ^ 45)))
    ∧ 0 ≤ 400 `mod` 2 ^ 53 / 2 ^ 45 ≤ 255
    ∧ ∀ z, 0 ≤ z ≤ 255 →
        (float.of_int (400 `mod` 2 ^ 53 / 2 ^ 45) = float.of_int z
         ↔ z * 2 ^ 45 ≤ 400 `mod` 2 ^ 53 < (z + 1) * 2 ^ 45).
Proof.
  exact (integer_like_value_is_uniform mixed [0; 0; 0] {| asked := 8; history := [] |}
           eq_refl eq_refl).
Defined.

(** X15. With [--objects_per_message] 0 or negative, [data_producer.py]
    makes no object and asks the random generator nothing, and yet, with
    no period or a period below [2^30] ms, goes on: every iteration sends
    the empty list as its record, leaves the counter as it is and
    sleeps. *)
Theorem empty_batch_is_sent_all_the_same (env : environment)
    (a : data_producer.args) (counter : Z) (w : world) :
  data_producer.objects_per_message a ≤ 0 →
  (∀ p, data_producer.period a = Some p → p < 2 ^ 30) →
  ∃ s,
    data_producer.sleep_s a = inr s
    ∧ data_producer.create_objects env a w = (Ok [], w)
    ∧ data_producer.emission env a s ([], counter) w
      = (Ok ([], counter),
         {| asked := S (asked w);
            history := history w
              ++ Called (PutRecord (data_producer.stream_name a) (JArray []) "SergiRamis")
                        (backend env (asked w))
                 :: data_producer.aftermath a (backend env (asked w)) ++ [Slept s] |}).
Proof.
  intros Hopm Hperiod.
  destruct (data_sleep_s_sleepable a Hperiod) as (s & Hsleep & Hs).
  assert (Hm : Z.to_nat (data_producer.objects_per_message a) = 0%nat) by lia.
  exists s. split; [done|]. split.
  - rewrite create_objects_run. cbn zeta. rewrite Hm. cbn.
    rewrite Nat.add_0_r. by destruct w.
  - pose proof (data_emission_run env a s [] counter w) as Hrun.
    cbn zeta in Hrun. rewrite (refusal_sleepable env s _ Hs) in Hrun.
    rewrite Hrun by (by rewrite Hm).
    cbn [imap length]. rewrite Nat.add_0_r, Z.add_0_r. reflexivity.
Qed.

Lemma empty_batch_is_sent_all_the_same_witness :
  ∃ s,
    data_producer.sleep_s hollow = inr s
    ∧ data_producer.create_objects mixed hollow genesis = (Ok [], genesis)
    ∧ data_producer.emission mixed hollow s ([], 7) genesis
      = (Ok ([], 7),
         {| asked := 1;
            history := history genesis
              ++ Called (PutRecord "motors" (JArray []) "SergiRamis")
                        (Returns {| StreamStatus := None |})
                 :: data_producer.aftermath hollow (Returns {| StreamStatus := None |})
                 ++ [Slept s] |}).
Proof.
  refine (empty_batch_is_sent_all_the_same mixed hollow 7 genesis _ _).
  - cbn. lia.
  - intros p [=].
Defined.

(** X16. In every iteration of [data_producer.py] each object of the
    record is stamped anew: object [j] carries the time read for it in
    this iteration, one reading per object and in the order of the
    objects, and the motor counter [counter + j]; no timestamp of an
    earlier iteration or of the start is sent again. *)
Theorem every_object_is_stamped_anew (env : environment)
    (a : data_producer.args) (s : float.t) (objects : list dict) (counter : Z) (w : world) :
  length objects = Z.to_nat (data_producer.objects_per_message a) →
  ∃ data,
    attempts (history (data_producer.emission env a s (objects, counter) w).2)
    = attempts (history w) ++ [data]
    ∧ fields "timestamp" data
      = (λ j, Some (PyStr (clock env (asked w + j)%nat))) <$> seq 0 (length objects)
    ∧ fields "motor_counter" data
      = (λ j, Some (PyInt (counter + Z.of_nat j))) <$> seq 0 (length objects).
Proof.
  intros Hlen. pose proof (data_emission_run env a s objects counter w Hlen) as Hrun.
  cbn zeta in Hrun. rewrite Hrun. clear Hrun.
  set (rp := backend env (asked w + length objects)%nat).
  exists (JArray (imap (λ j, data_producer.stamped (clock env (asked w + j)%nat)
                               (counter + Z.of_nat j)) objects)).
  split_and!.
  - destruct (refusal env s _); cbn [snd history]; rewrite attempts_app; f_equal.
    + rewrite <- (app_nil_r (data_producer.aftermath a rp)).
      by rewrite attempts_data_emission.
    + by rewrite <- app_comm_cons, attempts_data_emission.
  - apply fields_imap. intros j o _. unfold data_producer.stamped.
    by rewrite lookup_insert_ne, lookup_insert_eq by done.
  - apply fields_imap. intros j o _. unfold data_producer.stamped.
    by rewrite lookup_insert_eq.
Qed.

Lemma every_object_is_stamped_anew_witness :
  ∃ data,
    attempts (history (data_producer.emission mixed motors_data half ([∅; ∅], 5) genesis).2)
    = attempts (history genesis) ++ [data]
    ∧ fields "timestamp" data
      = (λ j, Some (PyStr (clock mixed (asked genesis + j)%nat))) <$> seq 0 2
    ∧ fields "motor_counter" data
      = (λ j, Some (PyInt (5 + Z.of_nat j))) <$> seq 0 2.
Proof.
  exact (every_object_is_stamped_anew mixed motors_data half [∅; ∅] 5 genesis eq_refl).
Defined.
